(** * Stack-trace processing pipeline of [sentry/stacktraces.py]

    A shallow embedding of the locator ([find_stacktraces_in_data]), the
    per-frame processor chain ([process_single_stacktrace]), the telemetry
    key ([get_metrics_key]) and the orchestrator ([process_stacktraces]),
    followed by the properties the specification states about them. *)

From Stdlib Require Import List String Ascii ZArith Bool Lia Arith Sorted.
Import ListNotations.
Open Scope string_scope.
Open Scope Z_scope.
Open Scope list_scope.
Set Warnings "-register-all".

(** ** Python values

    The event payload is a JSON-like document: dictionaries with string
    keys, lists, strings, integers, booleans and [None].  Tuples appear as
    processor results.  A dictionary is an association list kept in
    insertion order. *)

Inductive pyval : Type :=
| PyNone
| PyBool (b : bool)
| PyInt (z : Z)
| PyStr (s : string)
| PyList (l : list pyval)
| PyTuple (l : list pyval)
| PyDict (d : list (string * pyval)).

(** Exceptions the modelled code can raise.  [ProcessorError] stands for
    any instance of [Exception] thrown by a processor, [ProcessorExit] for
    what a processor raises that is a [BaseException] but no [Exception]:
    [KeyboardInterrupt], [SystemExit], [GeneratorExit]. *)
Inductive pyexn : Type :=
| KeyError (k : string)
| TypeError
| AttributeError
| ValueError
| ProcessorError (tag : string)
| ProcessorExit (tag : string).

(** [isinstance(e, Exception)], what [except Exception] catches. *)
Definition is_exception (e : pyexn) : bool :=
  match e with
  | ProcessorExit _ => false
  | _ => true
  end.

Inductive result (A : Type) : Type :=
| Ok (a : A)
| Raise (e : pyexn).
Arguments Ok {A} a.
Arguments Raise {A} e.

Definition bind {A B} (m : result A) (k : A -> result B) : result B :=
  match m with
  | Ok a => k a
  | Raise e => Raise e
  end.

Declare Scope py_scope.
Delimit Scope py_scope with py.
Notation "x <- m ;; k" := (bind m (fun x => k))
  (at level 100, m at next level, right associativity) : py_scope.
Notation "' p <- m ;; k" := (bind m (fun p => k))
  (at level 100, p pattern, m at next level, right associativity) : py_scope.
Open Scope py_scope.

(** Truth value of an object, as tested by [if], [or] and [not]. *)
Definition truthy (v : pyval) : bool :=
  match v with
  | PyNone => false
  | PyBool b => b
  | PyInt z => negb (z =? 0)
  | PyStr s => negb (String.eqb s "")
  | PyList l | PyTuple l => negb (Nat.eqb (List.length l) 0)
  | PyDict d => negb (Nat.eqb (List.length d) 0)
  end.

(** [a or b] where [b] is evaluated only when [a] is falsy. *)
Definition py_or (a : pyval) (b : result pyval) : result pyval :=
  if truthy a then Ok a else b.

Definition is_none (v : pyval) : bool :=
  match v with PyNone => true | _ => false end.

(** *** Dictionaries *)

Fixpoint dict_get (d : list (string * pyval)) (k : string) : option pyval :=
  match d with
  | [] => None
  | (k', v) :: d' => if String.eqb k k' then Some v else dict_get d' k
  end.

(** [d[k] = v]: an existing key keeps its position, a new key goes last. *)
Fixpoint dict_set (d : list (string * pyval)) (k : string) (v : pyval)
  : list (string * pyval) :=
  match d with
  | [] => [(k, v)]
  | (k', v') :: d' =>
      if String.eqb k k' then (k', v) :: d' else (k', v') :: dict_set d' k v
  end.

(** [o.get(k)] *)
Definition py_get (o : pyval) (k : string) : result pyval :=
  match o with
  | PyDict d => Ok (match dict_get d k with Some v => v | None => PyNone end)
  | _ => Raise AttributeError
  end.

(** [o[k]] for a string key [k] *)
Definition py_getitem (o : pyval) (k : string) : result pyval :=
  match o with
  | PyDict d =>
      match dict_get d k with
      | Some v => Ok v
      | None => Raise (KeyError k)
      end
  | _ => Raise TypeError
  end.

Fixpoint chars (s : string) : list pyval :=
  match s with
  | EmptyString => []
  | String c s' => PyStr (String c EmptyString) :: chars s'
  end.

(** The elements a [for] loop, [extend] or a tuple assignment draws from an
    object. *)
Definition py_iter (o : pyval) : result (list pyval) :=
  match o with
  | PyList l | PyTuple l => Ok l
  | PyDict d => Ok (map (fun kv => PyStr (fst kv)) d)
  | PyStr s => Ok (chars s)
  | _ => Raise TypeError
  end.

(** [len(o)] *)
Definition py_len (o : pyval) : result Z :=
  match o with
  | PyList l | PyTuple l => Ok (Z.of_nat (List.length l))
  | PyDict d => Ok (Z.of_nat (List.length d))
  | PyStr s => Ok (Z.of_nat (String.length s))
  | _ => Raise TypeError
  end.

(** *** Sets of hashable values *)

Fixpoint hashable (v : pyval) : bool :=
  match v with
  | PyNone | PyBool _ | PyInt _ | PyStr _ => true
  | PyTuple l => forallb hashable l
  | PyList _ | PyDict _ => false
  end.

Definition num_of (v : pyval) : option Z :=
  match v with
  | PyBool b => Some (if b then 1 else 0)
  | PyInt z => Some z
  | _ => None
  end.

(** Python's [==] on hashable values: booleans compare as the integers 0
    and 1, tuples element by element. *)
Fixpoint key_eqb (a b : pyval) : bool :=
  match a, b with
  | PyNone, PyNone => true
  | PyStr s, PyStr t => String.eqb s t
  | PyTuple l, PyTuple m =>
      (fix all2 (l m : list pyval) : bool :=
         match l, m with
         | [], [] => true
         | x :: l', y :: m' => key_eqb x y && all2 l' m'
         | _, _ => false
         end) l m
  | _, _ =>
      match num_of a, num_of b with
      | Some x, Some y => x =? y
      | _, _ => false
      end
  end.

Definition set_mem (x : pyval) (s : list pyval) : bool :=
  existsb (key_eqb x) s.

(** [s.add(x)] *)
Definition set_add (s : list pyval) (x : pyval) : result (list pyval) :=
  if hashable x then Ok (if set_mem x s then s else s ++ [x])
  else Raise TypeError.

(** [s.update(t)] for a set [t] *)
Definition set_update (s t : list pyval) : list pyval :=
  fold_left (fun acc x => if set_mem x acc then acc else acc ++ [x]) t s.

(** ** Locator: [find_stacktraces_in_data]

    A [StacktraceInfo] holds references to dictionaries inside the payload.
    The reference is kept in [ref], the place of the stack trace in the
    payload; [stacktrace] and [container] are the objects found there
    ([container] is [PyNone] for the top-level stack trace). *)

Inductive loc : Type :=
| LExc (n : nat)
| LTop
| LThread (n : nat).

Record StacktraceInfo : Type := mkInfo {
  stacktrace : pyval;
  container : pyval;
  platforms : list pyval;
  ref : loc
}.

(** The loop of [_report_stack] over the frames. *)
Fixpoint frame_platforms (data : pyval) (frames : list pyval)
    (platforms : list pyval) : result (list pyval) :=
  match frames with
  | [] => Ok platforms
  | frame :: rest =>
      own <- py_get frame "platform";;
      p <- py_or own (py_getitem data "platform");;
      platforms' <- set_add platforms p;;
      frame_platforms data rest platforms'
  end.

Definition _report_stack (data : pyval) (rv : list StacktraceInfo)
    (stacktrace container : pyval) (r : loc) : result (list StacktraceInfo) :=
  fr <- py_get stacktrace "frames";;
  fr' <- py_or fr (Ok (PyTuple []));;
  frames <- py_iter fr';;
  platforms <- frame_platforms data frames [];;
  Ok (rv ++ [mkInfo stacktrace container platforms r]).

(** [for exc in values: ...] for the exception and the thread section; [n]
    is the position of the item in the iteration. *)
Fixpoint scan_values (data : pyval) (mk : nat -> loc) (n : nat)
    (items : list pyval) (rv : list StacktraceInfo)
  : result (list StacktraceInfo) :=
  match items with
  | [] => Ok rv
  | item :: rest =>
      stacktrace <- py_get item "stacktrace";;
      rv' <- (if truthy stacktrace
              then _report_stack data rv stacktrace item (mk n)
              else Ok rv);;
      scan_values data mk (S n) rest rv'
  end.

Definition scan_section (data : pyval) (key : string) (mk : nat -> loc)
    (rv : list StacktraceInfo) : result (list StacktraceInfo) :=
  section <- py_get data key;;
  if truthy section then
    values <- py_getitem section "values";;
    items <- py_iter values;;
    scan_values data mk 0%nat items rv
  else Ok rv.

Definition find_stacktraces_in_data (data : pyval)
  : result (list StacktraceInfo) :=
  let rv := [] in
  rv <- scan_section data "sentry.interfaces.Exception" LExc rv;;
  stacktrace <- py_get data "sentry.interfaces.Stacktrace";;
  rv <- (if truthy stacktrace
         then _report_stack data rv stacktrace PyNone LTop
         else Ok rv);;
  rv <- scan_section data "threads" LThread rv;;
  Ok rv.

(** ** Telemetry key: [get_metrics_key] *)

Definition get_metrics_key (stacktrace_infos : list StacktraceInfo) : string :=
  let platforms :=
    fold_left (fun acc info => set_update acc (platforms info))
              stacktrace_infos [] in
  match platforms with
  | [platform] =>
      if key_eqb platform (PyStr "javascript") then "sourcemaps.process"
      else if key_eqb platform (PyStr "cocoa") then "dsym.process"
      else "mixed.process"
  | _ => "mixed.process"
  end.

(** ** Processors

    A processor is an external, stateful object.  Its state, and whatever
    else it can reach outside the payload, is a world of type [W] that
    every call may change.  A call returns a value or raises; what it
    raises is an instance of [Exception], the class that the handler of
    the chain catches, or it is not.

    A processor also holds the payload ([self.data], lines 20-22) and may
    write to it, which [preprocess_related_data] reports by returning a
    true value.  Such writes are not modelled: the payload of the model
    changes by the writes of the orchestrator alone (lines 203-213), and
    what is proved about the payload is proved about these writes. *)

Inductive outcome : Type :=
| Returned (v : pyval)
| Raised (e : pyexn).

(** What a run does, in the order it does it: the calls of the processor
    at position [j] of the list ([process_frame] with the frame and the
    reverse index, [preprocess_related_data] with the truth value of what
    it returned, [close]), the fault passed to [logger.exception], the
    writes to the payload (frames replaced at a place, raw stack trace
    attached at a place, [n] errors appended), and the report of the
    timer. *)
Inductive event : Type :=
| EProcessFrame (j : nat) (frame : pyval) (idx : Z)
| ELogException (e : pyexn)
| EPreprocess (j : nat) (dirty : bool)
| EReplaceFrames (r : loc)
| EAttachRaw (r : loc)
| EAppendErrors (n : nat)
| EClose (j : nat)
| ETimer (key : string) (instance : pyval).

Section Pipeline.

Variable W : Type.

Record StacktraceProcessor : Type := mkProcessor {
  close : W -> W * outcome;
  preprocess_related_data : W -> W * outcome;
  process_frame : W -> pyval -> StacktraceInfo -> Z -> W * outcome
}.

Record state : Type := mkState {
  world : W;
  log : list event
}.

Definition emit (st : state) (w : W) (evs : list event) : state :=
  mkState w (log st ++ evs).

(** ** Frame chain: [process_single_stacktrace] *)

(** The local variables of [process_single_stacktrace]. *)
Record locals : Type := mkLocals {
  changed_raw : bool;
  changed_processed : bool;
  raw_frames : list pyval;
  processed_frames : list pyval;
  all_errors : list pyval;
  need_processed_frame : bool;
  need_raw_frame : bool;
  errors : pyval
}.

(** [a, b, c = o] *)
Definition unpack3 (o : pyval) : result (pyval * pyval * pyval) :=
  l <- py_iter o;;
  match l with
  | [a; b; c] => Ok (a, b, c)
  | _ => Raise ValueError
  end.

(** Lines 137-146: what follows a call that returned a value other than
    [None]. *)
Definition use_result (rv : pyval) (vars : locals) : result locals :=
  t <- py_or rv (Ok (PyTuple [PyNone; PyNone; PyNone]));;
  ' (expand_processed, expand_raw, errs) <- unpack3 t;;
  let vars :=
    mkLocals (changed_raw vars) (changed_processed vars) (raw_frames vars)
             (processed_frames vars) (all_errors vars)
             (need_processed_frame vars) (need_raw_frame vars) errs in
  vars <- (if is_none expand_processed then Ok vars else
             xs <- py_iter expand_processed;;
             Ok (mkLocals (changed_raw vars) true (raw_frames vars)
                          (processed_frames vars ++ xs) (all_errors vars)
                          false (need_raw_frame vars) (errors vars)));;
  if is_none expand_raw then Ok vars else
    xs <- py_iter expand_raw;;
    Ok (mkLocals true (changed_processed vars) (raw_frames vars ++ xs)
                 (processed_frames vars) (all_errors vars)
                 (need_processed_frame vars) false (errors vars)).

(** Lines 127-148: [for processor in processors], [j] being the position
    of the processor in the list. *)
Fixpoint try_processors (processors : list StacktraceProcessor) (j : nat)
    (frame : pyval) (info : StacktraceInfo) (idx : Z)
    (st : state) (vars : locals) : result (state * locals) :=
  match processors with
  | [] => Ok (st, vars)
  | processor :: rest =>
      let (w, out) := process_frame processor (world st) frame info idx in
      let st1 := emit st w [EProcessFrame j frame idx] in
      match out with
      | Raised e =>
          if is_exception e
          then try_processors rest (S j) frame info idx
                              (emit st1 w [ELogException e]) vars
          else Raise e
      | Returned rv =>
          if is_none rv
          then try_processors rest (S j) frame info idx st1 vars
          else vars' <- use_result rv vars;; Ok (st1, vars')
      end
  end.

(** Lines 124-154: the body of the loop over the frames. *)
Definition process_one_frame (processors : list StacktraceProcessor)
    (info : StacktraceInfo) (frame_count idx : Z) (frame : pyval)
    (st : state) (vars : locals) : result (state * locals) :=
  let vars :=
    mkLocals (changed_raw vars) (changed_processed vars) (raw_frames vars)
             (processed_frames vars) (all_errors vars) true true PyNone in
  ' (st, vars) <- try_processors processors 0%nat frame info
                                 (frame_count - idx - 1) st vars;;
  let processed_frames' :=
    if need_processed_frame vars then processed_frames vars ++ [frame]
    else processed_frames vars in
  let raw_frames' :=
    if need_raw_frame vars then raw_frames vars ++ [frame]
    else raw_frames vars in
  errs <- (e <- py_or (errors vars) (Ok (PyTuple []));; py_iter e);;
  Ok (st, mkLocals (changed_raw vars) (changed_processed vars) raw_frames'
                   processed_frames' (all_errors vars ++ errs)
                   (need_processed_frame vars) (need_raw_frame vars)
                   (errors vars)).

(** Line 123: [for idx, frame in enumerate(...)]. *)
Fixpoint each_frame (processors : list StacktraceProcessor)
    (info : StacktraceInfo) (frame_count idx : Z) (frames : list pyval)
    (st : state) (vars : locals) : result (state * locals) :=
  match frames with
  | [] => Ok (st, vars)
  | frame :: rest =>
      ' (st, vars) <- process_one_frame processors info frame_count idx
                                        frame st vars;;
      each_frame processors info frame_count (idx + 1) rest st vars
  end.

(** [dict(o, k=v)] *)
Definition py_dict_with (o : pyval) (k : string) (v : pyval) : result pyval :=
  match o with
  | PyDict d => Ok (PyDict (dict_set d k v))
  | _ => Raise TypeError
  end.

Definition initial_locals : locals :=
  mkLocals false false [] [] [] true true PyNone.

Definition process_single_stacktrace (stacktrace_info : StacktraceInfo)
    (processors : list StacktraceProcessor) (st : state)
  : result (state * (pyval * pyval * pyval)) :=
  fr <- py_getitem (stacktrace stacktrace_info) "frames";;
  frame_count <- py_len fr;;
  frames <- py_iter fr;;
  ' (st, vars) <- each_frame processors stacktrace_info frame_count 0 frames
                             st initial_locals;;
  new_stacktrace <-
    (if changed_processed vars
     then py_dict_with (stacktrace stacktrace_info) "frames"
                       (PyList (processed_frames vars))
     else Ok PyNone);;
  raw_stacktrace <-
    (if changed_raw vars
     then py_dict_with (stacktrace stacktrace_info) "frames"
                       (PyList (raw_frames vars))
     else Ok PyNone);;
  Ok (st, (new_stacktrace, raw_stacktrace, PyList (all_errors vars))).

(** ** Result merger and orchestrator: [process_stacktraces]

    The payload is one mutable document and the records refer into it, so
    the writes of the merger go to the place [ref] of the record.  The
    payload is a tree: the dictionaries at distinct places are distinct
    objects, and the stack trace of a record is as the locator found it
    until the merger writes to it, after its own chain has run. *)

Fixpoint update_nth {A} (n : nat) (f : A -> A) (l : list A) : list A :=
  match l, n with
  | [], _ => []
  | x :: l', O => f x :: l'
  | x :: l', S n' => x :: update_nth n' f l'
  end.

(** In-place change of the object stored under [k]. *)
Definition dict_update (k : string) (f : pyval -> pyval) (o : pyval) : pyval :=
  match o with
  | PyDict d =>
      match dict_get d k with
      | Some v => PyDict (dict_set d k (f v))
      | None => o
      end
  | _ => o
  end.

(** In-place change of the [n]-th item of a sequence. *)
Definition item_update (n : nat) (f : pyval -> pyval) (o : pyval) : pyval :=
  match o with
  | PyList l => PyList (update_nth n f l)
  | PyTuple l => PyTuple (update_nth n f l)
  | _ => o
  end.

(** The payload after the container referred to by [r] was changed by [f]. *)
Definition at_container (r : loc) (f : pyval -> pyval) (data : pyval) : pyval :=
  match r with
  | LExc n =>
      dict_update "sentry.interfaces.Exception"
                  (dict_update "values" (item_update n f)) data
  | LThread n =>
      dict_update "threads" (dict_update "values" (item_update n f)) data
  | LTop => data
  end.

(** The payload after the stack trace referred to by [r] was changed. *)
Definition at_stacktrace (r : loc) (f : pyval -> pyval) (data : pyval) : pyval :=
  match r with
  | LTop => dict_update "sentry.interfaces.Stacktrace" f data
  | _ => at_container r (dict_update "stacktrace" f) data
  end.

(** [o[k] = v] on a dictionary *)
Definition py_setitem (k : string) (v : pyval) (o : pyval) : pyval :=
  match o with
  | PyDict d => PyDict (dict_set d k v)
  | _ => o
  end.

(** [data.setdefault('errors', []).extend(errors)] *)
Definition extend_errors (data : pyval) (errors : list pyval) : result pyval :=
  match data with
  | PyDict d =>
      match dict_get d "errors" with
      | None => Ok (PyDict (dict_set d "errors" (PyList errors)))
      | Some (PyList l) =>
          Ok (PyDict (dict_set d "errors" (PyList (l ++ errors))))
      | Some _ => Raise AttributeError
      end
  | _ => Raise AttributeError
  end.

(** Lines 196-198 *)
Fixpoint run_preprocess (processors : list StacktraceProcessor) (j : nat)
    (st : state) (changed : bool) : result (state * bool) :=
  match processors with
  | [] => Ok (st, changed)
  | processor :: rest =>
      let (w, out) := preprocess_related_data processor (world st) in
      match out with
      | Raised e => Raise e
      | Returned v =>
          run_preprocess rest (S j) (emit st w [EPreprocess j (truthy v)])
                         (if truthy v then true else changed)
      end
  end.

(** Lines 201-213: the body of the loop over the stack traces. *)
Definition merge_one (processors : list StacktraceProcessor)
    (stacktrace_info : StacktraceInfo) (st : state) (data : pyval)
    (changed : bool) : result (state * (pyval * bool)) :=
  ' (st, (new_stacktrace, raw_stacktrace, errors)) <-
      process_single_stacktrace stacktrace_info processors st;;
  let r := ref stacktrace_info in
  let '(st, (data, changed)) :=
    if is_none new_stacktrace then (st, (data, changed))
    else (emit st (world st) [EReplaceFrames r],
          (at_stacktrace r (fun _ => new_stacktrace) data, true)) in
  let '(st, (data, changed)) :=
    if negb (is_none raw_stacktrace)
       && negb (is_none (container stacktrace_info))
    then (emit st (world st) [EAttachRaw r],
          (at_container r (py_setitem "raw_stacktrace" raw_stacktrace) data,
           true))
    else (st, (data, changed)) in
  if truthy errors then
    errs <- py_iter errors;;
    data <- extend_errors data errs;;
    Ok (emit st (world st) [EAppendErrors (List.length errs)], (data, true))
  else Ok (st, (data, changed)).

Fixpoint merge_all (processors : list StacktraceProcessor)
    (infos : list StacktraceInfo) (st : state) (data : pyval)
    (changed : bool) : result (state * (pyval * bool)) :=
  match infos with
  | [] => Ok (st, (data, changed))
  | stacktrace_info :: rest =>
      ' (st, (data, changed)) <-
          merge_one processors stacktrace_info st data changed;;
      merge_all processors rest st data changed
  end.

(** Lines 215-216 *)
Fixpoint run_close (processors : list StacktraceProcessor) (j : nat)
    (st : state) : result state :=
  match processors with
  | [] => Ok st
  | processor :: rest =>
      let (w, out) := close processor (world st) in
      match out with
      | Raised e => Raise e
      | Returned _ => run_close rest (S j) (emit st w [EClose j])
      end
  end.

(** Modelled from the spec: [metrics.timer] of [sentry.utils.metrics] is
    not among the sources.  The sink accepts a key, a duration and the
    project tag; the duration is left out, and the report is made when the
    [with] block is left. *)
Definition metrics_timer (key : string) (instance : pyval) (st : state)
  : state :=
  emit st (world st) [ETimer key instance].

(** Lines 191-216: the run once processors were obtained; the result holds
    the payload and the [changed] flag. *)
Definition run_processors (processors : list StacktraceProcessor)
    (infos : list StacktraceInfo) (data : pyval) (st : state)
  : result (state * (pyval * bool)) :=
  let changed := false in
  let mkey := get_metrics_key infos in
  instance <- py_getitem data "project";;
  ' (st, changed) <- run_preprocess processors 0%nat st changed;;
  ' (st, (data, changed)) <- merge_all processors infos st data changed;;
  st <- run_close processors 0%nat st;;
  Ok (metrics_timer mkey instance st, (data, changed)).

(** [make_processors] is the caller's factory, or the plugin registry
    behind [get_processors_for_stacktraces]. *)
Definition process_stacktraces
    (make_processors : pyval -> list StacktraceInfo -> list StacktraceProcessor)
    (data : pyval) (st : state) : result (state * pyval) :=
  infos <- find_stacktraces_in_data data;;
  let processors := make_processors data infos in
  match processors with
  | [] => Ok (st, PyNone)
  | _ :: _ =>
      ' (st, (data, changed)) <- run_processors processors infos data st;;
      if changed then Ok (st, data) else Ok (st, PyNone)
  end.

End Pipeline.

Arguments mkProcessor {W} _ _ _.
Arguments close {W} _ _.
Arguments preprocess_related_data {W} _ _.
Arguments process_frame {W} _ _ _ _ _.
Arguments mkState {W} _ _.
Arguments world {W} _.
Arguments log {W} _.
Arguments emit {W} _ _ _.
Arguments use_result _ _ : assert.
Arguments try_processors {W} _ _ _ _ _ _ _.
Arguments process_one_frame {W} _ _ _ _ _ _ _.
Arguments each_frame {W} _ _ _ _ _ _ _.
Arguments process_single_stacktrace {W} _ _ _.
Arguments run_preprocess {W} _ _ _ _.
Arguments merge_one {W} _ _ _ _ _.
Arguments merge_all {W} _ _ _ _ _.
Arguments run_close {W} _ _ _.
Arguments metrics_timer {W} _ _ _.
Arguments run_processors {W} _ _ _ _.
Arguments process_stacktraces {W} _ _ _.

(** ** Reading the event log *)

(** The [process_frame] calls of a log: processor position, frame and
    reverse index. *)
Fixpoint invocations (evs : list event) : list (nat * pyval * Z) :=
  match evs with
  | [] => []
  | EProcessFrame j frame idx :: evs' => (j, frame, idx) :: invocations evs'
  | _ :: evs' => invocations evs'
  end.

Fixpoint timers (evs : list event) : list (string * pyval) :=
  match evs with
  | [] => []
  | ETimer k i :: evs' => (k, i) :: timers evs'
  | _ :: evs' => timers evs'
  end.

(** The events that go with [changed = True]. *)
Definition dirty_event (ev : event) : bool :=
  match ev with
  | EPreprocess _ dirty => dirty
  | EReplaceFrames _ | EAttachRaw _ | EAppendErrors _ => true
  | _ => false
  end.

(** A call that claims nothing: it returns [None], or it raises what the
    handler of the chain catches. *)
Definition no_opinion (o : outcome) : bool :=
  match o with
  | Returned rv => is_none rv
  | Raised e => is_exception e
  end.

(** [all_decline frame info idx ps w w']: called in order from world [w],
    every processor of [ps] gives no opinion on the frame, and the world is
    then [w']. *)
Inductive all_decline {W : Type} (frame : pyval) (info : StacktraceInfo)
    (idx : Z) : list (StacktraceProcessor W) -> W -> W -> Prop :=
| decline_nil w : all_decline frame info idx [] w w
| decline_cons p ps w w1 w2 o :
    process_frame p w frame info idx = (w1, o) ->
    no_opinion o = true ->
    all_decline frame info idx ps w1 w2 ->
    all_decline frame info idx (p :: ps) w w2.

(** ** The chain as the specification words it

    For one frame the match is the first call, in registration order, that
    does not give no opinion: a call that raises an [Exception] counts as
    one that returns [None].  The match is a returned value other than
    [None], or a raise that the handler does not catch and that ends the
    chain. *)
Fixpoint first_match {W : Type} (processors : list (StacktraceProcessor W))
    (w : W) (frame : pyval) (info : StacktraceInfo) (idx : Z)
  : W * option outcome :=
  match processors with
  | [] => (w, None)
  | p :: rest =>
      let (w', o) := process_frame p w frame info idx in
      if no_opinion o then first_match rest w' frame info idx
      else (w', Some o)
  end.

(** The matches of a trace, frame by frame; the frame at position [i] of
    [L] frames is offered with reverse index [L - 1 - i], which is the
    number of frames after it.  A match that is a raise ends the trace:
    the matches listed after it are not looked for by the code, and
    [read_contributions] below gives [None] for the list. *)
Fixpoint trace_matches {W : Type} (processors : list (StacktraceProcessor W))
    (info : StacktraceInfo) (frames : list pyval) (w : W)
  : W * list (pyval * option outcome) :=
  match frames with
  | [] => (w, [])
  | frame :: rest =>
      let (w1, m) := first_match processors w frame info
                                 (Z.of_nat (List.length rest)) in
      let (w2, ms) := trace_matches processors info rest w1 in
      (w2, (frame, m) :: ms)
  end.

(** What a match contributes for its frame: a replacement sequence for the
    processed variant, one for the raw variant, and errors. *)
Record contribution : Type := mkContribution {
  processed_expansion : option (list pyval);
  raw_expansion : option (list pyval);
  frame_errors : list pyval
}.

Definition no_contribution : contribution := mkContribution None None [].

(** An expansion field: [None] is no opinion for the variant, anything
    else must be a sequence of frames. *)
Definition read_expansion (field : pyval) : option (option (list pyval)) :=
  if is_none field then Some None
  else match py_iter field with
       | Ok xs => Some (Some xs)
       | Raise _ => None
       end.

Definition read_errors (field : pyval) : option (list pyval) :=
  if truthy field
  then match py_iter field with Ok xs => Some xs | Raise _ => None end
  else Some [].

(** The contribution of a match, or [None] when the returned value is not
    of the shape the processor interface asks for, or when the match is a
    raise that ends the chain. *)
Definition read_contribution (m : option outcome) : option contribution :=
  match m with
  | None => Some no_contribution
  | Some (Raised _) => None
  | Some (Returned rv) =>
      if truthy rv then
        match py_iter rv with
        | Ok [a; b; c] =>
            match read_expansion a, read_expansion b, read_errors c with
            | Some p, Some r, Some e => Some (mkContribution p r e)
            | _, _, _ => None
            end
        | _ => None
        end
      else Some no_contribution
  end.

Fixpoint read_contributions (ms : list (pyval * option outcome))
  : option (list (pyval * contribution)) :=
  match ms with
  | [] => Some []
  | (frame, m) :: rest =>
      match read_contribution m, read_contributions rest with
      | Some c, Some cs => Some ((frame, c) :: cs)
      | _, _ => None
      end
  end.

(** The part of an output variant that comes from one frame: the expansion
    contributed for it, or else the frame itself. *)
Definition processed_part (fc : pyval * contribution) : list pyval :=
  match processed_expansion (snd fc) with
  | Some xs => xs
  | None => [fst fc]
  end.

Definition raw_part (fc : pyval * contribution) : list pyval :=
  match raw_expansion (snd fc) with
  | Some xs => xs
  | None => [fst fc]
  end.

Definition expands_processed (fc : pyval * contribution) : bool :=
  match processed_expansion (snd fc) with Some _ => true | None => false end.

Definition expands_raw (fc : pyval * contribution) : bool :=
  match raw_expansion (snd fc) with Some _ => true | None => false end.

(** ** Faults as no opinion *)



Definition without_faults (evs : list event) : list event :=
  filter (fun ev => match ev with ELogException _ => false | _ => true end) evs.

(** Two states that differ at most in the faults that were logged. *)
Definition same_but_faults {W : Type} (s1 s2 : state W) : Prop :=
  world s1 = world s2 /\ without_faults (log s1) = without_faults (log s2).

(** Two runs that end alike: with the same exception, or with the same
    value in states that differ at most in the logged faults. *)
Definition agree {W A : Type} (r1 r2 : result (state W * A)) : Prop :=
  match r1, r2 with
  | Ok (s1, a1), Ok (s2, a2) => same_but_faults s1 s2 /\ a1 = a2
  | Raise e1, Raise e2 => e1 = e2
  | _, _ => False
  end.

(** The local variables once a match with contribution [c] and error
    field [e] was used. *)
Definition absorb (c : contribution) (e : pyval) (vars : locals) : locals :=
  mkLocals
    (match raw_expansion c with Some _ => true | None => changed_raw vars end)
    (match processed_expansion c with
     | Some _ => true
     | None => changed_processed vars
     end)
    (raw_frames vars
       ++ match raw_expansion c with Some xs => xs | None => [] end)
    (processed_frames vars
       ++ match processed_expansion c with Some xs => xs | None => [] end)
    (all_errors vars)
    (match processed_expansion c with
     | Some _ => false
     | None => need_processed_frame vars
     end)
    (match raw_expansion c with Some _ => false | None => need_raw_frame vars end)
    e.

(** The accumulators of the loop over the frames after the frames of [cs]
    were handled. *)
Definition accumulate (cs : list (pyval * contribution)) (vars : locals)
    (t1 t2 : bool) (t3 : pyval) : locals :=
  mkLocals (changed_raw vars || existsb expands_raw cs)
           (changed_processed vars || existsb expands_processed cs)
           (raw_frames vars ++ flat_map raw_part cs)
           (processed_frames vars ++ flat_map processed_part cs)
           (all_errors vars ++ flat_map (fun fc => frame_errors (snd fc)) cs)
           t1 t2 t3.

(** Events of the frame chain: they neither mark the run as changed nor
    report a timer. *)
Definition chain_events (evs : list event) : Prop :=
  existsb dirty_event evs = false /\ timers evs = [].

Definition is_dict (v : pyval) : bool :=
  match v with PyDict _ => true | _ => false end.

(** ** The locator as the specification words it *)

(** Priority order of the places: exceptions in list order, then the
    top-level stack trace, then threads in list order. *)
Definition loc_lt (a b : loc) : Prop :=
  match a, b with
  | LExc m, LExc n => (m < n)%nat
  | LExc _, (LTop | LThread _) => True
  | LTop, LThread _ => True
  | LThread m, LThread n => (m < n)%nat
  | _, _ => False
  end.

(** The items of the exception or thread section, none when the section
    is absent or empty. *)
Definition section_items (data : pyval) (key : string) : result (list pyval) :=
  section <- py_get data key;;
  if truthy section then
    values <- py_getitem section "values";;
    py_iter values
  else Ok [].

Definition option_of {A} (r : result A) : option A :=
  match r with
  | Ok a => Some a
  | Raise _ => None
  end.

(** The container at a place of the payload: an exception, a thread, or
    [None] for the top-level stack trace. *)
Definition located_container (data : pyval) (r : loc) : option pyval :=
  match r with
  | LExc n =>
      match section_items data "sentry.interfaces.Exception" with
      | Ok items => nth_error items n
      | Raise _ => None
      end
  | LTop => Some PyNone
  | LThread n =>
      match section_items data "threads" with
      | Ok items => nth_error items n
      | Raise _ => None
      end
  end.

(** The stack trace at a place of the payload. *)
Definition located_stacktrace (data : pyval) (r : loc) : option pyval :=
  match r with
  | LTop => option_of (py_get data "sentry.interfaces.Stacktrace")
  | _ =>
      match located_container data r with
      | Some c => option_of (py_get c "stacktrace")
      | None => None
      end
  end.

(** The frames of a stack trace, none when it has no frame list. *)
Definition frames_of (stacktrace : pyval) : result (list pyval) :=
  fr <- py_get stacktrace "frames";;
  fr' <- py_or fr (Ok (PyTuple []));;
  py_iter fr'.

(** The platform override of the frame, or else the event platform. *)
Definition effective_platform (data frame : pyval) : result pyval :=
  own <- py_get frame "platform";;
  py_or own (py_getitem data "platform").

(** [pl] is the set of the effective platforms of [frames]. *)
Definition platform_set (data : pyval) (frames pl : list pyval) : Prop :=
  (forall f, In f frames ->
     exists p, effective_platform data f = Ok p /\ set_mem p pl = true) /\
  (forall q, In q pl ->
     exists f, In f frames /\ effective_platform data f = Ok q) /\
  (frames = [] -> pl = []).

(** A record that describes a stack trace present in the payload. *)
Definition describes (data : pyval) (info : StacktraceInfo) : Prop :=
  located_stacktrace data (ref info) = Some (stacktrace info) /\
  truthy (stacktrace info) = true /\
  located_container data (ref info) = Some (container info) /\
  exists frames,
    frames_of (stacktrace info) = Ok frames /\
    platform_set data frames (platforms info).

(** The records one section adds: [ks] are the positions of its items
    that hold a stack trace. *)
Definition section_records (data : pyval) (mk : nat -> loc) (n : nat) (items : list pyval)
    (new : list StacktraceInfo) : Prop :=
  (exists ks, map ref new = map mk ks /\
              StronglySorted lt ks /\ Forall (fun k => n <= k)%nat ks) /\
  (forall info, In info new ->
     exists k, ref info = mk (n + k)%nat /\
               nth_error items k = Some (container info) /\
               py_get (container info) "stacktrace" = Ok (stacktrace info) /\
               truthy (stacktrace info) = true /\
               exists frames,
                 frames_of (stacktrace info) = Ok frames /\
                 platform_set data frames (platforms info)) /\
  (forall k c s, nth_error items k = Some c ->
                 py_get c "stacktrace" = Ok s ->
                 truthy s = true ->
                 exists info, In info new /\ ref info = mk (n + k)%nat).

(** The entry [key] of [o] is absent or empty: [o.get(key)] is falsy. *)
Definition section_absent (o : pyval) (key : string) : Prop :=
  exists v, py_get o key = Ok v /\ truthy v = false.

(** A stack trace the locator can report: its frames can be listed and
    each has an effective platform that can be a member of a set. *)
Definition reportable (data stacktrace : pyval) : Prop :=
  exists frames,
    frames_of stacktrace = Ok frames /\
    forall f, In f frames ->
      exists p, effective_platform data f = Ok p /\ hashable p = true.

(** Items of a section that are dictionaries whose stack trace, when
    present, can be reported. *)
Definition scannable (data : pyval) (items : list pyval) : Prop :=
  forall c, In c items ->
    exists s, py_get c "stacktrace" = Ok s /\
              (truthy s = true -> reportable data s).

(** A payload of the shape the locator expects: a dictionary whose
    sections, where present, have their value list. *)
Definition well_shaped (data : pyval) : Prop :=
  (exists items, section_items data "sentry.interfaces.Exception" = Ok items
                 /\ scannable data items) /\
  (exists top, py_get data "sentry.interfaces.Stacktrace" = Ok top
               /\ (truthy top = true -> reportable data top)) /\
  (exists items, section_items data "threads" = Ok items
                 /\ scannable data items).

(** ** Sample processors and payloads

    The world of the sample processors counts their [process_frame]
    calls. *)

(** The base class: no opinion on any frame. *)
Definition idle_processor : StacktraceProcessor nat :=
  mkProcessor (fun w => (w, Returned PyNone))
              (fun w => (w, Returned (PyBool false)))
              (fun w _ _ _ => (S w, Returned PyNone)).

(** A processor whose [process_frame] raises an [Exception]. *)
Definition faulty_processor : StacktraceProcessor nat :=
  mkProcessor (fun w => (w, Returned PyNone))
              (fun w => (w, Returned (PyBool false)))
              (fun w _ _ _ => (S w, Raised (ProcessorError "boom"))).


(** A processor that answers [rv] for every frame. *)
Definition claiming_processor (rv : pyval) : StacktraceProcessor nat :=
  mkProcessor (fun w => (w, Returned PyNone))
              (fun w => (w, Returned (PyBool false)))
              (fun w _ _ _ => (S w, Returned rv)).

(** A processor that claims only the frame with reverse index 0 and
    reports one error for it. *)
Definition innermost_processor (e : pyval) : StacktraceProcessor nat :=
  mkProcessor (fun w => (w, Returned PyNone))
              (fun w => (w, Returned (PyBool false)))
              (fun w _ _ idx =>
                 (S w, Returned (if idx =? 0
                                 then PyTuple [PyNone; PyNone; PyList [e]]
                                 else PyNone))).

(** A processor whose preprocess hook reports a mutation. *)
Definition dirty_processor : StacktraceProcessor nat :=
  mkProcessor (fun w => (w, Returned PyNone))
              (fun w => (w, Returned (PyBool true)))
              (fun w _ _ _ => (S w, Returned PyNone)).

Definition frame_a : pyval := PyDict [("function", PyStr "main")].
Definition frame_b : pyval :=
  PyDict [("function", PyStr "run"); ("platform", PyStr "javascript")].
Definition frame_c : pyval := PyDict [("function", PyStr "handler")].

Definition sample_stacktrace : pyval :=
  PyDict [("frames", PyList [frame_a; frame_b; frame_c])].

Definition sample_exception : pyval :=
  PyDict [("type", PyStr "ValueError"); ("stacktrace", sample_stacktrace)].

Definition sample_event : pyval :=
  PyDict [("project", PyInt 1);
          ("platform", PyStr "python");
          ("sentry.interfaces.Exception",
           PyDict [("values", PyList [sample_exception])])].

Definition sample_info : StacktraceInfo :=
  mkInfo sample_stacktrace sample_exception
         [PyStr "python"; PyStr "javascript"] (LExc 0).

Definition start : state nat := mkState 0%nat [].

(** A processor that replaces only the raw variant of the innermost frame,
    by two frames, and reports nothing else. *)
Definition raw_only_processor : StacktraceProcessor nat :=
  mkProcessor (fun w => (w, Returned PyNone))
              (fun w => (w, Returned (PyBool false)))
              (fun w _ _ idx =>
                 (S w, Returned (if idx =? 0
                                 then PyTuple [PyNone;
                                               PyList [frame_c; frame_a];
                                               PyNone]
                                 else PyNone))).

(** What [idle_processor] followed by [raw_only_processor] contribute for
    the frames of [sample_stacktrace]. *)
Definition sample_contributions : list (pyval * contribution) :=
  [(frame_a, no_contribution);
   (frame_b, no_contribution);
   (frame_c, mkContribution None (Some [frame_c; frame_a]) [])].

(** A match with a raw expansion and an error, and no processed
    expansion. *)
Definition sample_match : pyval :=
  PyTuple [PyNone; PyList [frame_c; frame_a]; PyList [PyStr "bad"]].

(** The value a run returns, if it returns. *)
Definition returned {W A : Type} (r : result (state W * A)) : option A :=
  match r with
  | Ok (_, a) => Some a
  | Raise _ => None
  end.

(** An event without any stack trace. *)
Definition bare_event : pyval :=
  PyDict [("project", PyInt 1); ("platform", PyStr "python")].

(** An event whose stack trace has no frame list. *)
Definition headless_event : pyval :=
  PyDict [("project", PyInt 1);
          ("platform", PyStr "python");
          ("sentry.interfaces.Stacktrace",
           PyDict [("frames_omitted", PyList [PyInt 1; PyInt 2])])].

(** An event whose exception container has no value list. *)
Definition valueless_event : pyval :=
  PyDict [("project", PyInt 1);
          ("platform", PyStr "python");
          ("sentry.interfaces.Exception",
           PyDict [("exc_omitted", PyList [PyInt 0; PyInt 1])])].

(** The scenario of the specification: one exception with a stack trace of
    three frames; [extra] holds the error list the event has so far, if
    any. *)
Definition scenario_stacktrace (f0 f1 f2 : pyval) : pyval :=
  PyDict [("frames", PyList [f0; f1; f2])].

Definition scenario_exception (f0 f1 f2 : pyval) : pyval :=
  PyDict [("stacktrace", scenario_stacktrace f0 f1 f2)].

Definition scenario_event (f0 f1 f2 : pyval) (extra : list (string * pyval))
  : pyval :=
  PyDict ([("project", PyInt 1);
           ("platform", PyStr "python");
           ("sentry.interfaces.Exception",
            PyDict [("values", PyList [scenario_exception f0 f1 f2])])]
            ++ extra).

(** The error list of the scenario event: absent, or holding [l]. *)
Definition errors_entry (old : option (list pyval)) : list (string * pyval) :=
  match old with
  | None => []
  | Some l => [("errors", PyList l)]
  end.

Definition errors_so_far (old : option (list pyval)) : list pyval :=
  match old with
  | None => []
  | Some l => l
  end.

(** ** The base class and the plugins

    [StacktraceProcessor] itself (lines 18-37): hooks that do nothing, and
    the platform a processor takes a frame to have. *)

(** [get_effective_platform] (line 34), [data] being [self.data]. *)
Definition get_effective_platform (data frame : pyval) : result pyval :=
  own <- py_get frame "platform";;
  py_or own (py_getitem data "platform").

(** An instance of the base class: [close] and [process_frame] return
    [None], [preprocess_related_data] returns [False]; none of them
    changes anything. *)
Definition base_processor {W : Type} : StacktraceProcessor W :=
  mkProcessor (fun w => (w, Returned PyNone))
              (fun w => (w, Returned (PyBool false)))
              (fun w _ _ _ => (w, Returned PyNone)).

(** [platforms.update(info.platforms or ())] over the records (lines
    80-82 and 96-98). *)
Definition all_platforms (infos : list StacktraceInfo) : list pyval :=
  fold_left (fun acc info => set_update acc (platforms info)) infos [].

Section Plugins.

Variable W : Type.

(** A processor class: called with the payload, the records and the
    project, it gives an instance. *)
Definition processor_class : Type :=
  pyval -> list StacktraceInfo -> pyval -> StacktraceProcessor W.

(** What [plugin.get_stacktrace_processors] does with the payload, the
    records and the platforms: it returns [None] or a list of classes, or
    it raises. *)
Inductive supply : Type :=
| Supplied (classes : option (list processor_class))
| SupplyFailed (e : pyexn).

Definition plugin : Type :=
  pyval -> list StacktraceInfo -> list pyval -> supply.

(** Modelled from the spec: [safe_execute] of [sentry.utils.safe] is not
    among the sources.  A plugin whose supply call fails is isolated and
    contributes no processor: the call gives [None] then, and the value of
    the function otherwise. *)
Definition safe_execute (s : supply) : option (list processor_class) :=
  match s with
  | Supplied classes => classes
  | SupplyFailed _ => None
  end.

(** [x or ()] for what a plugin supplied. *)
Definition or_empty (classes : option (list processor_class))
  : list processor_class :=
  match classes with
  | Some l => l
  | None => []
  end.

(** Lines 83-90: the loop of [should_process_for_stacktraces]. *)
Fixpoint any_plugin_supplies (plugins : list plugin) (data : pyval)
    (infos : list StacktraceInfo) (platforms : list pyval) : bool :=
  match plugins with
  | [] => false
  | p :: rest =>
      match safe_execute (p data infos platforms) with
      | Some (_ :: _) => true
      | _ => any_plugin_supplies rest data infos platforms
      end
  end.

(** [plugins] is what [plugins.all(version=2)] lists. *)
Definition should_process_for_stacktraces (plugins : list plugin)
    (data : pyval) : result bool :=
  infos <- find_stacktraces_in_data data;;
  Ok (any_plugin_supplies plugins data infos (all_platforms infos)).

(** Lines 100-105: [processors.extend(... or ())] for every plugin. *)
Fixpoint collect_classes (plugins : list plugin) (data : pyval)
    (infos : list StacktraceInfo) (platforms : list pyval)
    (processors : list processor_class) : list processor_class :=
  match plugins with
  | [] => processors
  | p :: rest =>
      collect_classes rest data infos platforms
        (processors ++ or_empty (safe_execute (p data infos platforms)))
  end.

(** [get_from_cache] is [Project.objects.get_from_cache], from the
    identifier of the project to the project. *)
Definition get_processors_for_stacktraces (plugins : list plugin)
    (get_from_cache : pyval -> result pyval)
    (data : pyval) (infos : list StacktraceInfo)
  : result (list (StacktraceProcessor W)) :=
  let platforms := all_platforms infos in
  let processors := collect_classes plugins data infos platforms [] in
  match processors with
  | [] => Ok []
  | _ :: _ =>
      id <- py_getitem data "project";;
      project <- get_from_cache id;;
      Ok (map (fun x => x data infos project) processors)
  end.

(** [process_stacktraces(data)], with [make_processors] left at [None]:
    the processors come from the plugins (lines 180-182).  The locator
    only reads the payload, so that [process_stacktraces] below finds the
    records this definition has handed to the plugins. *)
Definition process_stacktraces_by_plugins (plugins : list plugin)
    (get_from_cache : pyval -> result pyval)
    (data : pyval) (st : state W) : result (state W * pyval) :=
  infos <- find_stacktraces_in_data data;;
  processors <- get_processors_for_stacktraces plugins get_from_cache
                                               data infos;;
  process_stacktraces (fun _ _ => processors) data st.

End Plugins.

Arguments Supplied {W} _.
Arguments SupplyFailed {W} _.
Arguments safe_execute {W} _.
Arguments or_empty {W} _.
Arguments any_plugin_supplies {W} _ _ _ _.
Arguments should_process_for_stacktraces {W} _ _.
Arguments collect_classes {W} _ _ _ _ _.
Arguments get_processors_for_stacktraces {W} _ _ _ _.
Arguments process_stacktraces_by_plugins {W} _ _ _ _.

(** ** Words for the properties of the rest of the code *)

(** The frames of a trace with the reverse index each is offered with:
    the number of frames after it. *)
Fixpoint reverse_indexed (frames : list pyval) : list (pyval * Z) :=
  match frames with
  | [] => []
  | frame :: rest => (frame, Z.of_nat (List.length rest)) :: reverse_indexed rest
  end.

(** The calls for one frame when the first [n] processors are tried. *)
Definition calls_for (fi : pyval * Z) (n : nat) : list (nat * pyval * Z) :=
  map (fun k => (k, fst fi, snd fi)) (seq 0 n).

(** Every record speaks of platform [p] alone, and one of them does. *)
Definition single_platform (infos : list StacktraceInfo) (p : pyval) : Prop :=
  (exists info, In info infos /\ platforms info <> []) /\
  (forall info x, In info infos -> In x (platforms info) -> x = p).

(** Processors that never claim a frame, never report a mutation and whose
    hooks return. *)
Definition inert {W : Type} (p : StacktraceProcessor W) : Prop :=
  (forall w frame info idx,
      no_opinion (snd (process_frame p w frame info idx)) = true) /\
  (forall w, exists v, snd (preprocess_related_data p w) = Returned v /\
                       truthy v = false) /\
  (forall w, exists v, snd (close p w) = Returned v).

(** The events of the chain and of the merger. *)
Definition trace_event (ev : event) : bool :=
  match ev with
  | EProcessFrame _ _ _ | ELogException _
  | EReplaceFrames _ | EAttachRaw _ | EAppendErrors _ => true
  | _ => false
  end.

(** Some located stack trace has a frame, and every frame of every located
    stack trace has the effective platform [s]. *)
Definition frames_all_on (data : pyval) (infos : list StacktraceInfo)
    (s : string) : Prop :=
  (exists info frames,
      In info infos /\ frames_of (stacktrace info) = Ok frames /\
      frames <> []) /\
  (forall info frames f,
      In info infos -> frames_of (stacktrace info) = Ok frames ->
      In f frames -> get_effective_platform data f = Ok (PyStr s)).

(** A record whose stack trace has a frame list that can be walked. *)
Definition has_frame_list (info : StacktraceInfo) : Prop :=
  exists d fr frames,
    stacktrace info = PyDict d /\
    dict_get d "frames" = Some fr /\
    py_iter fr = Ok frames.

(** The events of [n] preprocess hooks that returned values with the truth
    values [bs], and of [n] close hooks. *)
Definition preprocess_events (j : nat) (bs : list bool) : list event :=
  map (fun jb => EPreprocess (fst jb) (snd jb))
      (combine (seq j (List.length bs)) bs).

Definition close_events (j n : nat) : list event :=
  map EClose (seq j n).

(** The item at position [m] of a section of the payload. *)
Definition item_at (data : pyval) (key : string) (m : nat) : option pyval :=
  match section_items data key with
  | Ok items => nth_error items m
  | Raise _ => None
  end.

(** Two stack traces, or containers, that agree on every field but those
    of [keys]. *)
Definition same_but (keys : list string) (o o' : pyval) : Prop :=
  forall k, ~ In k keys -> py_get o' k = py_get o k.

(** The record refers to what is at its place in the payload. *)
Definition record_of (data : pyval) (info : StacktraceInfo) : Prop :=
  located_stacktrace data (ref info) = Some (stacktrace info) /\
  truthy (stacktrace info) = true /\
  located_container data (ref info) = Some (container info).

(** The entries of the payload that the merger writes to. *)
Definition merged_keys : list string :=
  ["errors"; "sentry.interfaces.Exception"; "sentry.interfaces.Stacktrace";
   "threads"].

(** The classes the plugins supply, in the order of the plugins; a plugin
    whose call fails or returns [None] supplies none. *)
Definition supplied_classes {W : Type} (plugins : list (plugin W))
    (data : pyval) (infos : list StacktraceInfo) : list (processor_class W) :=
  flat_map (fun p => or_empty (safe_execute (p data infos (all_platforms infos))))
           plugins.

(** ** More samples *)

(** An event with an exception and a top-level stack trace. *)
Definition layered_event : pyval :=
  PyDict [("project", PyInt 1);
          ("platform", PyStr "python");
          ("release", PyStr "1.0");
          ("sentry.interfaces.Exception",
           PyDict [("values", PyList [sample_exception])]);
          ("sentry.interfaces.Stacktrace", sample_stacktrace)].

Definition top_info : StacktraceInfo :=
  mkInfo sample_stacktrace PyNone
         [PyStr "python"; PyStr "javascript"] LTop.

(** The payload, the state and the flag a merge gives, when it returns. *)
Definition merged {W : Type} (r : result (state W * (pyval * bool)))
  : pyval :=
  match r with
  | Ok (_, (payload, _)) => payload
  | Raise _ => PyNone
  end.

Definition state_after {W A : Type} (st : state W)
    (r : result (state W * A)) : state W :=
  match r with
  | Ok (st', _) => st'
  | Raise _ => st
  end.

(** Plugins: one that supplies the idle class for events that speak of
    python, one that supplies nothing, one whose supply call fails. *)
Definition idle_class : processor_class nat :=
  fun _ _ _ => idle_processor.

Definition raw_only_class : processor_class nat :=
  fun _ _ _ => raw_only_processor.

Definition python_plugin : plugin nat :=
  fun _ _ platforms =>
    if set_mem (PyStr "python") platforms
    then Supplied (Some [idle_class; raw_only_class])
    else Supplied None.

Definition silent_plugin : plugin nat :=
  fun _ _ _ => Supplied None.

Definition broken_plugin : plugin nat :=
  fun _ _ _ => SupplyFailed (ProcessorError "boom").

(** A project cache that knows project 1 only. *)
Definition sample_cache (id : pyval) : result pyval :=
  if key_eqb id (PyInt 1) then Ok (PyStr "project-1")
  else Raise (ProcessorError "DoesNotExist").

(** ** Words for fault isolation *)




(** ** Words for absent sections *)

(** The exception or thread section [key] is absent or empty, or else it
    has its value list, and the stack trace of each item, where the item
    has one, can be reported. *)
Definition section_fine (data : pyval) (key : string) : Prop :=
  section_absent data key \/
  exists items, section_items data key = Ok items /\ scannable data items.

(** The top-level stack trace is absent or empty, or else it can be
    reported. *)
Definition top_level_fine (data : pyval) : Prop :=
  section_absent data "sentry.interfaces.Stacktrace" \/
  exists top, py_get data "sentry.interfaces.Stacktrace" = Ok top /\
              reportable data top.

(** An event with two exceptions, the second without stack trace, no
    top-level stack trace and an empty thread section. *)
Definition partial_event : pyval :=
  PyDict [("project", PyInt 1);
          ("platform", PyStr "python");
          ("sentry.interfaces.Exception",
           PyDict [("values",
                    PyList [sample_exception;
                            PyDict [("type", PyStr "KeyError")]])]);
          ("threads", PyDict [])].

(** * Properties *)

(** ** The loop over the processors *)

Section Chain.

Context {W : Type}.
Variables (frame : pyval) (info : StacktraceInfo) (idx : Z).

Lemma invocations_app evs1 evs2 :
  invocations (evs1 ++ evs2) = invocations evs1 ++ invocations evs2.
Proof.
  induction evs1 as [|ev evs1 IH]; simpl; [reflexivity|].
  destruct ev; simpl; rewrite ?IH; reflexivity.
Qed.

(** A declining prefix is walked through: each of its processors is called
    once, in order, and the loop goes on with the rest. *)
Lemma try_processors_decline (pre : list (StacktraceProcessor W)) (w w1 : W) :
  all_decline frame info idx pre w w1 ->
  forall j lg, exists evs,
    invocations evs
      = map (fun k => (k, frame, idx)) (seq j (List.length pre)) /\
    forall post vars,
      try_processors (pre ++ post) j frame info idx (mkState w lg) vars
      = try_processors post (j + List.length pre) frame info idx
                       (mkState w1 (lg ++ evs)) vars.
Proof.
  induction 1 as [w|p ps w w1 w2 o Hcall Hno Hrest IH]; intros j lg.
  - exists []. split; [reflexivity|]. intros post vars.
    simpl. rewrite Nat.add_0_r, app_nil_r. reflexivity.
  - destruct o as [rv|e]; simpl in Hno.
    + destruct (IH (S j) (lg ++ [EProcessFrame j frame idx])) as (evs & Hinv & Hrun).
      exists (EProcessFrame j frame idx :: evs). split.
      * simpl. rewrite Hinv. reflexivity.
      * intros post vars. simpl. rewrite Hcall. simpl. rewrite Hno.
        unfold emit; simpl. rewrite Hrun.
        rewrite <- app_assoc. simpl.
        rewrite Nat.add_succ_r. reflexivity.
    + destruct (IH (S j) ((lg ++ [EProcessFrame j frame idx]) ++ [ELogException e]))
        as (evs & Hinv & Hrun).
      exists (EProcessFrame j frame idx :: ELogException e :: evs). split.
      * simpl. rewrite Hinv. reflexivity.
      * intros post vars. simpl. rewrite Hcall. simpl. rewrite Hno.
        unfold emit; simpl. rewrite Hrun.
        rewrite <- !app_assoc. simpl.
        rewrite Nat.add_succ_r. reflexivity.
Qed.

(** The loop stops at the first call that returns a value other than
    [None]: the processors after it are not called. *)
Lemma try_processors_stops_from
    (pre : list (StacktraceProcessor W)) (p : StacktraceProcessor W)
    (j : nat) (st : state W) (w1 w2 : W) (rv : pyval) :
  all_decline frame info idx pre (world st) w1 ->
  process_frame p w1 frame info idx = (w2, Returned rv) ->
  is_none rv = false ->
  exists evs,
    invocations evs
      = map (fun k => (k, frame, idx)) (seq j (S (List.length pre))) /\
    forall post vars,
      try_processors (pre ++ p :: post) j frame info idx st vars
      = (vars' <- use_result rv vars;;
         Ok (mkState w2 (log st ++ evs), vars')).
Proof.
  intros Hpre Hcall Hrv. destruct st as [w lg]; simpl in Hpre.
  destruct (try_processors_decline pre w w1 Hpre j lg) as (evs & Hinv & Hrun).
  exists (evs ++ [EProcessFrame (j + List.length pre) frame idx]). split.
  - rewrite invocations_app, Hinv, seq_S, map_app. reflexivity.
  - intros post vars. rewrite Hrun. simpl. rewrite Hcall. simpl. rewrite Hrv.
    unfold emit; simpl. rewrite <- app_assoc. reflexivity.
Qed.

Lemma try_processors_stops
    (pre : list (StacktraceProcessor W)) (p : StacktraceProcessor W)
    (st : state W) (w1 w2 : W) (rv : pyval) :
  all_decline frame info idx pre (world st) w1 ->
  process_frame p w1 frame info idx = (w2, Returned rv) ->
  is_none rv = false ->
  exists evs,
    invocations evs
      = map (fun k => (k, frame, idx)) (seq 0 (S (List.length pre))) /\
    forall post vars,
      try_processors (pre ++ p :: post) 0 frame info idx st vars
      = (vars' <- use_result rv vars;;
         Ok (mkState w2 (log st ++ evs), vars')).
Proof. apply try_processors_stops_from. Qed.

Lemma use_result_falsy rv vars :
  truthy rv = false ->
  use_result rv vars
  = Ok (mkLocals (changed_raw vars) (changed_processed vars) (raw_frames vars)
                 (processed_frames vars) (all_errors vars)
                 (need_processed_frame vars) (need_raw_frame vars) PyNone).
Proof.
  intros Hf. unfold use_result, py_or. rewrite Hf. reflexivity.
Qed.

(** What using a match does to the local variables: the expansions of the
    match are appended to the outputs they are for, the flags of these
    outputs are set, and the error field of the match is kept for the end
    of the turn. *)
Lemma use_result_read rv vars c :
  read_contribution (Some (Returned rv)) = Some c ->
  exists e, read_errors e = Some (frame_errors c) /\
            use_result rv vars = Ok (absorb c e vars).
Proof.
  unfold read_contribution. destruct (truthy rv) eqn:Ht.
  - destruct (py_iter rv) as [l|] eqn:Hit; [|discriminate].
    destruct l as [|a [|b [|c0 [|? ?]]]]; try discriminate.
    destruct (read_expansion a) as [pa|] eqn:Ha; [|discriminate].
    destruct (read_expansion b) as [pb|] eqn:Hb; [|discriminate].
    destruct (read_errors c0) as [es|] eqn:He; [|discriminate].
    intros [= <-]. exists c0. split; [exact He|].
    unfold use_result, py_or, unpack3. rewrite Ht. simpl. rewrite Hit. simpl.
    unfold read_expansion in Ha, Hb. unfold absorb; simpl.
    destruct (is_none a).
    + injection Ha as <-. simpl.
      destruct (is_none b).
      * injection Hb as <-. rewrite !app_nil_r. reflexivity.
      * destruct (py_iter b); [|discriminate]. injection Hb as <-.
        simpl. rewrite !app_nil_r. reflexivity.
    + destruct (py_iter a); [|discriminate]. injection Ha as <-. simpl.
      destruct (is_none b).
      * injection Hb as <-. rewrite !app_nil_r. reflexivity.
      * destruct (py_iter b); [|discriminate]. injection Hb as <-.
        reflexivity.
  - intros [= <-]. exists PyNone. split; [reflexivity|].
    rewrite (use_result_falsy rv vars Ht). unfold absorb; simpl.
    rewrite !app_nil_r. reflexivity.
Qed.

(** C1: first match wins.  If the processors of [pre] all give no opinion
    on a frame (they return [None], or raise an [Exception], which is
    handled as [None]) and the next processor [p] returns a value [rv]
    other than [None], then the chain over [pre ++ p :: post] calls the
    processors of [pre] and then [p], once each and in registration order,
    calls no processor of [post], leaves the world as [p] left it, and
    uses [rv] as the result for the frame, whatever the fields of [rv]
    are: when [rv] has the shape the interface asks for, with contribution
    [c], the chain ends with the expansions of [c] appended to the outputs
    they are for, the flags of these outputs set, and the errors of [c]
    kept for the frame. *)
Theorem chain_stops_at_first_match
    (pre post : list (StacktraceProcessor W)) (p : StacktraceProcessor W)
    (st : state W) (vars : locals) (w1 w2 : W) (rv : pyval) :
  all_decline frame info idx pre (world st) w1 ->
  process_frame p w1 frame info idx = (w2, Returned rv) ->
  is_none rv = false ->
  exists evs,
    invocations evs
      = map (fun k => (k, frame, idx)) (seq 0 (S (List.length pre))) /\
    try_processors (pre ++ p :: post) 0 frame info idx st vars
      = (vars' <- use_result rv vars;;
         Ok (mkState w2 (log st ++ evs), vars')) /\
    try_processors (pre ++ p :: post) 0 frame info idx st vars
      = try_processors (pre ++ [p]) 0 frame info idx st vars /\
    (forall c,
        read_contribution (Some (Returned rv)) = Some c ->
        exists e,
          read_errors e = Some (frame_errors c) /\
          try_processors (pre ++ p :: post) 0 frame info idx st vars
          = Ok (mkState w2 (log st ++ evs),
                mkLocals
                  (match raw_expansion c with
                   | Some _ => true
                   | None => changed_raw vars
                   end)
                  (match processed_expansion c with
                   | Some _ => true
                   | None => changed_processed vars
                   end)
                  (raw_frames vars
                     ++ match raw_expansion c with
                        | Some xs => xs
                        | None => []
                        end)
                  (processed_frames vars
                     ++ match processed_expansion c with
                        | Some xs => xs
                        | None => []
                        end)
                  (all_errors vars)
                  (match processed_expansion c with
                   | Some _ => false
                   | None => need_processed_frame vars
                   end)
                  (match raw_expansion c with
                   | Some _ => false
                   | None => need_raw_frame vars
                   end)
                  e)).
Proof.
  intros Hpre Hcall Hrv.
  destruct (try_processors_stops pre p st w1 w2 rv Hpre Hcall Hrv)
    as (evs & Hinv & Hrun).
  exists evs. split; [exact Hinv|]. split; [apply Hrun|]. split.
  - rewrite (Hrun post vars), (Hrun [] vars). reflexivity.
  - intros c Hc.
    destruct (use_result_read rv vars c Hc) as (e & He & Huse).
    exists e. split; [exact He|].
    rewrite (Hrun post vars), Huse. reflexivity.
Qed.

(** The loop over the processors finds the match that [first_match]
    names, and uses it. *)
Lemma try_processors_first_match (ps : list (StacktraceProcessor W)) :
  forall w j lg vars, exists evs,
    try_processors ps j frame info idx (mkState w lg) vars
    = match snd (first_match ps w frame info idx) with
      | None =>
          Ok (mkState (fst (first_match ps w frame info idx)) (lg ++ evs), vars)
      | Some (Returned rv) =>
          vars' <- use_result rv vars;;
          Ok (mkState (fst (first_match ps w frame info idx)) (lg ++ evs), vars')
      | Some (Raised e) => Raise e
      end.
Proof.
  induction ps as [|p ps IH]; intros w j lg vars.
  - exists []. simpl. rewrite app_nil_r. reflexivity.
  - simpl. destruct (process_frame p w frame info idx) as [w' o] eqn:Hcall.
    destruct o as [rv|e]; simpl.
    + destruct (is_none rv) eqn:Hn.
      * destruct (IH w' (S j) (lg ++ [EProcessFrame j frame idx]) vars) as [evs Hevs].
        exists (EProcessFrame j frame idx :: evs).
        unfold emit; simpl. rewrite Hevs. rewrite <- app_assoc. reflexivity.
      * exists [EProcessFrame j frame idx]. reflexivity.
    + destruct (is_exception e) eqn:He.
      * destruct (IH w' (S j)
                    ((lg ++ [EProcessFrame j frame idx]) ++ [ELogException e])
                    vars) as [evs Hevs].
        exists (EProcessFrame j frame idx :: ELogException e :: evs).
        unfold emit; simpl. rewrite Hevs. rewrite <- !app_assoc. reflexivity.
      * exists []. reflexivity.
Qed.

End Chain.

(** C1, at a sample: an idle and a faulty processor, then one that claims
    the frame with a raw expansion and an error but no processed
    expansion, then one more idle processor. *)
Lemma chain_stops_at_first_match_witness :
  exists evs,
    invocations evs
      = map (fun k => (k, frame_a, 2)) (seq 0 3) /\
    try_processors
      ([idle_processor; faulty_processor]
         ++ claiming_processor sample_match :: [idle_processor])
      0 frame_a sample_info 2 start initial_locals
      = (vars' <- use_result sample_match initial_locals;;
         Ok (mkState 3%nat (log start ++ evs), vars')) /\
    try_processors
      ([idle_processor; faulty_processor]
         ++ claiming_processor sample_match :: [idle_processor])
      0 frame_a sample_info 2 start initial_locals
    = try_processors
        ([idle_processor; faulty_processor]
           ++ [claiming_processor sample_match])
        0 frame_a sample_info 2 start initial_locals /\
    try_processors
      ([idle_processor; faulty_processor]
         ++ claiming_processor sample_match :: [idle_processor])
      0 frame_a sample_info 2 start initial_locals
    = Ok (mkState 3%nat (log start ++ evs),
          mkLocals true false ([] ++ [frame_c; frame_a]) ([] ++ []) []
                   true false (PyList [PyStr "bad"])).
Proof.
  destruct (chain_stops_at_first_match frame_a sample_info 2
              [idle_processor; faulty_processor] [idle_processor]
              (claiming_processor sample_match)
              start initial_locals 2%nat 3%nat sample_match)
    as (evs & Hinv & Hrun & Hpost & Hused).
  - eapply decline_cons; [reflexivity | reflexivity |].
    eapply decline_cons; [reflexivity | reflexivity |].
    apply decline_nil.
  - reflexivity.
  - reflexivity.
  - exists evs. split; [exact Hinv|]. split; [exact Hrun|].
    split; [exact Hpost|].
    destruct (Hused (mkContribution None (Some [frame_c; frame_a])
                                    [PyStr "bad"]) eq_refl)
      as (e & He & Hfinal).
    rewrite Hfinal. rewrite Hrun in Hfinal. simpl in Hfinal.
    injection Hfinal as <-. reflexivity.
Defined.

(** ** The loop over the frames *)

Section Trace.

Context {W : Type}.
Variables (processors : list (StacktraceProcessor W)) (info : StacktraceInfo).

Lemma read_errors_extend e es :
  read_errors e = Some es ->
  (e' <- py_or e (Ok (PyTuple []));; py_iter e') = Ok es.
Proof.
  unfold read_errors, py_or. destruct (truthy e); simpl.
  - destruct (py_iter e); [intros [= <-]; reflexivity | discriminate].
  - intros [= <-]. reflexivity.
Qed.

(** One turn of the loop over the frames adds, to each variant, the part
    that comes from the frame. *)
Lemma process_one_frame_contribution frame_count i frame st vars c :
  read_contribution
    (snd (first_match processors (world st) frame info (frame_count - i - 1)))
  = Some c ->
  exists evs t1 t2 t3,
    process_one_frame processors info frame_count i frame st vars
    = Ok (mkState
            (fst (first_match processors (world st) frame info
                              (frame_count - i - 1)))
            (log st ++ evs),
          accumulate [(frame, c)] vars t1 t2 t3).
Proof.
  intros Hc. destruct st as [w lg]. simpl in *.
  unfold process_one_frame.
  match goal with
  | |- context [try_processors _ _ _ _ _ _ ?v] =>
      destruct (try_processors_first_match frame info (frame_count - i - 1)
                  processors w 0%nat lg v) as [evs Hrun]
  end.
  rewrite Hrun. clear Hrun.
  destruct (first_match processors w frame info (frame_count - i - 1))
    as [w' m]; simpl in *.
  exists evs.
  destruct m as [[rv|e]|]; [| discriminate |].
  - match goal with
    | |- context [use_result rv ?v] =>
        destruct (use_result_read rv v c Hc) as (e & He & Huse)
    end.
    rewrite Huse. simpl.
    rewrite (read_errors_extend e _ He). simpl.
    unfold accumulate, processed_part, raw_part, expands_processed,
      expands_raw. simpl.
    destruct (processed_expansion c), (raw_expansion c); simpl;
      do 3 eexists;
      rewrite ?app_nil_r, ?orb_true_r, ?orb_false_r; reflexivity.
  - injection Hc as <-. simpl. do 3 eexists.
    unfold accumulate. simpl. rewrite ?app_nil_r, ?orb_false_r. reflexivity.
Qed.

Lemma accumulate_cons fc cs vars t1 t2 t3 u1 u2 u3 :
  accumulate cs (accumulate [fc] vars t1 t2 t3) u1 u2 u3
  = accumulate (fc :: cs) vars u1 u2 u3.
Proof.
  unfold accumulate; simpl.
  rewrite ?app_nil_r, ?orb_false_r, <- ?app_assoc, <- ?orb_assoc.
  reflexivity.
Qed.

(** The loop over the frames computes the concatenation of the parts. *)
Lemma each_frame_contributions frames :
  forall i st vars cs,
    read_contributions (snd (trace_matches processors info frames (world st)))
    = Some cs ->
    exists evs t1 t2 t3,
      each_frame processors info (i + Z.of_nat (List.length frames)) i frames
                 st vars
      = Ok (mkState (fst (trace_matches processors info frames (world st)))
                    (log st ++ evs),
            match frames with
            | [] => vars
            | _ :: _ => accumulate cs vars t1 t2 t3
            end).
Proof.
  induction frames as [|frame rest IH]; intros i st vars cs Hcs.
  - exists [], true, true, PyNone. simpl. rewrite app_nil_r.
    destruct st; reflexivity.
  - simpl in Hcs. cbn [each_frame].
    replace (i + Z.of_nat (List.length (frame :: rest)))
      with ((i + 1) + Z.of_nat (List.length rest))
      by (cbn [List.length]; lia).
    assert (Hidx : (i + 1) + Z.of_nat (List.length rest) - i - 1
                   = Z.of_nat (List.length rest)) by lia.
    cbn [trace_matches].
    destruct (first_match processors (world st) frame info
                          (Z.of_nat (List.length rest))) as [w1 m] eqn:Hm.
    destruct (trace_matches processors info rest w1) as [w2 ms] eqn:Hms.
    simpl in Hcs |- *.
    destruct (read_contribution m) as [c|] eqn:Hc; [|discriminate].
    destruct (read_contributions ms) as [cs'|] eqn:Hcs'; [|discriminate].
    injection Hcs as <-.
    destruct (process_one_frame_contribution
                ((i + 1) + Z.of_nat (List.length rest)) i frame st vars c)
      as (evs1 & t1 & t2 & t3 & Hstep).
    { rewrite Hidx, Hm. exact Hc. }
    rewrite Hstep, Hidx, Hm. simpl.
    destruct (IH (i + 1) (mkState w1 (log st ++ evs1))
                 (accumulate [(frame, c)] vars t1 t2 t3) cs')
      as (evs2 & u1 & u2 & u3 & Hrest).
    { simpl. rewrite Hms. exact Hcs'. }
    rewrite Hrest. simpl. rewrite Hms. simpl.
    exists (evs1 ++ evs2). rewrite app_assoc.
    destruct rest as [|f' rest'].
    + simpl in Hcs'. simpl in Hms. injection Hms as <- <-.
      simpl in Hcs'. injection Hcs' as <-.
      exists t1, t2, t3. reflexivity.
    + exists u1, u2, u3. rewrite accumulate_cons. reflexivity.
Qed.

Lemma chars_length s : List.length (chars s) = String.length s.
Proof. induction s as [|c s IH]; simpl; congruence. Qed.

Lemma py_len_iter o l :
  py_iter o = Ok l -> py_len o = Ok (Z.of_nat (List.length l)).
Proof.
  destruct o; simpl; try discriminate; intros [= <-];
    rewrite ?length_map, ?chars_length; reflexivity.
Qed.

Lemma trace_matches_frames frames :
  forall w, map fst (snd (trace_matches processors info frames w)) = frames.
Proof.
  induction frames as [|f rest IH]; intros w; simpl; [reflexivity|].
  destruct (first_match processors w f info (Z.of_nat (List.length rest)))
    as [w1 m].
  specialize (IH w1).
  destruct (trace_matches processors info rest w1) as [w2 ms].
  simpl in *. rewrite IH. reflexivity.
Qed.

Lemma read_contributions_frames ms :
  forall cs, read_contributions ms = Some cs -> map fst cs = map fst ms.
Proof.
  induction ms as [|[f m] ms IH]; simpl; intros cs.
  - intros [= <-]. reflexivity.
  - destruct (read_contribution m); [|discriminate].
    destruct (read_contributions ms) as [cs'|]; [|discriminate].
    intros [= <-]. simpl. rewrite (IH cs' eq_refl). reflexivity.
Qed.

(** [process_single_stacktrace] against the chain as the specification
    words it: when every match of the trace has the shape the processor
    interface asks for, the call returns, and each variant is [None] or
    the stack trace with the concatenated parts as frames. *)
Lemma process_single_stacktrace_refines d fr frames st cs :
  stacktrace info = PyDict d ->
  dict_get d "frames" = Some fr ->
  py_iter fr = Ok frames ->
  read_contributions (snd (trace_matches processors info frames (world st)))
  = Some cs ->
  exists evs,
    process_single_stacktrace info processors st
    = Ok (mkState (fst (trace_matches processors info frames (world st)))
                  (log st ++ evs),
          (if existsb expands_processed cs
           then PyDict (dict_set d "frames" (PyList (flat_map processed_part cs)))
           else PyNone,
           if existsb expands_raw cs
           then PyDict (dict_set d "frames" (PyList (flat_map raw_part cs)))
           else PyNone,
           PyList (flat_map (fun fc => frame_errors (snd fc)) cs))).
Proof.
  intros Hst Hfr Hit Hcs.
  unfold process_single_stacktrace. rewrite Hst. simpl. rewrite Hfr. simpl.
  rewrite (py_len_iter fr frames Hit), Hit. simpl.
  destruct (each_frame_contributions frames 0 st initial_locals cs Hcs)
    as (evs & t1 & t2 & t3 & Hrun).
  simpl in Hrun. rewrite Hrun. simpl. exists evs.
  destruct frames as [|f rest].
  - simpl in Hcs. injection Hcs as <-. reflexivity.
  - simpl. destruct (existsb expands_processed cs), (existsb expands_raw cs);
      reflexivity.
Qed.

(** C2: the two variants are tracked independently.  For every frame the
    turn of the loop appends, to the processed output, the processed
    expansion of the match or else the frame itself, and to the raw output
    the raw expansion of the match or else the frame itself; for the whole
    trace each variant of the result is [None] exactly when no match of the
    trace has an expansion for that variant, whatever the frames in the
    expansions are. *)
Theorem variants_tracked_independently :
  (forall frame_count i frame st vars c,
      read_contribution
        (snd (first_match processors (world st) frame info
                          (frame_count - i - 1))) = Some c ->
      exists st' vars',
        process_one_frame processors info frame_count i frame st vars
        = Ok (st', vars') /\
        processed_frames vars'
        = processed_frames vars
            ++ match processed_expansion c with
               | Some xs => xs
               | None => [frame]
               end /\
        raw_frames vars'
        = raw_frames vars
            ++ match raw_expansion c with Some xs => xs | None => [frame] end) /\
  (forall d fr frames st cs,
      stacktrace info = PyDict d ->
      dict_get d "frames" = Some fr ->
      py_iter fr = Ok frames ->
      read_contributions
        (snd (trace_matches processors info frames (world st))) = Some cs ->
      exists st' new_stacktrace raw_stacktrace errs,
        process_single_stacktrace info processors st
        = Ok (st', (new_stacktrace, raw_stacktrace, errs)) /\
        (new_stacktrace = PyNone <->
         forall fc, In fc cs -> processed_expansion (snd fc) = None) /\
        (raw_stacktrace = PyNone <->
         forall fc, In fc cs -> raw_expansion (snd fc) = None)).
Proof.
  split.
  - intros frame_count i frame st vars c Hc.
    destruct (process_one_frame_contribution frame_count i frame st vars c Hc)
      as (evs & t1 & t2 & t3 & Hstep).
    rewrite Hstep. do 2 eexists. split; [reflexivity|].
    unfold accumulate, processed_part, raw_part; simpl.
    rewrite !app_nil_r. split; reflexivity.
  - intros d fr frames st cs Hst Hfr Hit Hcs.
    destruct (process_single_stacktrace_refines d fr frames st cs Hst Hfr Hit Hcs)
      as (evs & Hrun).
    rewrite Hrun. do 4 eexists. split; [reflexivity|].
    split.
    + destruct (existsb expands_processed cs) eqn:Hex.
      * split; [discriminate|]. intros Hall.
        apply existsb_exists in Hex. destruct Hex as (fc & Hin & Hfc).
        unfold expands_processed in Hfc. rewrite (Hall fc Hin) in Hfc.
        discriminate.
      * split; [|reflexivity]. intros _ fc Hin.
        destruct (processed_expansion (snd fc)) eqn:Hp; [|reflexivity].
        assert (existsb expands_processed cs = true); [|congruence].
        apply existsb_exists. exists fc. split; [exact Hin|].
        unfold expands_processed. rewrite Hp. reflexivity.
    + destruct (existsb expands_raw cs) eqn:Hex.
      * split; [discriminate|]. intros Hall.
        apply existsb_exists in Hex. destruct Hex as (fc & Hin & Hfc).
        unfold expands_raw in Hfc. rewrite (Hall fc Hin) in Hfc.
        discriminate.
      * split; [|reflexivity]. intros _ fc Hin.
        destruct (raw_expansion (snd fc)) eqn:Hp; [|reflexivity].
        assert (existsb expands_raw cs = true); [|congruence].
        apply existsb_exists. exists fc. split; [exact Hin|].
        unfold expands_raw. rewrite Hp. reflexivity.
Qed.

(** C4: frame order.  With frames [f_0 .. f_(L-1)] and the contribution
    [c_i] of the match for [f_i], each variant of the result, when it is
    not [None], is the stack trace whose frames are the concatenation, for
    [i] from 0 to [L-1], of the expansion in [c_i] or else of the one frame
    [f_i]. *)
Theorem frame_order_preserved d fr frames st cs :
  stacktrace info = PyDict d ->
  dict_get d "frames" = Some fr ->
  py_iter fr = Ok frames ->
  read_contributions (snd (trace_matches processors info frames (world st)))
  = Some cs ->
  map fst cs = frames /\
  exists st' errs,
    process_single_stacktrace info processors st
    = Ok (st',
          (if existsb expands_processed cs
           then PyDict (dict_set d "frames"
                                 (PyList (List.concat (map processed_part cs))))
           else PyNone,
           if existsb expands_raw cs
           then PyDict (dict_set d "frames" (PyList (List.concat (map raw_part cs))))
           else PyNone,
           errs)).
Proof.
  intros Hst Hfr Hit Hcs. split.
  - rewrite (read_contributions_frames _ cs Hcs). apply trace_matches_frames.
  - destruct (process_single_stacktrace_refines d fr frames st cs Hst Hfr Hit Hcs)
      as (evs & Hrun).
    rewrite Hrun, <- !flat_map_concat_map. do 2 eexists. reflexivity.
Qed.

(** C10: a falsy result that is not [None].  If the processors of [pre]
    give no opinion and the next one returns a value that is not [None]
    but falsy, the chain stops there, no processor of [post] is called, the
    match contributes nothing, and both outputs receive the frame itself;
    flags and errors stay as they were. *)
Theorem falsy_result_is_a_match
    (pre post : list (StacktraceProcessor W)) (p : StacktraceProcessor W)
    (frame_count i : Z) (frame : pyval) (st : state W) (vars : locals)
    (w1 w2 : W) (rv : pyval) :
  all_decline frame info (frame_count - i - 1) pre (world st) w1 ->
  process_frame p w1 frame info (frame_count - i - 1) = (w2, Returned rv) ->
  is_none rv = false ->
  truthy rv = false ->
  exists evs,
    invocations evs
      = map (fun k => (k, frame, frame_count - i - 1))
            (seq 0 (S (List.length pre))) /\
    read_contribution (Some (Returned rv)) = Some no_contribution /\
    process_one_frame (pre ++ p :: post) info frame_count i frame st vars
    = Ok (mkState w2 (log st ++ evs),
          mkLocals (changed_raw vars) (changed_processed vars)
                   (raw_frames vars ++ [frame])
                   (processed_frames vars ++ [frame])
                   (all_errors vars) true true PyNone).
Proof.
  intros Hpre Hcall Hrv Hfalsy.
  destruct (try_processors_stops frame info (frame_count - i - 1)
              pre p st w1 w2 rv Hpre Hcall Hrv) as (evs & Hinv & Hrun).
  exists evs. split; [exact Hinv|]. split.
  - unfold read_contribution. rewrite Hfalsy. reflexivity.
  - unfold process_one_frame. rewrite Hrun.
    rewrite use_result_falsy by exact Hfalsy. simpl.
    rewrite app_nil_r. reflexivity.
Qed.

End Trace.

(** C2, at a sample: the raw variant alone is expanded, so the processed
    result is [None] and the raw result is not. *)
Lemma variants_tracked_independently_witness :
  read_contributions
    (snd (trace_matches [idle_processor; raw_only_processor] sample_info
                        [frame_a; frame_b; frame_c] (world start)))
  = Some sample_contributions /\
  exists st' new_stacktrace raw_stacktrace errs,
    process_single_stacktrace sample_info
                              [idle_processor; raw_only_processor] start
    = Ok (st', (new_stacktrace, raw_stacktrace, errs)) /\
    (new_stacktrace = PyNone <->
     forall fc, In fc sample_contributions ->
                processed_expansion (snd fc) = None) /\
    (raw_stacktrace = PyNone <->
     forall fc, In fc sample_contributions -> raw_expansion (snd fc) = None).
Proof.
  split; [reflexivity|].
  apply (proj2 (variants_tracked_independently
                  [idle_processor; raw_only_processor] sample_info)
               [("frames", PyList [frame_a; frame_b; frame_c])]
               (PyList [frame_a; frame_b; frame_c])
               [frame_a; frame_b; frame_c] start sample_contributions);
    reflexivity.
Defined.

(** C4, at a sample: the innermost frame is replaced by two frames in the
    raw variant, the frames before it keep their places. *)
Lemma frame_order_preserved_witness :
  map fst sample_contributions = [frame_a; frame_b; frame_c] /\
  exists st' errs,
    process_single_stacktrace sample_info
                              [idle_processor; raw_only_processor] start
    = Ok (st',
          (if existsb expands_processed sample_contributions
           then PyDict (dict_set [("frames", PyList [frame_a; frame_b; frame_c])]
                                 "frames"
                                 (PyList (List.concat
                                            (map processed_part
                                                 sample_contributions))))
           else PyNone,
           if existsb expands_raw sample_contributions
           then PyDict (dict_set [("frames", PyList [frame_a; frame_b; frame_c])]
                                 "frames"
                                 (PyList (List.concat
                                            (map raw_part sample_contributions))))
           else PyNone,
           errs)).
Proof.
  apply (frame_order_preserved
           [idle_processor; raw_only_processor] sample_info
           [("frames", PyList [frame_a; frame_b; frame_c])]
           (PyList [frame_a; frame_b; frame_c])
           [frame_a; frame_b; frame_c] start sample_contributions);
    reflexivity.
Defined.

(** C10, at a sample: an empty tuple stops the chain before a processor
    that would have expanded the frame. *)
Lemma falsy_result_is_a_match_witness :
  exists evs,
    invocations evs = map (fun k => (k, frame_a, 3 - 0 - 1)) (seq 0 3) /\
    read_contribution (Some (Returned (PyTuple []))) = Some no_contribution /\
    process_one_frame
      ([idle_processor; faulty_processor]
         ++ claiming_processor (PyTuple [])
         :: [claiming_processor (PyTuple [PyList [frame_b]; PyNone; PyNone])])
      sample_info 3 0 frame_a start initial_locals
    = Ok (mkState 3%nat (log start ++ evs),
          mkLocals false false ([] ++ [frame_a]) ([] ++ [frame_a]) []
                   true true PyNone).
Proof.
  apply (falsy_result_is_a_match sample_info
           [idle_processor; faulty_processor]
           [claiming_processor (PyTuple [PyList [frame_b]; PyNone; PyNone])]
           (claiming_processor (PyTuple []))
           3 0 frame_a start initial_locals 2%nat 3%nat (PyTuple [])).
  - eapply decline_cons; [reflexivity | reflexivity |].
    eapply decline_cons; [reflexivity | reflexivity |].
    apply decline_nil.
  - reflexivity.
  - reflexivity.
  - reflexivity.
Defined.

(** ** Faults of processors *)

Section Faults.

Context {W : Type}.


Lemma same_but_faults_refl (s : state W) : same_but_faults s s.
Proof. split; reflexivity. Qed.



Lemma agree_refl {A} (r : result (state W * A)) : agree r r.
Proof.
  destruct r as [[s a]|e]; simpl; [split; [apply same_but_faults_refl|]|];
    reflexivity.
Qed.











Lemma first_match_no_opinion (ps : list (StacktraceProcessor W)) :
  (forall p, In p ps -> forall w frame info idx,
        no_opinion (snd (process_frame p w frame info idx)) = true) ->
  forall w frame info idx, snd (first_match ps w frame info idx) = None.
Proof.
  induction ps as [|p ps IH]; intros Hall w frame info idx; simpl;
    [reflexivity|].
  pose proof (Hall p (or_introl eq_refl) w frame info idx) as Hp.
  destruct (process_frame p w frame info idx) as [w' o]. simpl in Hp.
  rewrite Hp. apply IH. intros q Hq. apply Hall. right. exact Hq.
Qed.

Lemma trace_matches_no_opinion (ps : list (StacktraceProcessor W)) info :
  (forall p, In p ps -> forall w frame info idx,
        no_opinion (snd (process_frame p w frame info idx)) = true) ->
  forall frames w,
    read_contributions (snd (trace_matches ps info frames w))
    = Some (map (fun f => (f, no_contribution)) frames).
Proof.
  intros Hall. induction frames as [|f rest IH]; intros w; simpl;
    [reflexivity|].
  pose proof (first_match_no_opinion ps Hall w f info
                                     (Z.of_nat (List.length rest))) as Hm.
  destruct (first_match ps w f info (Z.of_nat (List.length rest))) as [w1 m].
  simpl in Hm. subst m. specialize (IH w1).
  destruct (trace_matches ps info rest w1) as [w2 ms]. simpl in *.
  rewrite IH. reflexivity.
Qed.

Lemma no_contribution_expands frames :
  existsb expands_processed (map (fun f => (f, no_contribution)) frames) = false
  /\ existsb expands_raw (map (fun f => (f, no_contribution)) frames) = false
  /\ flat_map (fun fc : pyval * contribution => frame_errors (snd fc))
              (map (fun f => (f, no_contribution)) frames) = [].
Proof.
  induction frames as [|f rest (IH1 & IH2 & IH3)]; simpl; auto.
Qed.

End Faults.

(** ** The event log of a run *)

Section Run.

Context {W : Type}.

Lemma timers_app evs1 evs2 : timers (evs1 ++ evs2) = timers evs1 ++ timers evs2.
Proof.
  induction evs1 as [|ev evs1 IH]; simpl; [reflexivity|].
  destruct ev; simpl; rewrite ?IH; reflexivity.
Qed.

Lemma chain_events_nil : chain_events [].
Proof. split; reflexivity. Qed.

Lemma chain_events_app evs1 evs2 :
  chain_events evs1 -> chain_events evs2 -> chain_events (evs1 ++ evs2).
Proof.
  intros [H1 H2] [H3 H4]. split.
  - rewrite existsb_app, H1, H3. reflexivity.
  - rewrite timers_app, H2, H4. reflexivity.
Qed.

Lemma try_processors_log frame info idx (ps : list (StacktraceProcessor W)) :
  forall j st vars st' vars',
    try_processors ps j frame info idx st vars = Ok (st', vars') ->
    exists evs, log st' = log st ++ evs /\ chain_events evs.
Proof.
  induction ps as [|p ps IH]; intros j st vars st' vars'; simpl.
  - intros [= <- <-]. exists []. rewrite app_nil_r.
    split; [reflexivity | apply chain_events_nil].
  - destruct (process_frame p (world st) frame info idx) as [w [rv|e]].
    + destruct (is_none rv).
      * intros H. apply IH in H. destruct H as (evs & Hl & Hc).
        exists (EProcessFrame j frame idx :: evs). simpl in Hl.
        rewrite Hl, <- app_assoc. split; [reflexivity|].
        apply (chain_events_app [_] evs); [split; reflexivity | exact Hc].
      * destruct (use_result rv vars); simpl; [|discriminate].
        intros [= <- <-]. exists [EProcessFrame j frame idx].
        split; [reflexivity | split; reflexivity].
    + destruct (is_exception e); [|discriminate].
      intros H. apply IH in H. destruct H as (evs & Hl & Hc).
      exists (EProcessFrame j frame idx :: ELogException e :: evs).
      simpl in Hl. rewrite Hl, <- !app_assoc. split; [reflexivity|].
      apply (chain_events_app [_; _] evs); [split; reflexivity | exact Hc].
Qed.

Lemma each_frame_log info frame_count (ps : list (StacktraceProcessor W))
    frames :
  forall i st vars st' vars',
    each_frame ps info frame_count i frames st vars = Ok (st', vars') ->
    exists evs, log st' = log st ++ evs /\ chain_events evs.
Proof.
  induction frames as [|frame rest IH]; intros i st vars st' vars'.
  - simpl. intros [= <- <-]. exists []. rewrite app_nil_r.
    split; [reflexivity | apply chain_events_nil].
  - cbn [each_frame]. unfold process_one_frame.
    match goal with
    | |- context [try_processors ps 0 frame info ?x st ?v] =>
        destruct (try_processors ps 0 frame info x st v) as [[st1 vars1]|e] eqn:Htry
    end; simpl; [|discriminate].
    apply try_processors_log in Htry. destruct Htry as (evs1 & Hl1 & Hc1).
    destruct (e' <- py_or (errors vars1) (Ok (PyTuple []));; py_iter e')
      as [errs|e]; simpl; [|discriminate].
    intros H. apply IH in H. destruct H as (evs2 & Hl2 & Hc2).
    exists (evs1 ++ evs2). rewrite Hl2, Hl1, <- app_assoc.
    split; [reflexivity | apply chain_events_app; assumption].
Qed.

Lemma process_single_stacktrace_log info (ps : list (StacktraceProcessor W))
    st st' r :
  process_single_stacktrace info ps st = Ok (st', r) ->
  exists evs, log st' = log st ++ evs /\ chain_events evs.
Proof.
  unfold process_single_stacktrace.
  destruct (py_getitem (stacktrace info) "frames") as [fr|e]; simpl;
    [|discriminate].
  destruct (py_len fr) as [n|e]; simpl; [|discriminate].
  destruct (py_iter fr) as [frames|e]; simpl; [|discriminate].
  destruct (each_frame ps info n 0 frames st initial_locals)
    as [[st1 vars]|e] eqn:Hrun; simpl; [|discriminate].
  destruct (if changed_processed vars then _ else _); simpl; [|discriminate].
  destruct (if changed_raw vars then _ else _); simpl; [|discriminate].
  intros [= <- <-]. eapply each_frame_log, Hrun.
Qed.

Lemma is_dict_dict_update k f o : is_dict (dict_update k f o) = is_dict o.
Proof.
  destruct o; simpl; try reflexivity. destruct (dict_get d k); reflexivity.
Qed.

Lemma is_dict_at_container r f data :
  is_dict (at_container r f data) = is_dict data.
Proof. destruct r; simpl; rewrite ?is_dict_dict_update; reflexivity. Qed.

Lemma is_dict_at_stacktrace r f data :
  is_dict (at_stacktrace r f data) = is_dict data.
Proof.
  destruct r; unfold at_stacktrace;
    rewrite ?is_dict_at_container, ?is_dict_dict_update; reflexivity.
Qed.

Lemma extend_errors_dict data errs data' :
  extend_errors data errs = Ok data' -> is_dict data' = true.
Proof.
  destruct data; simpl; try discriminate.
  destruct (dict_get d "errors") as [[]|]; try discriminate;
    intros [= <-]; reflexivity.
Qed.

(** One stack trace merged: [changed] is set exactly when the payload was
    written to. *)
Lemma merge_one_log info (ps : list (StacktraceProcessor W)) st data changed
    st' data' changed' :
  merge_one ps info st data changed = Ok (st', (data', changed')) ->
  exists evs,
    log st' = log st ++ evs /\ timers evs = [] /\
    changed' = changed || existsb dirty_event evs /\
    (is_dict data = true -> is_dict data' = true).
Proof.
  unfold merge_one.
  destruct (process_single_stacktrace info ps st)
    as [[st1 [[new raw] errs]]|e] eqn:Hrun; simpl; [|discriminate].
  apply process_single_stacktrace_log in Hrun.
  destruct Hrun as (evs & Hl & Hd & Ht).
  destruct st1 as [w1 l1]. simpl in Hl. subst l1.
  destruct (is_none new);
    destruct (negb (is_none raw) && negb (is_none (container info)));
    destruct (truthy errs); simpl;
    try (destruct (py_iter errs) as [l|e]; simpl; [|discriminate];
         destruct (extend_errors _ l) as [d1|e] eqn:Hext; simpl; [|discriminate]);
    intros [= <- <- <-]; simpl;
    rewrite <- ?app_assoc;
    eexists; (split; [reflexivity|]);
    rewrite ?timers_app, ?existsb_app, Ht, Hd; simpl;
    rewrite ?orb_true_r, ?orb_false_r;
    (split; [reflexivity|]); (split; [reflexivity|]);
    try (intros _; eapply extend_errors_dict; exact Hext);
    rewrite ?is_dict_at_container, ?is_dict_at_stacktrace; auto.
Qed.

Lemma merge_all_log (ps : list (StacktraceProcessor W)) infos :
  forall st data changed st' data' changed',
    merge_all ps infos st data changed = Ok (st', (data', changed')) ->
    exists evs,
      log st' = log st ++ evs /\ timers evs = [] /\
      changed' = changed || existsb dirty_event evs /\
      (is_dict data = true -> is_dict data' = true).
Proof.
  induction infos as [|info rest IH]; intros st data changed st' data' changed'.
  - simpl. intros [= <- <- <-]. exists []. rewrite app_nil_r, orb_false_r.
    repeat split; auto.
  - cbn [merge_all].
    destruct (merge_one ps info st data changed) as [[st1 [d1 c1]]|e] eqn:Hone;
      simpl; [|discriminate].
    apply merge_one_log in Hone. destruct Hone as (evs1 & Hl1 & Ht1 & Hc1 & Hd1).
    intros H. apply IH in H. destruct H as (evs2 & Hl2 & Ht2 & Hc2 & Hd2).
    exists (evs1 ++ evs2).
    rewrite Hl2, Hl1, <- app_assoc, timers_app, Ht1, Ht2, existsb_app.
    rewrite Hc2, Hc1, orb_assoc. repeat split; auto.
Qed.

Lemma run_preprocess_log (ps : list (StacktraceProcessor W)) :
  forall j st changed st' changed',
    run_preprocess ps j st changed = Ok (st', changed') ->
    exists evs,
      log st' = log st ++ evs /\ timers evs = [] /\
      changed' = changed || existsb dirty_event evs.
Proof.
  induction ps as [|p ps IH]; intros j st changed st' changed'; simpl.
  - intros [= <- <-]. exists []. rewrite app_nil_r, orb_false_r. auto.
  - destruct (preprocess_related_data p (world st)) as [w [v|e]];
      [|discriminate].
    intros H. apply IH in H. destruct H as (evs & Hl & Ht & Hc).
    exists (EPreprocess j (truthy v) :: evs). simpl in Hl.
    rewrite Hl, <- app_assoc. simpl. rewrite Ht, Hc.
    destruct (truthy v), changed; auto.
Qed.

Lemma run_close_log (ps : list (StacktraceProcessor W)) :
  forall j st st',
    run_close ps j st = Ok st' ->
    exists evs, log st' = log st ++ evs /\ chain_events evs.
Proof.
  induction ps as [|p ps IH]; intros j st st'; simpl.
  - intros [= <-]. exists []. rewrite app_nil_r.
    split; [reflexivity | apply chain_events_nil].
  - destruct (close p (world st)) as [w [v|e]]; [|discriminate].
    intros H. apply IH in H. destruct H as (evs & Hl & Hc).
    exists (EClose j :: evs). simpl in Hl. rewrite Hl, <- app_assoc.
    split; [reflexivity|].
    apply (chain_events_app [_] evs); [split; reflexivity | exact Hc].
Qed.

(** A run with processors: the timer reports once, last, and the flag
    tells whether a dirty event took place. *)
Lemma run_processors_log (ps : list (StacktraceProcessor W)) infos data st
    st' data' changed :
  run_processors ps infos data st = Ok (st', (data', changed)) ->
  exists evs instance,
    py_getitem data "project" = Ok instance /\
    log st' = log st ++ evs ++ [ETimer (get_metrics_key infos) instance] /\
    timers evs = [] /\
    changed = existsb dirty_event evs /\
    is_dict data' = true.
Proof.
  unfold run_processors.
  destruct (py_getitem data "project") as [instance|e] eqn:Hproj; simpl;
    [|discriminate].
  assert (Hdict : is_dict data = true).
  { destruct data; simpl in Hproj; try discriminate. reflexivity. }
  destruct (run_preprocess ps 0 st false) as [[st1 c1]|e] eqn:Hpre; simpl;
    [|discriminate].
  apply run_preprocess_log in Hpre. destruct Hpre as (evs1 & Hl1 & Ht1 & Hc1).
  destruct (merge_all ps infos st1 data c1) as [[st2 [d2 c2]]|e] eqn:Hmerge;
    simpl; [|discriminate].
  apply merge_all_log in Hmerge.
  destruct Hmerge as (evs2 & Hl2 & Ht2 & Hc2 & Hd2).
  destruct (run_close ps 0 st2) as [st3|e] eqn:Hclose; simpl; [|discriminate].
  apply run_close_log in Hclose. destruct Hclose as (evs3 & Hl3 & Hd3 & Ht3).
  intros [= <- <- <-]. exists (evs1 ++ evs2 ++ evs3), instance.
  unfold metrics_timer. simpl.
  rewrite Hl3, Hl2, Hl1, <- !app_assoc, !timers_app, Ht1, Ht2, Ht3.
  rewrite !existsb_app, Hd3, Hc2, Hc1, orb_false_r. simpl.
  repeat split; auto.
Qed.

End Run.

(** ** Writes to the payload *)

Section Store.

Lemma dict_get_set_same d k v : dict_get (dict_set d k v) k = Some v.
Proof.
  induction d as [|[k' v'] d IH]; simpl.
  - rewrite String.eqb_refl. reflexivity.
  - destruct (String.eqb k k') eqn:Hk; simpl; rewrite Hk; [reflexivity|].
    exact IH.
Qed.

Lemma dict_get_set_other d k k' v :
  String.eqb k' k = false -> dict_get (dict_set d k v) k' = dict_get d k'.
Proof.
  intros Hkk. induction d as [|[k0 v0] d IH]; simpl.
  - rewrite Hkk. reflexivity.
  - destruct (String.eqb k k0) eqn:Hk; simpl.
    + apply String.eqb_eq in Hk. subst k0. rewrite Hkk. reflexivity.
    + rewrite IH. reflexivity.
Qed.

Lemma dict_set_truthy d k v : truthy (PyDict (dict_set d k v)) = true.
Proof.
  destruct d as [|[k' v'] d]; simpl; [reflexivity|].
  destruct (String.eqb k k'); reflexivity.
Qed.

Lemma nth_error_update_nth {A} (f : A -> A) l :
  forall n x, nth_error l n = Some x ->
              nth_error (update_nth n f l) n = Some (f x).
Proof.
  induction l as [|y l IH]; intros [|n] x; simpl; try discriminate.
  - intros [= <-]. reflexivity.
  - apply IH.
Qed.

Lemma chars_not_dict s c : In c (chars s) -> is_dict c = false.
Proof.
  induction s as [|a s IH]; simpl; [intros []|].
  intros [<-|H]; [reflexivity | apply IH, H].
Qed.

(** A write to an item of a section is read back at the same place. *)
Lemma section_items_update data key n f items c :
  section_items data key = Ok items ->
  nth_error items n = Some c ->
  is_dict c = true ->
  exists items',
    section_items
      (dict_update key (dict_update "values" (item_update n f)) data) key
    = Ok items' /\
    nth_error items' n = Some (f c).
Proof.
  unfold section_items. intros Hitems Hnth Hc.
  destruct data as [| | | | | |d]; simpl in Hitems; try discriminate.
  destruct (dict_get d key) as [section|] eqn:Hsec; simpl in Hitems;
    [|injection Hitems as <-; destruct n; discriminate].
  destruct (truthy section) eqn:Ht;
    [|injection Hitems as <-; destruct n; discriminate].
  destruct section as [| | | | | |sd]; simpl in Hitems; try discriminate.
  destruct (dict_get sd "values") as [values|] eqn:Hval; simpl in Hitems;
    [|discriminate].
  simpl. rewrite Hsec. simpl. rewrite dict_get_set_same. rewrite Hval.
  rewrite dict_set_truthy. simpl. rewrite dict_get_set_same. simpl.
  destruct values as [| | |s|l|l|vd]; simpl in Hitems; try discriminate;
    injection Hitems as <-; simpl.
  - apply nth_error_In, chars_not_dict in Hnth. congruence.
  - eexists. split; [reflexivity|]. apply nth_error_update_nth, Hnth.
  - eexists. split; [reflexivity|]. apply nth_error_update_nth, Hnth.
  - apply nth_error_In, in_map_iff in Hnth. destruct Hnth as (kv & <- & _).
    discriminate.
Qed.

(** The stack trace the merger writes at the place of a record is the one
    found there afterwards. *)
Lemma replaced_stacktrace_located data r s new :
  located_stacktrace data r = Some s ->
  truthy s = true ->
  located_stacktrace (at_stacktrace r (fun _ => new) data) r = Some new.
Proof.
  assert (Hget : forall k c, option_of (py_get c k) = Some s ->
                             truthy s = true ->
                             is_dict c = true /\
                             option_of (py_get (dict_update k (fun _ => new) c)
                                               k) = Some new).
  { intros k c Hc Hs. destruct c as [| | | | | |cd]; simpl in Hc;
      try discriminate.
    split; [reflexivity|]. simpl.
    destruct (dict_get cd k) as [s'|] eqn:Hs'.
    - simpl. rewrite dict_get_set_same. reflexivity.
    - injection Hc as <-. discriminate. }
  intros Hloc Hs. destruct r as [n| |n]; simpl in *.
  - destruct (section_items data "sentry.interfaces.Exception")
      as [items|] eqn:Hitems; [|discriminate].
    destruct (nth_error items n) as [c|] eqn:Hnth; [|discriminate].
    destruct (Hget _ c Hloc Hs) as [Hc Hnew].
    destruct (section_items_update data _ n
                (dict_update "stacktrace" (fun _ => new)) items c
                Hitems Hnth Hc) as (items' & -> & ->).
    exact Hnew.
  - apply (Hget _ data Hloc Hs).
  - destruct (section_items data "threads") as [items|] eqn:Hitems;
      [|discriminate].
    destruct (nth_error items n) as [c|] eqn:Hnth; [|discriminate].
    destruct (Hget _ c Hloc Hs) as [Hc Hnew].
    destruct (section_items_update data _ n
                (dict_update "stacktrace" (fun _ => new)) items c
                Hitems Hnth Hc) as (items' & -> & ->).
    exact Hnew.
Qed.

End Store.

(** ** The result of a run *)

Section Orchestrator.

Context {W : Type}.
Variable make_processors :
  pyval -> list StacktraceInfo -> list (StacktraceProcessor W).

(** What a run that returns has done. *)
Lemma process_stacktraces_outcome data st st' v :
  process_stacktraces make_processors data st = Ok (st', v) ->
  exists infos,
    find_stacktraces_in_data data = Ok infos /\
    match make_processors data infos with
    | [] => st' = st /\ v = PyNone
    | _ :: _ =>
        exists evs instance data',
          py_getitem data "project" = Ok instance /\
          log st' = log st ++ evs ++ [ETimer (get_metrics_key infos) instance] /\
          timers evs = [] /\
          is_dict data' = true /\
          run_processors (make_processors data infos) infos data st
          = Ok (st', (data', existsb dirty_event evs)) /\
          v = if existsb dirty_event evs then data' else PyNone
    end.
Proof.
  unfold process_stacktraces.
  destruct (find_stacktraces_in_data data) as [infos|e]; simpl; [|discriminate].
  intros H. exists infos. split; [reflexivity|].
  destruct (make_processors data infos) as [|p ps].
  - injection H as <- <-. split; reflexivity.
  - destruct (run_processors (p :: ps) infos data st)
      as [[st1 [data' changed]]|e] eqn:Hrun; simpl in H; [|discriminate].
    destruct (run_processors_log (p :: ps) infos data st st1 data' changed Hrun)
      as (evs & instance & Hproj & Hl & Ht & Hc & Hd).
    exists evs, instance, data'. subst changed.
    destruct (existsb dirty_event evs); injection H as <- <-; auto 10.
Qed.

(** C5, amended: a run that returns gives back the payload, a dictionary,
    if one of the dirty events took place (a preprocess hook that reports a
    mutation, replaced frames, an attached raw stack trace, appended
    errors), and [None] otherwise; [None] is also what the early exit
    without processors returns. *)
Theorem run_result_follows_dirty_flag data st st' v :
  process_stacktraces make_processors data st = Ok (st', v) ->
  exists infos,
    find_stacktraces_in_data data = Ok infos /\
    match make_processors data infos with
    | [] => st' = st /\ v = PyNone
    | _ :: _ =>
        exists evs data',
          log st' = log st ++ evs /\
          run_processors (make_processors data infos) infos data st
          = Ok (st', (data', existsb dirty_event evs)) /\
          (existsb dirty_event evs = true -> v = data' /\ is_dict v = true) /\
          (existsb dirty_event evs = false -> v = PyNone)
    end.
Proof.
  intros H. apply process_stacktraces_outcome in H.
  destruct H as (infos & Hloc & H). exists infos. split; [exact Hloc|].
  destruct (make_processors data infos) as [|p ps]; [exact H|].
  destruct H as (evs & instance & data' & Hproj & Hl & Ht & Hd & Hrun & Hv).
  exists (evs ++ [ETimer (get_metrics_key infos) instance]), data'.
  rewrite existsb_app. simpl. rewrite !orb_false_r.
  split; [exact Hl|]. split; [exact Hrun|].
  split; intros Hdirty; rewrite Hdirty in Hv; subst v; auto.
Qed.

(** C7, amended: without processors the run is a no-op that leaves no
    event, so no timer, however many stack traces were found; with no
    stack trace but with processors, a run that returns has reported one
    timer, under the shared key. *)
Theorem no_processors_no_timer :
  (forall data st infos,
      find_stacktraces_in_data data = Ok infos ->
      make_processors data infos = [] ->
      process_stacktraces make_processors data st = Ok (st, PyNone)) /\
  (forall data st st' v,
      find_stacktraces_in_data data = Ok [] ->
      make_processors data [] <> [] ->
      process_stacktraces make_processors data st = Ok (st', v) ->
      exists evs instance,
        log st' = log st ++ evs /\
        timers evs = [("mixed.process", instance)]).
Proof.
  split.
  - intros data st infos Hloc Hmk. unfold process_stacktraces.
    rewrite Hloc. simpl. rewrite Hmk. reflexivity.
  - intros data st st' v Hloc Hmk H. apply process_stacktraces_outcome in H.
    destruct H as (infos & Hloc' & H). rewrite Hloc in Hloc'.
    injection Hloc' as <-.
    destruct (make_processors data []) as [|p ps]; [contradiction|].
    destruct H as (evs & instance & data' & _ & Hl & Ht & _).
    exists (evs ++ [ETimer (get_metrics_key []) instance]), instance.
    split; [exact Hl|]. rewrite timers_app, Ht. reflexivity.
Qed.

End Orchestrator.

(** C5, at a sample: the preprocess hook of [dirty_processor] marks the
    run, and the payload comes back. *)
Lemma run_result_follows_dirty_flag_witness :
  exists infos,
    find_stacktraces_in_data bare_event = Ok infos /\
    exists evs data',
      [EPreprocess 0 true; EClose 0; ETimer "mixed.process" (PyInt 1)]
      = log start ++ evs /\
      run_processors [dirty_processor] infos bare_event start
      = Ok (mkState 0%nat [EPreprocess 0 true; EClose 0;
                           ETimer "mixed.process" (PyInt 1)],
            (data', existsb dirty_event evs)) /\
      (existsb dirty_event evs = true ->
       bare_event = data' /\ is_dict bare_event = true) /\
      (existsb dirty_event evs = false -> bare_event = PyNone).
Proof.
  apply (run_result_follows_dirty_flag (fun _ _ => [dirty_processor])
           bare_event start
           (mkState 0%nat [EPreprocess 0 true; EClose 0;
                           ETimer "mixed.process" (PyInt 1)])
           bare_event).
  reflexivity.
Defined.

(** C5, as stated, fails: a run that had a processor and changed nothing
    returns [None], the value of the early exit without processors. *)
Lemma no_changes_is_not_distinct_counterexample :
  process_stacktraces (fun _ _ => [idle_processor]) sample_event start
  = Ok (mkState 3%nat
                [EPreprocess 0 false;
                 EProcessFrame 0 frame_a 2;
                 EProcessFrame 0 frame_b 1;
                 EProcessFrame 0 frame_c 0;
                 EClose 0;
                 ETimer "mixed.process" (PyInt 1)],
        PyNone) /\
  process_stacktraces (fun _ _ => @nil (StacktraceProcessor nat))
                      sample_event start
  = Ok (start, PyNone) /\
  returned (process_stacktraces (fun _ _ => [idle_processor]) sample_event start)
  = returned (process_stacktraces (fun _ _ => @nil (StacktraceProcessor nat))
                                  sample_event start).
Proof. repeat split. Qed.

(** C7, at a sample: no processor for an event with a stack trace, and a
    processor for an event without one. *)
Lemma no_processors_no_timer_witness :
  process_stacktraces (fun _ _ => @nil (StacktraceProcessor nat))
                      sample_event start
  = Ok (start, PyNone) /\
  exists evs instance,
    log (mkState 0%nat [EPreprocess 0 true; EClose 0;
                        ETimer "mixed.process" (PyInt 1)])
    = log start ++ evs /\
    timers evs = [("mixed.process", instance)].
Proof.
  split.
  - apply (proj1 (no_processors_no_timer (fun _ _ => []))
                 sample_event start [sample_info]); reflexivity.
  - apply (proj2 (no_processors_no_timer (fun _ _ => [dirty_processor]))
                 bare_event start
                 (mkState 0%nat [EPreprocess 0 true; EClose 0;
                                 ETimer "mixed.process" (PyInt 1)])
                 bare_event);
      [reflexivity | discriminate | reflexivity].
Defined.

(** C7, as stated, fails: no stack trace is found in [bare_event], yet the
    run with a processor reports a timer and returns the payload. *)
Lemma zero_stacktraces_timer_counterexample :
  find_stacktraces_in_data bare_event = Ok [] /\
  process_stacktraces (fun _ _ => [dirty_processor]) bare_event start
  = Ok (mkState 0%nat [EPreprocess 0 true; EClose 0;
                       ETimer "mixed.process" (PyInt 1)],
        bare_event).
Proof. split; reflexivity. Qed.

(** ** Errors reported for frames *)

Lemma no_expansion_unchanged (cs : list (pyval * contribution)) :
  (forall fc, In fc cs ->
     processed_expansion (snd fc) = None /\ raw_expansion (snd fc) = None) ->
  existsb expands_processed cs = false /\ existsb expands_raw cs = false.
Proof.
  induction cs as [|fc cs IH]; intros Hall; simpl; [auto|].
  destruct (Hall fc (or_introl eq_refl)) as [Hp Hr].
  destruct IH as [IHp IHr]; [intros x Hx; apply Hall; right; exact Hx|].
  unfold expands_processed, expands_raw in *. rewrite Hp, Hr, IHp, IHr. auto.
Qed.

(** The scenario of the specification, run from any state. *)
Lemma scenario_run (f0 f1 f2 e : pyval) (old : option (list pyval))
    (pl : list pyval) (st : state nat) :
  frame_platforms (scenario_event f0 f1 f2 (errors_entry old)) [f0; f1; f2] []
  = Ok pl ->
  let info := mkInfo (scenario_stacktrace f0 f1 f2)
                     (scenario_exception f0 f1 f2) pl (LExc 0) in
  find_stacktraces_in_data (scenario_event f0 f1 f2 (errors_entry old))
  = Ok [info] /\
  (exists st1,
      process_single_stacktrace info [innermost_processor e] st
      = Ok (st1, (PyNone, PyNone, PyList [e]))) /\
  process_stacktraces (fun _ _ => [innermost_processor e])
                      (scenario_event f0 f1 f2 (errors_entry old)) st
  = Ok (mkState (S (S (S (world st))))
                (log st ++ [EPreprocess 0 false;
                            EProcessFrame 0 f0 2;
                            EProcessFrame 0 f1 1;
                            EProcessFrame 0 f2 0;
                            EAppendErrors 1;
                            EClose 0;
                            ETimer (get_metrics_key [info]) (PyInt 1)]),
        scenario_event f0 f1 f2
                       [("errors", PyList (errors_so_far old ++ [e]))]).
Proof.
  intros Hpl info.
  assert (Hloc : find_stacktraces_in_data
                   (scenario_event f0 f1 f2 (errors_entry old)) = Ok [info]).
  { unfold find_stacktraces_in_data, scan_section.
    destruct old as [l|]; cbn -[frame_platforms] in *;
      unfold _report_stack; cbn -[frame_platforms];
      rewrite Hpl; reflexivity. }
  split; [exact Hloc|]. split.
  - eexists. reflexivity.
  - unfold process_stacktraces. rewrite Hloc.
    destruct st as [w lg]. destruct old as [l|]; cbn -[get_metrics_key];
      unfold metrics_timer, emit; cbn -[get_metrics_key];
      rewrite <- !app_assoc; reflexivity.
Qed.

(** C9: errors alone mark the run.  When the matches of a stack trace
    expand neither variant and report the one error [e], both variants
    come back as [None] with [e] as the only error; merging that result
    appends [e] to the error list of the payload and sets the [changed]
    flag, without any other write.  In the scenario of one exception with
    three frames and one processor that claims only the frame with reverse
    index 0 and returns [(None, None, [e])] for it, the run returns the
    payload, in which nothing changed but the error list, which has [e] as
    its one new entry; appending it is the only dirty event and does not
    stop the run: the close hook and the timer follow. *)
Theorem errors_alone_mark_the_run :
  (forall W (processors : list (StacktraceProcessor W)) info d fr frames
          st cs e,
      stacktrace info = PyDict d ->
      dict_get d "frames" = Some fr ->
      py_iter fr = Ok frames ->
      read_contributions
        (snd (trace_matches processors info frames (world st))) = Some cs ->
      (forall fc, In fc cs ->
         processed_expansion (snd fc) = None /\ raw_expansion (snd fc) = None) ->
      flat_map (fun fc : pyval * contribution => frame_errors (snd fc)) cs
      = [e] ->
      exists st',
        process_single_stacktrace info processors st
        = Ok (st', (PyNone, PyNone, PyList [e]))) /\
  (forall W (processors : list (StacktraceProcessor W)) info st st1 data
          changed e data',
      process_single_stacktrace info processors st
      = Ok (st1, (PyNone, PyNone, PyList [e])) ->
      extend_errors data [e] = Ok data' ->
      merge_one processors info st data changed
      = Ok (emit st1 (world st1) [EAppendErrors 1], (data', true))) /\
  (forall (f0 f1 f2 e : pyval) (old : option (list pyval)) (pl : list pyval)
          (st : state nat),
      frame_platforms (scenario_event f0 f1 f2 (errors_entry old))
                      [f0; f1; f2] [] = Ok pl ->
      let info := mkInfo (scenario_stacktrace f0 f1 f2)
                         (scenario_exception f0 f1 f2) pl (LExc 0) in
      find_stacktraces_in_data (scenario_event f0 f1 f2 (errors_entry old))
      = Ok [info] /\
      (exists st1,
          process_single_stacktrace info [innermost_processor e] st
          = Ok (st1, (PyNone, PyNone, PyList [e]))) /\
      process_stacktraces (fun _ _ => [innermost_processor e])
                          (scenario_event f0 f1 f2 (errors_entry old)) st
      = Ok (mkState (S (S (S (world st))))
                    (log st ++ [EPreprocess 0 false;
                                EProcessFrame 0 f0 2;
                                EProcessFrame 0 f1 1;
                                EProcessFrame 0 f2 0;
                                EAppendErrors 1;
                                EClose 0;
                                ETimer (get_metrics_key [info]) (PyInt 1)]),
            scenario_event f0 f1 f2
                           [("errors", PyList (errors_so_far old ++ [e]))])).
Proof.
  split; [|split].
  - intros W processors info d fr frames st cs e Hst Hfr Hit Hcs Hnone Herr.
    destruct (process_single_stacktrace_refines processors info d fr frames
                st cs Hst Hfr Hit Hcs) as (evs & Hrun).
    rewrite Hrun, Herr.
    destruct (no_expansion_unchanged cs Hnone) as [-> ->].
    eexists. reflexivity.
  - intros W processors info st st1 data changed e data' Hrun Hext.
    unfold merge_one. rewrite Hrun. simpl. rewrite Hext. reflexivity.
  - exact scenario_run.
Qed.

(** C9, at a sample: the frames of [sample_stacktrace] and an event that
    has no error list yet. *)
Lemma errors_alone_mark_the_run_witness :
  let info := mkInfo (scenario_stacktrace frame_a frame_b frame_c)
                     (scenario_exception frame_a frame_b frame_c)
                     [PyStr "python"; PyStr "javascript"] (LExc 0) in
  find_stacktraces_in_data
    (scenario_event frame_a frame_b frame_c (errors_entry None))
  = Ok [info] /\
  (exists st1,
      process_single_stacktrace
        info [innermost_processor (PyDict [("error", PyStr "x")])] start
      = Ok (st1, (PyNone, PyNone, PyList [PyDict [("error", PyStr "x")]]))) /\
  process_stacktraces
    (fun _ _ => [innermost_processor (PyDict [("error", PyStr "x")])])
    (scenario_event frame_a frame_b frame_c (errors_entry None)) start
  = Ok (mkState (S (S (S (world start))))
                (log start ++ [EPreprocess 0 false;
                               EProcessFrame 0 frame_a 2;
                               EProcessFrame 0 frame_b 1;
                               EProcessFrame 0 frame_c 0;
                               EAppendErrors 1;
                               EClose 0;
                               ETimer (get_metrics_key [info]) (PyInt 1)]),
        scenario_event frame_a frame_b frame_c
          [("errors",
            PyList (errors_so_far None ++ [PyDict [("error", PyStr "x")]]))]).
Proof.
  apply (proj2 (proj2 errors_alone_mark_the_run)
           frame_a frame_b frame_c (PyDict [("error", PyStr "x")]) None
           [PyStr "python"; PyStr "javascript"] start).
  reflexivity.
Defined.

(** ** The locator *)

Section Locator.

Variable data : pyval.

Lemma key_eqb_refl : forall v, hashable v = true -> key_eqb v v = true.
Proof.
  fix IH 1. intros v. destruct v as [| b | z | s | l | l | d]; simpl;
    intros H; try reflexivity; try discriminate.
  - destruct b; reflexivity.
  - apply Z.eqb_refl.
  - apply String.eqb_refl.
  - induction l as [|x l IHl]; [reflexivity|].
    simpl in H. apply andb_prop in H. destruct H as [Hx Hl].
    rewrite (IH x Hx). simpl. apply IHl, Hl.
Qed.

Lemma set_mem_app q s t :
  set_mem q (s ++ t) = set_mem q s || set_mem q t.
Proof. apply existsb_app. Qed.

Lemma frame_platforms_spec frames :
  forall acc pl,
    frame_platforms data frames acc = Ok pl ->
    (forall q, set_mem q acc = true -> set_mem q pl = true) /\
    (forall f, In f frames ->
       exists p, effective_platform data f = Ok p /\ set_mem p pl = true) /\
    (forall q, In q pl ->
       In q acc \/ exists f, In f frames /\ effective_platform data f = Ok q) /\
    (frames = [] -> pl = acc).
Proof.
  induction frames as [|frame rest IH]; intros acc pl; simpl.
  - intros [= <-]. repeat split; auto. intros f [].
  - destruct (py_get frame "platform") as [own|e] eqn:Hown; simpl;
      [|discriminate].
    destruct (py_or own (py_getitem data "platform")) as [p|e] eqn:Hp; simpl;
      [|discriminate].
    assert (Heff : effective_platform data frame = Ok p).
    { unfold effective_platform. rewrite Hown. exact Hp. }
    unfold set_add. destruct (hashable p) eqn:Hh; simpl; [|discriminate].
    intros Hrun. apply IH in Hrun. destruct Hrun as (Hmono & Hall & Hback & _).
    assert (Hin : set_mem p (if set_mem p acc then acc else acc ++ [p]) = true).
    { destruct (set_mem p acc) eqn:Hm; [exact Hm|].
      rewrite set_mem_app. simpl. rewrite (key_eqb_refl p Hh).
      apply orb_true_r. }
    split; [|split; [|split]].
    + intros q Hq. apply Hmono.
      destruct (set_mem p acc); [exact Hq|].
      rewrite set_mem_app, Hq. reflexivity.
    + intros f [<-|Hf].
      * exists p. split; [exact Heff | apply Hmono, Hin].
      * apply Hall, Hf.
    + intros q Hq. apply Hback in Hq. destruct Hq as [Hq|(f & Hf & Hq)].
      * destruct (set_mem p acc); [left; exact Hq|].
        apply in_app_or in Hq. destruct Hq as [Hq|[<-|[]]]; [left; exact Hq|].
        right. exists frame. split; [left; reflexivity | exact Heff].
      * right. exists f. split; [right; exact Hf | exact Hq].
    + discriminate.
Qed.

Lemma report_stack_spec rv stacktrace container r rv' :
  _report_stack data rv stacktrace container r = Ok rv' ->
  exists pl frames,
    rv' = rv ++ [mkInfo stacktrace container pl r] /\
    frames_of stacktrace = Ok frames /\
    platform_set data frames pl.
Proof.
  unfold _report_stack, frames_of.
  destruct (py_get stacktrace "frames") as [fr|e]; simpl; [|discriminate].
  destruct (py_or fr (Ok (PyTuple []))) as [fr'|e]; simpl; [|discriminate].
  destruct (py_iter fr') as [frames|e]; simpl; [|discriminate].
  destruct (frame_platforms data frames []) as [pl|e] eqn:Hpl; simpl;
    [|discriminate].
  intros [= <-]. exists pl, frames. split; [reflexivity|].
  split; [reflexivity|].
  apply frame_platforms_spec in Hpl. destruct Hpl as (_ & Hall & Hback & Hnil).
  split; [exact Hall|]. split; [|exact Hnil].
  intros q Hq. destruct (Hback q Hq) as [[]|H]. exact H.
Qed.

Lemma scan_values_spec mk items :
  forall n rv rv',
    scan_values data mk n items rv = Ok rv' ->
    exists new, rv' = rv ++ new /\ section_records data mk n items new.
Proof.
  induction items as [|item rest IH]; intros n rv rv'; simpl.
  - intros [= <-]. exists []. rewrite app_nil_r. split; [reflexivity|].
    split; [|split].
    + exists []. repeat split; constructor.
    + intros info [].
    + intros [|k] c s H; discriminate.
  - destruct (py_get item "stacktrace") as [s0|e] eqn:Hget; simpl;
      [|discriminate].
    destruct (truthy s0) eqn:Htruthy.
    + destruct (_report_stack data rv s0 item (mk n)) as [rv1|e] eqn:Hrep;
        simpl; [|discriminate].
      apply report_stack_spec in Hrep.
      destruct Hrep as (pl & frames & -> & Hfr & Hpl).
      intros Hrun. apply IH in Hrun.
      destruct Hrun as (new & -> & (ks & Hks & Hsorted & Hge) & Hmem & Hall).
      exists (mkInfo s0 item pl (mk n) :: new).
      rewrite <- app_assoc. split; [reflexivity|]. split; [|split].
      * exists (n :: ks). simpl. rewrite Hks. split; [reflexivity|].
        split.
        -- constructor; [exact Hsorted|].
           eapply Forall_impl; [|exact Hge]. intros k Hk. simpl in Hk. lia.
        -- constructor; [lia|].
           eapply Forall_impl; [|exact Hge]. intros k Hk. simpl in Hk. lia.
      * intros info [<-|Hin].
        -- exists 0%nat. simpl. rewrite Nat.add_0_r.
           repeat split; auto. exists frames. split; assumption.
        -- destruct (Hmem info Hin) as (k & Hk & Hrest).
           exists (S k). rewrite Nat.add_succ_r. split; [exact Hk|].
           exact Hrest.
      * intros [|k] c s Hnth Hc Hs.
        -- exists (mkInfo s0 item pl (mk n)). split; [left; reflexivity|].
           simpl. rewrite Nat.add_0_r. reflexivity.
        -- destruct (Hall k c s Hnth Hc Hs) as (info & Hin & Hr).
           exists info. split; [right; exact Hin|].
           rewrite Nat.add_succ_r. exact Hr.
    + simpl. intros Hrun. apply IH in Hrun.
      destruct Hrun as (new & -> & (ks & Hks & Hsorted & Hge) & Hmem & Hall).
      exists new. split; [reflexivity|]. split; [|split].
      * exists ks. split; [exact Hks|]. split; [exact Hsorted|].
        eapply Forall_impl; [|exact Hge]. intros k Hk. simpl in Hk. lia.
      * intros info Hin. destruct (Hmem info Hin) as (k & Hk & Hrest).
        exists (S k). rewrite Nat.add_succ_r. split; [exact Hk|].
        exact Hrest.
      * intros [|k] c s Hnth Hc Hs.
        -- simpl in Hnth. injection Hnth as <-. rewrite Hget in Hc.
           injection Hc as <-. congruence.
        -- destruct (Hall k c s Hnth Hc Hs) as (info & Hin & Hr).
           exists info. split; [exact Hin|].
           rewrite Nat.add_succ_r. exact Hr.
Qed.

Lemma scan_section_spec key mk rv rv' :
  scan_section data key mk rv = Ok rv' ->
  exists items new,
    section_items data key = Ok items /\
    rv' = rv ++ new /\ section_records data mk 0 items new.
Proof.
  unfold scan_section, section_items.
  destruct (py_get data key) as [section|e]; simpl; [|discriminate].
  destruct (truthy section).
  - destruct (py_getitem section "values") as [values|e]; simpl;
      [|discriminate].
    destruct (py_iter values) as [items|e]; simpl; [|discriminate].
    intros Hrun. apply scan_values_spec in Hrun.
    destruct Hrun as (new & Hrv & Hrec). exists items, new. auto.
  - intros [= <-]. exists [], []. rewrite app_nil_r.
    split; [reflexivity|]. split; [reflexivity|]. split; [|split].
    + exists []. repeat split; constructor.
    + intros info [].
    + intros [|k] c s H; discriminate.
Qed.

Lemma StronglySorted_app {A} (R : A -> A -> Prop) l1 l2 :
  StronglySorted R l1 ->
  StronglySorted R l2 ->
  (forall a b, In a l1 -> In b l2 -> R a b) ->
  StronglySorted R (l1 ++ l2).
Proof.
  induction l1 as [|x l1 IH]; intros H1 H2 H12; simpl; [exact H2|].
  inversion H1 as [|? ? Hs Hf]; subst. constructor.
  - apply IH; [exact Hs | exact H2 |].
    intros a b Ha Hb. apply H12; [right; exact Ha | exact Hb].
  - apply Forall_app. split; [exact Hf|].
    apply Forall_forall. intros b Hb. apply H12; [left; reflexivity | exact Hb].
Qed.

Lemma StronglySorted_map {A B} (R : A -> A -> Prop) (S : B -> B -> Prop)
    (f : A -> B) l :
  (forall a b, R a b -> S (f a) (f b)) ->
  StronglySorted R l -> StronglySorted S (map f l).
Proof.
  intros Hf. induction 1 as [|x l Hs IH Hx]; simpl; constructor;
    [exact IH|].
  apply Forall_forall. intros b Hb. apply in_map_iff in Hb.
  destruct Hb as (a & <- & Ha). apply Hf.
  rewrite Forall_forall in Hx. apply Hx, Ha.
Qed.

Lemma section_records_describe key mk items new :
  (forall n, located_container data (mk n)
             = match section_items data key with
               | Ok items => nth_error items n
               | Raise _ => None
               end) ->
  (forall n, located_stacktrace data (mk n)
             = match located_container data (mk n) with
               | Some c => option_of (py_get c "stacktrace")
               | None => None
               end) ->
  section_items data key = Ok items ->
  section_records data mk 0 items new ->
  (forall info, In info new -> describes data info) /\
  (forall n s, located_stacktrace data (mk n) = Some s -> truthy s = true ->
               exists info, In info new /\ ref info = mk n).
Proof.
  intros Hc Hs Hitems (_ & Hmem & Hall). split.
  - intros info Hin. destruct (Hmem info Hin) as (k & Hk & Hnth & Hget & Ht & Hpl).
    simpl in Hk. unfold describes. rewrite Hk, Hs, Hc, Hitems, Hnth, Hget.
    auto.
  - intros n s Hloc Ht. rewrite Hs, Hc, Hitems in Hloc.
    destruct (nth_error items n) as [c|] eqn:Hnth; [|discriminate].
    destruct (py_get c "stacktrace") as [s'|] eqn:Hget; [|discriminate].
    injection Hloc as ->.
    destruct (Hall n c s Hnth Hget Ht) as (info & Hin & Hr).
    exists info. split; [exact Hin | exact Hr].
Qed.

Lemma frame_platforms_total frames :
  (forall f, In f frames ->
     exists p, effective_platform data f = Ok p /\ hashable p = true) ->
  forall acc, exists pl, frame_platforms data frames acc = Ok pl.
Proof.
  induction frames as [|frame rest IH]; intros Hall acc; simpl.
  - exists acc. reflexivity.
  - destruct (Hall frame (or_introl eq_refl)) as (p & Hp & Hh).
    unfold effective_platform in Hp.
    destruct (py_get frame "platform") as [own|e]; simpl in *; [|discriminate].
    rewrite Hp. simpl. unfold set_add. rewrite Hh. simpl.
    apply IH. intros f Hf. apply Hall. right. exact Hf.
Qed.

Lemma report_stack_total rv stacktrace container r :
  reportable data stacktrace ->
  exists rv', _report_stack data rv stacktrace container r = Ok rv'.
Proof.
  intros (frames & Hfr & Hall). unfold _report_stack. unfold frames_of in Hfr.
  destruct (py_get stacktrace "frames") as [fr|e]; simpl in *; [|discriminate].
  destruct (py_or fr (Ok (PyTuple []))) as [fr'|e]; simpl in *; [|discriminate].
  rewrite Hfr. simpl.
  destruct (frame_platforms_total frames Hall []) as (pl & ->). simpl.
  eexists. reflexivity.
Qed.

Lemma scan_values_total mk items :
  scannable data items ->
  forall n rv, exists rv', scan_values data mk n items rv = Ok rv'.
Proof.
  induction items as [|item rest IH]; intros Hall n rv; simpl.
  - exists rv. reflexivity.
  - destruct (Hall item (or_introl eq_refl)) as (s & -> & Hs). simpl.
    assert (Hrest : scannable data rest).
    { intros c Hc. apply Hall. right. exact Hc. }
    destruct (truthy s).
    + destruct (report_stack_total rv s item (mk n) (Hs eq_refl)) as (rv1 & ->).
      simpl. apply IH, Hrest.
    + simpl. apply IH, Hrest.
Qed.

Lemma scan_section_total key mk rv items :
  section_items data key = Ok items ->
  scannable data items ->
  exists rv', scan_section data key mk rv = Ok rv'.
Proof.
  unfold section_items, scan_section. intros Hitems Hscan.
  destruct (py_get data key) as [section|e]; simpl in *; [|discriminate].
  destruct (truthy section).
  - destruct (py_getitem section "values") as [values|e]; simpl in *;
      [|discriminate].
    rewrite Hitems. simpl. apply scan_values_total, Hscan.
  - exists rv. reflexivity.
Qed.

Lemma find_stacktraces_in_data_total :
  well_shaped data -> exists infos, find_stacktraces_in_data data = Ok infos.
Proof.
  intros ((items1 & Hitems1 & Hscan1) & (top & Htop & Hrep) &
          (items3 & Hitems3 & Hscan3)).
  unfold find_stacktraces_in_data.
  destruct (scan_section_total "sentry.interfaces.Exception" LExc []
              items1 Hitems1 Hscan1) as (rv1 & ->). simpl.
  rewrite Htop. simpl.
  destruct (truthy top).
  - destruct (report_stack_total rv1 top PyNone LTop (Hrep eq_refl))
      as (rv2 & ->). simpl.
    destruct (scan_section_total "threads" LThread rv2 items3 Hitems3 Hscan3)
      as (rv3 & ->). simpl. eexists. reflexivity.
  - simpl.
    destruct (scan_section_total "threads" LThread rv1 items3 Hitems3 Hscan3)
      as (rv3 & ->). simpl. eexists. reflexivity.
Qed.

(** What the locator returns. *)
Lemma find_stacktraces_in_data_spec infos :
  find_stacktraces_in_data data = Ok infos ->
  StronglySorted loc_lt (map ref infos) /\
  (forall info, In info infos -> describes data info) /\
  (forall r s, located_stacktrace data r = Some s -> truthy s = true ->
               exists info, In info infos /\ ref info = r).
Proof.
  unfold find_stacktraces_in_data.
  destruct (scan_section data "sentry.interfaces.Exception" LExc [])
    as [rv1|e] eqn:Hexc; simpl; [|discriminate].
  apply scan_section_spec in Hexc.
  destruct Hexc as (items1 & new1 & Hitems1 & -> & Hrec1). simpl.
  destruct (py_get data "sentry.interfaces.Stacktrace") as [top|e] eqn:Htop;
    simpl; [|discriminate].
  assert (Htops : exists tops,
    (if truthy top then _report_stack data new1 top PyNone LTop else Ok new1)
    = Ok (new1 ++ tops) /\
    (truthy top = true ->
     exists pl frames, tops = [mkInfo top PyNone pl LTop] /\
                       frames_of top = Ok frames /\
                       platform_set data frames pl) /\
    (truthy top = false -> tops = [])
    \/ exists e, (if truthy top
                  then _report_stack data new1 top PyNone LTop
                  else Ok new1) = Raise e).
  { destruct (truthy top).
    - destruct (_report_stack data new1 top PyNone LTop) as [rv2|e] eqn:Hrep.
      + apply report_stack_spec in Hrep.
        destruct Hrep as (pl & frames & -> & Hfr & Hpl).
        exists [mkInfo top PyNone pl LTop]. left. split; [reflexivity|].
        split; [|discriminate]. intros _. exists pl, frames. auto.
      + exists []. right. exists e. reflexivity.
    - exists []. left. rewrite app_nil_r. split; [reflexivity|].
      split; [discriminate | reflexivity]. }
  destruct Htops as (tops & [(-> & Htrue & Hfalse) | (e & ->)]); simpl;
    [|discriminate].
  destruct (scan_section data "threads" LThread (new1 ++ tops))
    as [rv3|e] eqn:Hthr; simpl; [|discriminate].
  apply scan_section_spec in Hthr.
  destruct Hthr as (items3 & new3 & Hitems3 & -> & Hrec3).
  intros [= <-].
  pose proof Hrec1 as ((ks1 & Hks1 & Hsorted1 & _) & _).
  pose proof Hrec3 as ((ks3 & Hks3 & Hsorted3 & _) & _).
  destruct (section_records_describe "sentry.interfaces.Exception" LExc
              items1 new1) as (Hdesc1 & Hall1); auto.
  destruct (section_records_describe "threads" LThread items3 new3)
    as (Hdesc3 & Hall3); auto.
  assert (Hreftops : map ref tops = [] \/ map ref tops = [LTop]).
  { destruct (truthy top).
    - destruct (Htrue eq_refl) as (pl & frames & -> & _). right. reflexivity.
    - rewrite (Hfalse eq_refl). left. reflexivity. }
  split; [|split].
  - rewrite !map_app, Hks1, Hks3.
    apply StronglySorted_app; [apply StronglySorted_app | |].
    + apply (StronglySorted_map lt); [|exact Hsorted1].
      intros a b Hab. exact Hab.
    + destruct Hreftops as [-> | ->]; repeat constructor.
    + intros a b Ha Hb. apply in_map_iff in Ha. destruct Ha as (k & <- & _).
      destruct Hreftops as [H | H]; rewrite H in Hb; simpl in Hb;
        [contradiction|]. destruct Hb as [<-|[]]. exact I.
    + apply (StronglySorted_map lt); [|exact Hsorted3].
      intros a b Hab. exact Hab.
    + intros a b Ha Hb. apply in_map_iff in Hb. destruct Hb as (k' & <- & _).
      apply in_app_or in Ha. destruct Ha as [Ha|Ha].
      * apply in_map_iff in Ha. destruct Ha as (k & <- & _). exact I.
      * destruct Hreftops as [H | H]; rewrite H in Ha; simpl in Ha;
          [contradiction|]. destruct Ha as [<-|[]]. exact I.
  - intros info Hin. apply in_app_or in Hin. destruct Hin as [Hin|Hin].
    + apply in_app_or in Hin. destruct Hin as [Hin|Hin]; [apply Hdesc1, Hin|].
      destruct (truthy top) eqn:Ht.
      * destruct (Htrue eq_refl) as (pl & frames & -> & Hfr & Hpl).
        destruct Hin as [<-|[]]. unfold describes; simpl.
        rewrite Htop. simpl. repeat split; auto.
        exists frames. split; assumption.
      * rewrite (Hfalse eq_refl) in Hin. contradiction.
    + apply Hdesc3, Hin.
  - intros r s Hloc Hs. destruct r as [n| |n].
    + destruct (Hall1 n s Hloc Hs) as (info & Hin & Hr).
      exists info. split; [|exact Hr]. apply in_or_app. left.
      apply in_or_app. left. exact Hin.
    + simpl in Hloc. rewrite Htop in Hloc. simpl in Hloc.
      injection Hloc as ->.
      destruct (Htrue Hs) as (pl & frames & -> & _).
      exists (mkInfo s PyNone pl LTop). split; [|reflexivity].
      apply in_or_app. left. apply in_or_app. right. left. reflexivity.
    + destruct (Hall3 n s Hloc Hs) as (info & Hin & Hr).
      exists info. split; [|exact Hr]. apply in_or_app. right. exact Hin.
Qed.

(** C8: the locator.  On a payload of the expected shape it returns.  The
    records it returns come in priority order: exceptions in list order,
    then the top-level stack trace, then threads in list order.  Each
    record describes a stack trace present in the payload, with the set of
    the effective platforms of its frames (the override of the frame, or
    else the event platform), which is empty when there is no frame; and
    every stack trace present in the payload has its record, frames or
    not. *)
Theorem locator_order_and_platforms :
  (well_shaped data -> exists infos, find_stacktraces_in_data data = Ok infos) /\
  forall infos,
    find_stacktraces_in_data data = Ok infos ->
    StronglySorted loc_lt (map ref infos) /\
    (forall info, In info infos -> describes data info) /\
    (forall r s, located_stacktrace data r = Some s -> truthy s = true ->
                 exists info, In info infos /\ ref info = r).
Proof.
  split.
  - apply find_stacktraces_in_data_total.
  - apply find_stacktraces_in_data_spec.
Qed.

End Locator.

(** C8, at a sample: one exception with a stack trace in the event. *)
Lemma locator_order_and_platforms_witness :
  (exists infos, find_stacktraces_in_data sample_event = Ok infos) /\
  StronglySorted loc_lt (map ref [sample_info]) /\
  (forall info, In info [sample_info] -> describes sample_event info) /\
  (forall r s, located_stacktrace sample_event r = Some s -> truthy s = true ->
               exists info, In info [sample_info] /\ ref info = r).
Proof.
  split.
  - apply (proj1 (locator_order_and_platforms sample_event)).
    split; [|split].
    + exists [sample_exception]. split; [reflexivity|].
      intros c [<-|[]]. exists sample_stacktrace. split; [reflexivity|].
      intros _. exists [frame_a; frame_b; frame_c]. split; [reflexivity|].
      intros f [<-|[<-|[<-|[]]]]; eexists; split; reflexivity.
    + exists PyNone. split; [reflexivity | discriminate].
    + exists []. split; [reflexivity|]. intros c [].
  - apply (proj2 (locator_order_and_platforms sample_event) [sample_info]).
    reflexivity.
Defined.


(** * The rest of the code *)

(** ** More on the frame chain *)

Section ChainMore.

Context {W : Type}.
Variables (processors : list (StacktraceProcessor W)) (info : StacktraceInfo).

Lemma py_dict_with_fields o k v o' :
  py_dict_with o k v = Ok o' ->
  py_getitem o' k = Ok v /\
  forall k', k' <> k -> py_get o' k' = py_get o k'.
Proof.
  destruct o as [| | | | | |d]; simpl; try discriminate.
  intros [= <-]. split.
  - simpl. rewrite dict_get_set_same. reflexivity.
  - intros k' Hk. simpl. rewrite dict_get_set_other; [reflexivity|].
    apply String.eqb_neq. exact Hk.
Qed.

Lemma process_single_stacktrace_fields st st' new_stacktrace raw_stacktrace errs :
  process_single_stacktrace info processors st
  = Ok (st', (new_stacktrace, raw_stacktrace, errs)) ->
  (new_stacktrace = PyNone \/
   (exists l, py_getitem new_stacktrace "frames" = Ok (PyList l)) /\
   forall k, k <> "frames" ->
             py_get new_stacktrace k = py_get (stacktrace info) k) /\
  (raw_stacktrace = PyNone \/
   (exists l, py_getitem raw_stacktrace "frames" = Ok (PyList l)) /\
   forall k, k <> "frames" ->
             py_get raw_stacktrace k = py_get (stacktrace info) k) /\
  exists l, errs = PyList l.
Proof.
  unfold process_single_stacktrace.
  destruct (py_getitem (stacktrace info) "frames") as [fr|e]; simpl;
    [|discriminate].
  destruct (py_len fr) as [n|e]; simpl; [|discriminate].
  destruct (py_iter fr) as [frames|e]; simpl; [|discriminate].
  destruct (each_frame processors info n 0 frames st initial_locals)
    as [[st1 vars]|e]; simpl; [|discriminate].
  destruct (changed_processed vars).
  - destruct (py_dict_with (stacktrace info) "frames"
                           (PyList (processed_frames vars)))
      as [new|e] eqn:Hnew; simpl; [|discriminate].
    apply py_dict_with_fields in Hnew. destruct Hnew as [Hn1 Hn2].
    destruct (changed_raw vars).
    + destruct (py_dict_with (stacktrace info) "frames"
                             (PyList (raw_frames vars)))
        as [raw|e] eqn:Hraw; simpl; [|discriminate].
      apply py_dict_with_fields in Hraw. destruct Hraw as [Hr1 Hr2].
      intros [= <- <- <- <-]. repeat split; eauto.
    + simpl. intros [= <- <- <- <-]. repeat split; eauto.
  - simpl. destruct (changed_raw vars).
    + destruct (py_dict_with (stacktrace info) "frames"
                             (PyList (raw_frames vars)))
        as [raw|e] eqn:Hraw; simpl; [|discriminate].
      apply py_dict_with_fields in Hraw. destruct Hraw as [Hr1 Hr2].
      intros [= <- <- <- <-]. repeat split; eauto.
    + simpl. intros [= <- <- <- <-]. repeat split; eauto.
Qed.

(** X1: what comes back is [None] or the stack trace with a new frame
    list.  Each variant that [process_single_stacktrace] returns is either
    [None] or a dictionary whose ['frames'] is a list and whose every other
    field is the field of the stack trace it was given; the errors are
    always a list. *)
Theorem result_keeps_stacktrace_fields st st' new_stacktrace raw_stacktrace errs :
  process_single_stacktrace info processors st
  = Ok (st', (new_stacktrace, raw_stacktrace, errs)) ->
  (new_stacktrace = PyNone \/
   (exists l, py_getitem new_stacktrace "frames" = Ok (PyList l)) /\
   forall k, k <> "frames" ->
             py_get new_stacktrace k = py_get (stacktrace info) k) /\
  (raw_stacktrace = PyNone \/
   (exists l, py_getitem raw_stacktrace "frames" = Ok (PyList l)) /\
   forall k, k <> "frames" ->
             py_get raw_stacktrace k = py_get (stacktrace info) k) /\
  exists l, errs = PyList l.
Proof.
  intros. eapply process_single_stacktrace_fields; eassumption.
Qed.

(** X2: the errors of a trace are the errors of its frames, in frame
    order.  When every match has the shape the interface asks for, the
    error list returned is the concatenation, over the frames in stored
    order, of the errors the match of each frame reported. *)
Theorem errors_concatenated_in_frame_order d fr frames st cs :
  stacktrace info = PyDict d ->
  dict_get d "frames" = Some fr ->
  py_iter fr = Ok frames ->
  read_contributions (snd (trace_matches processors info frames (world st)))
  = Some cs ->
  map fst cs = frames /\
  exists st' new_stacktrace raw_stacktrace,
    process_single_stacktrace info processors st
    = Ok (st', (new_stacktrace, raw_stacktrace,
                PyList (List.concat
                          (map (fun fc => frame_errors (snd fc)) cs)))).
Proof.
  intros Hst Hfr Hit Hcs. split.
  - rewrite (read_contributions_frames _ cs Hcs). apply trace_matches_frames.
  - destruct (process_single_stacktrace_refines processors info d fr frames
                st cs Hst Hfr Hit Hcs) as (evs & Hrun).
    rewrite Hrun, <- flat_map_concat_map. do 3 eexists. reflexivity.
Qed.

Lemma try_processors_calls frame idx (ps : list (StacktraceProcessor W)) :
  forall j st vars st' vars',
    try_processors ps j frame info idx st vars = Ok (st', vars') ->
    exists evs n,
      log st' = log st ++ evs /\
      (n <= List.length ps)%nat /\
      (ps <> [] -> (1 <= n)%nat) /\
      invocations evs = map (fun k => (k, frame, idx)) (seq j n).
Proof.
  induction ps as [|p ps IH]; intros j st vars st' vars'; simpl.
  - intros [= <- <-]. exists [], 0%nat. rewrite app_nil_r.
    repeat split; auto. intros H. contradiction.
  - destruct (process_frame p (world st) frame info idx) as [w [rv|e]].
    + destruct (is_none rv).
      * intros H. apply IH in H. destruct H as (evs & n & Hl & Hn & _ & Hinv).
        exists (EProcessFrame j frame idx :: evs), (S n). simpl in Hl.
        rewrite Hl, <- app_assoc. simpl. rewrite Hinv.
        repeat split; auto; lia.
      * destruct (use_result rv vars); simpl; [|discriminate].
        intros [= <- <-]. exists [EProcessFrame j frame idx], 1%nat.
        simpl. repeat split; auto; lia.
    + destruct (is_exception e); [|discriminate].
      intros H. apply IH in H. destruct H as (evs & n & Hl & Hn & _ & Hinv).
      exists (EProcessFrame j frame idx :: ELogException e :: evs), (S n).
      simpl in Hl. rewrite Hl, <- !app_assoc. simpl. rewrite Hinv.
      repeat split; auto; lia.
Qed.

Lemma each_frame_calls frames :
  forall frame_count i st vars st' vars',
    each_frame processors info frame_count i frames st vars = Ok (st', vars') ->
    frame_count = i + Z.of_nat (List.length frames) ->
    exists evs ns,
      log st' = log st ++ evs /\
      List.length ns = List.length frames /\
      Forall (fun n => (n <= List.length processors)%nat /\
                       (processors <> [] -> (1 <= n)%nat)) ns /\
      invocations evs
      = flat_map (fun fn => calls_for (fst fn) (snd fn))
                 (combine (reverse_indexed frames) ns).
Proof.
  induction frames as [|frame rest IH];
    intros frame_count i st vars st' vars'.
  - simpl. intros [= <- <-] _. exists [], []. rewrite app_nil_r.
    repeat split; auto.
  - cbn [each_frame]. unfold process_one_frame.
    match goal with
    | |- context [try_processors processors 0 frame info ?x st ?v] =>
        destruct (try_processors processors 0 frame info x st v)
          as [[st1 vars1]|e] eqn:Htry
    end; simpl; [|discriminate].
    apply try_processors_calls in Htry.
    destruct Htry as (evs1 & n & Hl1 & Hn & Hpos & Hinv1).
    destruct (e' <- py_or (errors vars1) (Ok (PyTuple []));; py_iter e')
      as [errs|e]; simpl; [|discriminate].
    intros H Hcount. apply IH in H; [|cbn [List.length] in Hcount; lia].
    destruct H as (evs2 & ns & Hl2 & Hlen & Hall & Hinv2).
    exists (evs1 ++ evs2), (n :: ns). simpl in Hl2.
    rewrite Hl2, Hl1, <- app_assoc. split; [reflexivity|].
    split; [simpl; congruence|]. split; [constructor; auto|].
    rewrite invocations_app, Hinv1, Hinv2. simpl. unfold calls_for at 2. simpl.
    replace (frame_count - i - 1) with (Z.of_nat (List.length rest))
      by (cbn [List.length] in Hcount; lia).
    reflexivity.
Qed.

Lemma reverse_indexed_nth frames :
  forall i f,
    nth_error frames i = Some f ->
    nth_error (reverse_indexed frames) i
    = Some (f, Z.of_nat (List.length frames) - 1 - Z.of_nat i).
Proof.
  induction frames as [|frame rest IH]; intros [|i] f;
    cbn [nth_error reverse_indexed List.length]; try discriminate.
  - intros [= <-]. f_equal. f_equal. lia.
  - intros H. rewrite (IH i f H). f_equal. f_equal. lia.
Qed.

(** X3: the order of the calls.  Frames are taken in stored order; for
    each frame the processors are called in registration order from the
    first one on, at least one and at most all of them when there are any,
    every call with that frame and with its reverse index, which for the
    frame at position [i] of [L] frames is [L - 1 - i]. *)
Theorem calls_follow_frames_then_processors fr frames st st' r :
  py_getitem (stacktrace info) "frames" = Ok fr ->
  py_iter fr = Ok frames ->
  process_single_stacktrace info processors st = Ok (st', r) ->
  (forall i f, nth_error frames i = Some f ->
               nth_error (reverse_indexed frames) i
               = Some (f, Z.of_nat (List.length frames) - 1 - Z.of_nat i)) /\
  exists evs ns,
    log st' = log st ++ evs /\
    List.length ns = List.length frames /\
    Forall (fun n => (n <= List.length processors)%nat /\
                     (processors <> [] -> (1 <= n)%nat)) ns /\
    invocations evs
    = flat_map (fun fn => calls_for (fst fn) (snd fn))
               (combine (reverse_indexed frames) ns).
Proof.
  intros Hfr Hit. unfold process_single_stacktrace. rewrite Hfr. simpl.
  rewrite (py_len_iter fr frames Hit), Hit. simpl.
  destruct (each_frame processors info (Z.of_nat (List.length frames)) 0
                       frames st initial_locals)
    as [[st1 vars]|e] eqn:Hrun; simpl; [|discriminate].
  destruct (if changed_processed vars then _ else _); simpl; [|discriminate].
  destruct (if changed_raw vars then _ else _); simpl; [|discriminate].
  intros [= <- <-]. split; [apply reverse_indexed_nth|].
  apply (each_frame_calls frames _ 0 st initial_locals st1 vars Hrun).
  lia.
Qed.

Lemma each_frame_without_processors frames :
  forall frame_count i st vars,
    exists vars',
      each_frame (@nil (StacktraceProcessor W)) info frame_count i frames
                 st vars = Ok (st, vars') /\
      changed_raw vars' = changed_raw vars /\
      changed_processed vars' = changed_processed vars /\
      all_errors vars' = all_errors vars.
Proof.
  induction frames as [|frame rest IH]; intros frame_count i st vars.
  - exists vars. simpl. auto.
  - cbn [each_frame]. unfold process_one_frame. simpl.
    match goal with
    | |- context [each_frame [] info frame_count (i + 1) rest st ?v] =>
        destruct (IH frame_count (i + 1) st v) as (vars' & -> & H1 & H2 & H3)
    end.
    exists vars'. simpl in *. rewrite app_nil_r in H3. auto.
Qed.

(** X4: nothing to do.  Without a processor, or without a frame, the
    chain returns [(None, None, [])], calls nothing and leaves the state as
    it was, whatever the frames or the processors are. *)
Theorem nothing_to_process fr frames st :
  py_getitem (stacktrace info) "frames" = Ok fr ->
  py_iter fr = Ok frames ->
  processors = [] \/ frames = [] ->
  process_single_stacktrace info processors st
  = Ok (st, (PyNone, PyNone, PyList [])).
Proof.
  intros Hfr Hit Hnone. unfold process_single_stacktrace. rewrite Hfr. simpl.
  rewrite (py_len_iter fr frames Hit), Hit. simpl.
  destruct Hnone as [-> | ->].
  - destruct (each_frame_without_processors frames
                (Z.of_nat (List.length frames)) 0 st initial_locals)
      as (vars' & -> & H1 & H2 & H3).
    simpl in *. rewrite H1, H2, H3. reflexivity.
  - reflexivity.
Qed.

End ChainMore.

(** X1, at a sample. *)
Lemma result_keeps_stacktrace_fields_witness :
  (PyNone = PyNone \/
   (exists l, py_getitem PyNone "frames" = Ok (PyList l)) /\
   forall k, k <> "frames" -> py_get PyNone k = py_get sample_stacktrace k) /\
  (PyDict [("frames", PyList [frame_a; frame_b; frame_c; frame_a])] = PyNone \/
   (exists l,
       py_getitem (PyDict [("frames",
                            PyList [frame_a; frame_b; frame_c; frame_a])])
                  "frames" = Ok (PyList l)) /\
   forall k, k <> "frames" ->
             py_get (PyDict [("frames",
                              PyList [frame_a; frame_b; frame_c; frame_a])]) k
             = py_get sample_stacktrace k) /\
  exists l, PyList [] = PyList l.
Proof.
  apply (result_keeps_stacktrace_fields
           [idle_processor; raw_only_processor] sample_info start
           (mkState 6%nat
                    [EProcessFrame 0 frame_a 2; EProcessFrame 1 frame_a 2;
                     EProcessFrame 0 frame_b 1; EProcessFrame 1 frame_b 1;
                     EProcessFrame 0 frame_c 0; EProcessFrame 1 frame_c 0])).
  reflexivity.
Defined.

(** X2, at a sample. *)
Lemma errors_concatenated_in_frame_order_witness :
  map fst sample_contributions = [frame_a; frame_b; frame_c] /\
  exists st' new_stacktrace raw_stacktrace,
    process_single_stacktrace sample_info
                              [idle_processor; raw_only_processor] start
    = Ok (st', (new_stacktrace, raw_stacktrace,
                PyList (List.concat
                          (map (fun fc => frame_errors (snd fc))
                               sample_contributions)))).
Proof.
  apply (errors_concatenated_in_frame_order
           [idle_processor; raw_only_processor] sample_info
           [("frames", PyList [frame_a; frame_b; frame_c])]
           (PyList [frame_a; frame_b; frame_c])
           [frame_a; frame_b; frame_c] start sample_contributions);
    reflexivity.
Defined.

(** X3, at a sample. *)
Lemma calls_follow_frames_then_processors_witness :
  (forall i f, nth_error [frame_a; frame_b; frame_c] i = Some f ->
               nth_error (reverse_indexed [frame_a; frame_b; frame_c]) i
               = Some (f, Z.of_nat (List.length [frame_a; frame_b; frame_c])
                          - 1 - Z.of_nat i)) /\
  exists evs ns,
    [EProcessFrame 0 frame_a 2; EProcessFrame 1 frame_a 2;
     EProcessFrame 0 frame_b 1; EProcessFrame 1 frame_b 1;
     EProcessFrame 0 frame_c 0; EProcessFrame 1 frame_c 0]
    = log start ++ evs /\
    List.length ns = List.length [frame_a; frame_b; frame_c] /\
    Forall (fun n => (n <= List.length [idle_processor; raw_only_processor])%nat
                     /\ ([idle_processor; raw_only_processor] <> [] ->
                         (1 <= n)%nat)) ns /\
    invocations evs
    = flat_map (fun fn => calls_for (fst fn) (snd fn))
               (combine (reverse_indexed [frame_a; frame_b; frame_c]) ns).
Proof.
  apply (calls_follow_frames_then_processors
           [idle_processor; raw_only_processor] sample_info
           (PyList [frame_a; frame_b; frame_c]) [frame_a; frame_b; frame_c]
           start
           (mkState 6%nat
                    [EProcessFrame 0 frame_a 2; EProcessFrame 1 frame_a 2;
                     EProcessFrame 0 frame_b 1; EProcessFrame 1 frame_b 1;
                     EProcessFrame 0 frame_c 0; EProcessFrame 1 frame_c 0])
           (PyNone,
            PyDict [("frames", PyList [frame_a; frame_b; frame_c; frame_a])],
            PyList []));
    reflexivity.
Defined.

(** X4, at a sample: no processor for the three frames of the sample. *)
Lemma nothing_to_process_witness :
  process_single_stacktrace sample_info (@nil (StacktraceProcessor nat)) start
  = Ok (start, (PyNone, PyNone, PyList [])).
Proof.
  apply (nothing_to_process [] sample_info
           (PyList [frame_a; frame_b; frame_c]) [frame_a; frame_b; frame_c]
           start);
    [reflexivity | reflexivity | left; reflexivity].
Defined.

(** ** The telemetry key *)

Section MetricsKey.

Lemma key_eqb_str x s : key_eqb x (PyStr s) = true -> x = PyStr s.
Proof.
  destruct x as [| b | z | t | l | l | d]; simpl; try discriminate.
  intros H. apply String.eqb_eq in H. congruence.
Qed.

Lemma set_update_grows t :
  forall acc,
    (exists ext, set_update acc t = acc ++ ext /\
                 forall q, In q ext -> In q t) /\
    (forall x, In x t ->
               set_mem x (set_update acc t) = true \/ In x (set_update acc t)).
Proof.
  unfold set_update. induction t as [|y t IH]; intros acc; simpl.
  - split; [exists []; rewrite app_nil_r; split; [reflexivity | intros q []]|].
    intros x [].
  - destruct (IH (if set_mem y acc then acc else acc ++ [y]))
      as ((ext & Hext & Hin) & Hall).
    split.
    + destruct (set_mem y acc).
      * exists ext. split; [exact Hext|]. intros q Hq. right. apply Hin, Hq.
      * exists (y :: ext). rewrite Hext, <- app_assoc. split; [reflexivity|].
        intros q [<-|Hq]; [left; reflexivity | right; apply Hin, Hq].
    + intros x [<-|Hx]; [|apply Hall, Hx].
      rewrite Hext. destruct (set_mem y acc) eqn:Hm.
      * left. unfold set_mem in *. rewrite existsb_app, Hm. reflexivity.
      * right. apply in_or_app. left. apply in_or_app. right. left.
        reflexivity.
Qed.

Lemma all_platforms_from infos :
  forall acc,
    (exists ext,
        fold_left (fun a info => set_update a (platforms info)) infos acc
        = acc ++ ext /\
        forall q, In q ext ->
                  exists info, In info infos /\ In q (platforms info)) /\
    (forall info x, In info infos -> In x (platforms info) ->
       set_mem x (fold_left (fun a info => set_update a (platforms info))
                            infos acc) = true \/
       In x (fold_left (fun a info => set_update a (platforms info))
                       infos acc)).
Proof.
  induction infos as [|i infos IH]; intros acc; simpl.
  - split; [exists []; rewrite app_nil_r; split; [reflexivity | intros q []]|].
    intros info x [].
  - destruct (set_update_grows (platforms i) acc) as ((e1 & He1 & Hin1) & Hall1).
    destruct (IH (set_update acc (platforms i))) as ((e2 & He2 & Hin2) & Hall2).
    split.
    + exists (e1 ++ e2). rewrite He2, He1, <- app_assoc.
      split; [reflexivity|]. intros q Hq. apply in_app_or in Hq.
      destruct Hq as [Hq|Hq].
      * exists i. split; [left; reflexivity | apply Hin1, Hq].
      * destruct (Hin2 q Hq) as (info & Hi & Hp).
        exists info. split; [right; exact Hi | exact Hp].
    + intros info x [<-|Hi] Hx; [|apply (Hall2 info x Hi Hx)].
      rewrite He2. destruct (Hall1 x Hx) as [Hm|Hm].
      * left. unfold set_mem in *. rewrite existsb_app, Hm. reflexivity.
      * right. apply in_or_app. left. exact Hm.
Qed.

Lemma all_platforms_single infos s :
  (forall info x, In info infos -> In x (platforms info) -> x = PyStr s) ->
  forall acc,
    acc = [] \/ acc = [PyStr s] ->
    fold_left (fun a info => set_update a (platforms info)) infos acc = []
    \/ fold_left (fun a info => set_update a (platforms info)) infos acc
       = [PyStr s].
Proof.
  induction infos as [|i infos IH]; intros Hall acc Hacc; simpl; [exact Hacc|].
  apply IH; [intros info x Hi; apply Hall; right; exact Hi|].
  assert (Hi : forall x, In x (platforms i) -> x = PyStr s)
    by (intros x; apply Hall; left; reflexivity).
  clear IH Hall. revert acc Hacc.
  unfold set_update. induction (platforms i) as [|y t IHt]; intros acc Hacc;
    simpl; [exact Hacc|].
  apply IHt; [intros x Hx; apply Hi; right; exact Hx|].
  rewrite (Hi y (or_introl eq_refl)).
  destruct Hacc as [-> | ->]; simpl; [right; reflexivity|].
  rewrite String.eqb_refl. simpl. right. reflexivity.
Qed.

(** The union of the platforms is the one platform [PyStr s] exactly when
    every record speaks of [s] alone and one of them does. *)
Lemma all_platforms_single_iff infos s :
  all_platforms infos = [PyStr s] <-> single_platform infos (PyStr s).
Proof.
  unfold all_platforms.
  destruct (all_platforms_from infos []) as ((ext & Hext & Hback) & Hall).
  simpl in Hext. split.
  - intros HU. split.
    + rewrite HU in Hext. subst ext.
      destruct (Hback (PyStr s) (or_introl eq_refl)) as (info & Hi & Hp).
      exists info. split; [exact Hi|]. intros Hnil. rewrite Hnil in Hp.
      contradiction.
    + intros info x Hi Hx. destruct (Hall info x Hi Hx) as [Hm|Hm];
        rewrite HU in Hm.
      * simpl in Hm. rewrite orb_false_r in Hm. apply key_eqb_str, Hm.
      * destruct Hm as [<-|[]]. reflexivity.
  - intros [(info & Hi & Hne) Hsame].
    destruct (all_platforms_single infos s Hsame [] (or_introl eq_refl))
      as [HU|HU]; [|exact HU].
    destruct (platforms info) as [|x t] eqn:Hp; [contradiction|].
    destruct (Hall info x Hi) as [Hm|Hm];
      [rewrite Hp; left; reflexivity | | ]; rewrite HU in Hm;
      [discriminate | contradiction].
Qed.

(** The three cases of [get_metrics_key]. *)
Lemma get_metrics_key_cases infos :
  (get_metrics_key infos = "sourcemaps.process"
   <-> single_platform infos (PyStr "javascript")) /\
  (get_metrics_key infos = "dsym.process"
   <-> single_platform infos (PyStr "cocoa")) /\
  (~ single_platform infos (PyStr "javascript") ->
   ~ single_platform infos (PyStr "cocoa") ->
   get_metrics_key infos = "mixed.process").
Proof.
  rewrite <- !all_platforms_single_iff.
  unfold get_metrics_key. fold (all_platforms infos).
  destruct (all_platforms infos) as [|p [|q rest]].
  - repeat split; try discriminate; auto.
  - destruct (key_eqb p (PyStr "javascript")) eqn:Hjs.
    + apply key_eqb_str in Hjs. subst p.
      repeat split; try discriminate; auto. intros H. contradiction.
    + destruct (key_eqb p (PyStr "cocoa")) eqn:Hco.
      * apply key_eqb_str in Hco. subst p.
        repeat split; try discriminate; auto. intros _ H. contradiction.
      * repeat split; try discriminate; auto;
          intros [= ->]; simpl in *; discriminate.
  - repeat split; try discriminate; auto.
Qed.

(** X5: the telemetry key.  The key is ['sourcemaps.process'] exactly when
    every record speaks of the platform ['javascript'] alone and one of
    them has a platform at all, ['dsym.process'] exactly when the same
    holds for ['cocoa'], and ['mixed.process'] in every other case: no
    platform, several platforms, or another platform. *)
Theorem metrics_key_by_platform infos :
  (get_metrics_key infos = "sourcemaps.process"
   <-> single_platform infos (PyStr "javascript")) /\
  (get_metrics_key infos = "dsym.process"
   <-> single_platform infos (PyStr "cocoa")) /\
  (~ single_platform infos (PyStr "javascript") ->
   ~ single_platform infos (PyStr "cocoa") ->
   get_metrics_key infos = "mixed.process").
Proof.
  destruct (get_metrics_key_cases infos) as (Hjs & Hco & Hmixed).
  split; [exact Hjs|]. split; [exact Hco | exact Hmixed].
Qed.

Lemma single_platform_of_located data infos s :
  find_stacktraces_in_data data = Ok infos ->
  single_platform infos (PyStr s) <-> frames_all_on data infos s.
Proof.
  intros Hloc.
  destruct (find_stacktraces_in_data_spec data infos Hloc) as (_ & Hdesc & _).
  split.
  - intros [(info & Hi & Hne) Hsame]. split.
    + destruct (Hdesc info Hi) as (_ & _ & _ & frames & Hfr & _ & _ & Hnil).
      exists info, frames. split; [exact Hi|]. split; [exact Hfr|].
      intros ->. apply Hne, Hnil. reflexivity.
    + intros info' frames f Hi' Hfr Hf.
      destruct (Hdesc info' Hi') as (_ & _ & _ & frames' & Hfr' & Hall & _).
      rewrite Hfr in Hfr'. injection Hfr' as <-.
      destruct (Hall f Hf) as (p & Hp & Hm).
      unfold set_mem in Hm. apply existsb_exists in Hm.
      destruct Hm as (y & Hy & Hpy).
      rewrite (Hsame info' y Hi' Hy) in Hpy. apply key_eqb_str in Hpy.
      subst p. exact Hp.
  - intros [(info & frames & Hi & Hfr & Hne) Hsame]. split.
    + exists info. split; [exact Hi|].
      destruct (Hdesc info Hi) as (_ & _ & _ & frames' & Hfr' & Hall & _).
      rewrite Hfr in Hfr'. injection Hfr' as <-.
      destruct frames as [|f rest]; [contradiction|].
      destruct (Hall f (or_introl eq_refl)) as (p & _ & Hm).
      intros Hnil. rewrite Hnil in Hm. discriminate.
    + intros info' x Hi' Hx.
      destruct (Hdesc info' Hi') as (_ & _ & _ & frames' & Hfr' & _ & Hback & _).
      destruct (Hback x Hx) as (f & Hf & Heff).
      pose proof (Hsame info' frames' f Hi' Hfr' Hf) as Hs.
      unfold get_effective_platform in Hs. unfold effective_platform in Heff.
      congruence.
Qed.

(** X6: the telemetry key of an event.  For the records the locator finds
    in a payload, the key is ['sourcemaps.process'] exactly when there is a
    frame and every frame of every located stack trace has the effective
    platform ['javascript'] (its own, or else that of the event), and
    ['dsym.process'] exactly when the same holds for ['cocoa']. *)
Theorem metrics_key_of_located data infos :
  find_stacktraces_in_data data = Ok infos ->
  (get_metrics_key infos = "sourcemaps.process"
   <-> frames_all_on data infos "javascript") /\
  (get_metrics_key infos = "dsym.process"
   <-> frames_all_on data infos "cocoa").
Proof.
  intros Hloc.
  destruct (get_metrics_key_cases infos) as (Hjs & Hco & _).
  rewrite Hjs, Hco, !(single_platform_of_located data infos _ Hloc).
  split; reflexivity.
Qed.

End MetricsKey.

(** X6, at a sample: one frame of [sample_event] is a javascript frame,
    the others fall back on the platform of the event. *)
Lemma metrics_key_of_located_witness :
  (get_metrics_key [sample_info] = "sourcemaps.process"
   <-> frames_all_on sample_event [sample_info] "javascript") /\
  (get_metrics_key [sample_info] = "dsym.process"
   <-> frames_all_on sample_event [sample_info] "cocoa").
Proof.
  apply (metrics_key_of_located sample_event [sample_info]). reflexivity.
Defined.

(** ** More on the run *)

Section RunMore.

Context {W : Type}.

Lemma run_preprocess_events (ps : list (StacktraceProcessor W)) :
  forall j st changed st' changed',
    run_preprocess ps j st changed = Ok (st', changed') ->
    exists bs,
      List.length bs = List.length ps /\
      log st' = log st ++ preprocess_events j bs /\
      changed' = changed || existsb (fun b => b) bs.
Proof.
  induction ps as [|p ps IH]; intros j st changed st' changed'; simpl.
  - intros [= <- <-]. exists []. unfold preprocess_events. simpl.
    rewrite app_nil_r, orb_false_r. auto.
  - destruct (preprocess_related_data p (world st)) as [w [v|e]];
      [|discriminate].
    intros H. apply IH in H. destruct H as (bs & Hlen & Hl & Hc).
    exists (truthy v :: bs). simpl in Hl. unfold preprocess_events in *.
    simpl. rewrite Hl, <- app_assoc, Hc, Hlen. simpl.
    split; [reflexivity|]. split; [reflexivity|].
    destruct (truthy v), changed; reflexivity.
Qed.

Lemma run_close_events (ps : list (StacktraceProcessor W)) :
  forall j st st',
    run_close ps j st = Ok st' ->
    log st' = log st ++ close_events j (List.length ps).
Proof.
  induction ps as [|p ps IH]; intros j st st'; simpl.
  - intros [= <-]. unfold close_events. simpl. rewrite app_nil_r. reflexivity.
  - destruct (close p (world st)) as [w [v|e]]; [|discriminate].
    intros H. apply IH in H. rewrite H. simpl. rewrite <- app_assoc.
    reflexivity.
Qed.

Lemma try_processors_trace_events frame info idx
    (ps : list (StacktraceProcessor W)) :
  forall j st vars st' vars',
    try_processors ps j frame info idx st vars = Ok (st', vars') ->
    exists evs, log st' = log st ++ evs /\ forallb trace_event evs = true.
Proof.
  induction ps as [|p ps IH]; intros j st vars st' vars'; simpl.
  - intros [= <- <-]. exists []. rewrite app_nil_r. auto.
  - destruct (process_frame p (world st) frame info idx) as [w [rv|e]].
    + destruct (is_none rv).
      * intros H. apply IH in H. destruct H as (evs & Hl & Hc).
        exists (EProcessFrame j frame idx :: evs). simpl in Hl.
        rewrite Hl, <- app_assoc. auto.
      * destruct (use_result rv vars); simpl; [|discriminate].
        intros [= <- <-]. exists [EProcessFrame j frame idx]. auto.
    + destruct (is_exception e); [|discriminate].
      intros H. apply IH in H. destruct H as (evs & Hl & Hc).
      exists (EProcessFrame j frame idx :: ELogException e :: evs).
      simpl in Hl. rewrite Hl, <- !app_assoc. auto.
Qed.

Lemma each_frame_trace_events info frame_count
    (ps : list (StacktraceProcessor W)) frames :
  forall i st vars st' vars',
    each_frame ps info frame_count i frames st vars = Ok (st', vars') ->
    exists evs, log st' = log st ++ evs /\ forallb trace_event evs = true.
Proof.
  induction frames as [|frame rest IH]; intros i st vars st' vars'.
  - simpl. intros [= <- <-]. exists []. rewrite app_nil_r. auto.
  - cbn [each_frame]. unfold process_one_frame.
    match goal with
    | |- context [try_processors ps 0 frame info ?x st ?v] =>
        destruct (try_processors ps 0 frame info x st v)
          as [[st1 vars1]|e] eqn:Htry
    end; simpl; [|discriminate].
    apply try_processors_trace_events in Htry.
    destruct Htry as (evs1 & Hl1 & Hc1).
    destruct (e' <- py_or (errors vars1) (Ok (PyTuple []));; py_iter e')
      as [errs|e]; simpl; [|discriminate].
    intros H. apply IH in H. destruct H as (evs2 & Hl2 & Hc2).
    exists (evs1 ++ evs2). simpl in Hl2.
    rewrite Hl2, Hl1, <- app_assoc, forallb_app, Hc1, Hc2. auto.
Qed.

Lemma process_single_stacktrace_trace_events info
    (ps : list (StacktraceProcessor W)) st st' r :
  process_single_stacktrace info ps st = Ok (st', r) ->
  exists evs, log st' = log st ++ evs /\ forallb trace_event evs = true.
Proof.
  unfold process_single_stacktrace.
  destruct (py_getitem (stacktrace info) "frames") as [fr|e]; simpl;
    [|discriminate].
  destruct (py_len fr) as [n|e]; simpl; [|discriminate].
  destruct (py_iter fr) as [frames|e]; simpl; [|discriminate].
  destruct (each_frame ps info n 0 frames st initial_locals)
    as [[st1 vars]|e] eqn:Hrun; simpl; [|discriminate].
  destruct (if changed_processed vars then _ else _); simpl; [|discriminate].
  destruct (if changed_raw vars then _ else _); simpl; [|discriminate].
  intros [= <- <-]. eapply each_frame_trace_events, Hrun.
Qed.

Lemma merge_one_trace_events info (ps : list (StacktraceProcessor W)) st data
    changed st' data' changed' :
  merge_one ps info st data changed = Ok (st', (data', changed')) ->
  exists evs,
    log st' = log st ++ evs /\ forallb trace_event evs = true /\
    changed' = changed || existsb dirty_event evs.
Proof.
  intros H. destruct (merge_one_log info ps st data changed st' data' changed' H)
    as (evs0 & Hl0 & _ & Hc0 & _).
  revert H. unfold merge_one.
  destruct (process_single_stacktrace info ps st)
    as [[st1 [[new raw] errs]]|e] eqn:Hrun; simpl; [|discriminate].
  apply process_single_stacktrace_trace_events in Hrun.
  destruct Hrun as (evs & Hl & Hd).
  destruct st1 as [w1 l1]. simpl in Hl. subst l1.
  destruct (is_none new);
    destruct (negb (is_none raw) && negb (is_none (container info)));
    destruct (truthy errs); simpl;
    try (destruct (py_iter errs) as [l|e]; simpl; [|discriminate];
         destruct (extend_errors _ l) as [d1|e] eqn:Hext; simpl; [|discriminate]);
    intros [= <- <- <-]; simpl in *;
    rewrite <- ?app_assoc in *;
    apply app_inv_head in Hl0; subst evs0;
    eexists; (split; [reflexivity|]);
    rewrite ?forallb_app, Hd; simpl; auto.
Qed.

Lemma merge_all_trace_events (ps : list (StacktraceProcessor W)) infos :
  forall st data changed st' data' changed',
    merge_all ps infos st data changed = Ok (st', (data', changed')) ->
    exists evs,
      log st' = log st ++ evs /\ forallb trace_event evs = true /\
      changed' = changed || existsb dirty_event evs.
Proof.
  induction infos as [|info rest IH]; intros st data changed st' data' changed'.
  - simpl. intros [= <- <- <-]. exists []. rewrite app_nil_r, orb_false_r.
    auto.
  - cbn [merge_all].
    destruct (merge_one ps info st data changed) as [[st1 [d1 c1]]|e] eqn:Hone;
      simpl; [|discriminate].
    apply merge_one_trace_events in Hone. destruct Hone as (evs1 & Hl1 & Ht1 & Hc1).
    intros H. apply IH in H. destruct H as (evs2 & Hl2 & Ht2 & Hc2).
    exists (evs1 ++ evs2).
    rewrite Hl2, Hl1, <- app_assoc, forallb_app, Ht1, Ht2, existsb_app.
    rewrite Hc2, Hc1, orb_assoc. auto.
Qed.

(** X7: the order of a run.  In a run with [n] processors that returns,
    the preprocess hooks of all processors are called first, in
    registration order; then come the calls and writes for the stack
    traces; then the close hooks of all processors, in registration order,
    whether anything changed or not; the timer reports last, with the key
    of the records and the project of the payload.  The run returns the
    payload exactly when a preprocess hook returned a true value or a write
    took place. *)
Theorem hooks_run_in_order
    (make_processors :
       pyval -> list StacktraceInfo -> list (StacktraceProcessor W))
    data infos st st' v :
  find_stacktraces_in_data data = Ok infos ->
  make_processors data infos <> [] ->
  process_stacktraces make_processors data st = Ok (st', v) ->
  exists bs mid instance,
    List.length bs = List.length (make_processors data infos) /\
    forallb trace_event mid = true /\
    py_getitem data "project" = Ok instance /\
    log st'
    = log st ++ preprocess_events 0 bs ++ mid
        ++ close_events 0 (List.length (make_processors data infos))
        ++ [ETimer (get_metrics_key infos) instance] /\
    (is_none v = false <->
     existsb (fun b => b) bs || existsb dirty_event mid = true).
Proof.
  intros Hloc Hne. unfold process_stacktraces. rewrite Hloc. simpl.
  destruct (make_processors data infos) as [|p ps] eqn:Hmk; [contradiction|].
  destruct (run_processors (p :: ps) infos data st)
    as [[st3 [data' changed]]|e] eqn:Hrun; simpl; [|discriminate].
  intros Hv.
  destruct (run_processors_log (p :: ps) infos data st st3 data' changed Hrun)
    as (_ & _ & _ & _ & _ & _ & Hdict).
  revert Hrun. unfold run_processors.
  destruct (py_getitem data "project") as [instance|e]; cbn [bind];
    [|discriminate].
  destruct (run_preprocess (p :: ps) 0 st false) as [[st1 c1]|e] eqn:Hpre;
    [|discriminate].
  apply run_preprocess_events in Hpre. destruct Hpre as (bs & Hlen & Hl1 & Hc1).
  cbn [bind].
  destruct (merge_all (p :: ps) infos st1 data c1) as [[st2 [d2 c2]]|e]
    eqn:Hmerge; [|discriminate].
  apply merge_all_trace_events in Hmerge.
  destruct Hmerge as (mid & Hl2 & Ht2 & Hc2).
  cbn [bind].
  destruct (run_close (p :: ps) 0 st2) as [st2'|e] eqn:Hclose; [|discriminate].
  apply run_close_events in Hclose.
  cbn [bind]. intros [= <- <- <-].
  assert (Hst : st' = metrics_timer (get_metrics_key infos) instance st2' /\
                v = if c2 then d2 else PyNone).
  { destruct c2; injection Hv as <- <-; split; reflexivity. }
  destruct Hst as [-> ->]. clear Hv.
  exists bs, mid, instance.
  split; [exact Hlen|]. split; [exact Ht2|]. split; [reflexivity|].
  split.
  - unfold metrics_timer, emit. cbn [log].
    rewrite Hclose, Hl2, Hl1, <- !app_assoc. reflexivity.
  - rewrite Hc2, Hc1. cbn [orb].
    destruct (existsb (fun b => b) bs || existsb dirty_event mid).
    + split; [reflexivity|]. intros _. destruct d2; try discriminate.
      reflexivity.
    + split; discriminate.
Qed.

Lemma process_single_stacktrace_no_opinion info
    (ps : list (StacktraceProcessor W)) st :
  has_frame_list info ->
  Forall inert ps ->
  exists st',
    process_single_stacktrace info ps st = Ok (st', (PyNone, PyNone, PyList [])).
Proof.
  intros (d & fr & frames & Hst & Hfr & Hit) Hinert.
  assert (Hall : forall p, In p ps -> forall w frame info idx,
                   no_opinion (snd (process_frame p w frame info idx)) = true).
  { intros p Hp. rewrite Forall_forall in Hinert. apply (Hinert p Hp). }
  destruct (process_single_stacktrace_refines ps info d fr frames st _
              Hst Hfr Hit (trace_matches_no_opinion ps info Hall frames _))
    as (evs & Hrun).
  rewrite Hrun.
  destruct (no_contribution_expands frames) as (-> & -> & ->).
  eexists. reflexivity.
Qed.

Lemma merge_all_inert (ps : list (StacktraceProcessor W)) infos :
  Forall has_frame_list infos ->
  Forall inert ps ->
  forall st data changed,
    exists st', merge_all ps infos st data changed = Ok (st', (data, changed)).
Proof.
  intros Hframes Hinert.
  induction Hframes as [|info rest Hinfo _ IH]; intros st data changed.
  - exists st. reflexivity.
  - cbn [merge_all]. unfold merge_one.
    destruct (process_single_stacktrace_no_opinion info ps st Hinfo Hinert)
      as (st1 & ->).
    simpl. apply IH.
Qed.

Lemma run_preprocess_inert (ps : list (StacktraceProcessor W)) :
  Forall inert ps ->
  forall j st changed,
    exists st', run_preprocess ps j st changed = Ok (st', changed).
Proof.
  induction 1 as [|p ps (_ & Hpre & _) _ IH]; intros j st changed; simpl.
  - exists st. reflexivity.
  - destruct (Hpre (world st)) as (v & Hv & Hfalsy).
    destruct (preprocess_related_data p (world st)) as [w o]. simpl in Hv.
    subst o. rewrite Hfalsy. apply IH.
Qed.

Lemma run_close_inert (ps : list (StacktraceProcessor W)) :
  Forall inert ps ->
  forall j st, exists st', run_close ps j st = Ok st'.
Proof.
  induction 1 as [|p ps (_ & _ & Hclose) _ IH]; intros j st; simpl.
  - exists st. reflexivity.
  - destruct (Hclose (world st)) as (v & Hv).
    destruct (close p (world st)) as [w o]. simpl in Hv. subst o. apply IH.
Qed.

Lemma dirty_preprocess_events j bs :
  existsb dirty_event (preprocess_events j bs) = existsb (fun b => b) bs.
Proof.
  unfold preprocess_events. revert j.
  induction bs as [|b bs IH]; intros j; simpl; [reflexivity|].
  rewrite (IH (S j)). reflexivity.
Qed.

Lemma dirty_close_events j n : existsb dirty_event (close_events j n) = false.
Proof.
  unfold close_events. revert j. induction n as [|n IH]; intros j; simpl; auto.
Qed.

(** X8: a run that has nothing to say.  When the payload has a project,
    every located stack trace has its frame list, and the processors never
    claim a frame, never report a mutation and have hooks that return, the
    run returns [None], and the orchestrator makes none of its writes:
    no frame list is replaced, no raw stack trace attached, no error
    appended. *)
Theorem inert_run_is_noop
    (make_processors :
       pyval -> list StacktraceInfo -> list (StacktraceProcessor W))
    data infos instance st :
  find_stacktraces_in_data data = Ok infos ->
  Forall has_frame_list infos ->
  py_getitem data "project" = Ok instance ->
  Forall inert (make_processors data infos) ->
  exists st' evs,
    process_stacktraces make_processors data st = Ok (st', PyNone) /\
    log st' = log st ++ evs /\
    existsb dirty_event evs = false.
Proof.
  intros Hloc Hframes Hproj Hinert.
  unfold process_stacktraces. rewrite Hloc. cbn [bind].
  destruct (make_processors data infos) as [|p ps].
  - exists st, []. rewrite app_nil_r. auto.
  - unfold run_processors. rewrite Hproj. cbn [bind].
    destruct (run_preprocess_inert _ Hinert 0%nat st false) as (st1 & Hpre).
    rewrite Hpre. cbn [bind].
    apply run_preprocess_events in Hpre.
    destruct Hpre as (bs & _ & Hl1 & Hc1).
    destruct (merge_all_inert _ infos Hframes Hinert st1 data false)
      as (st2 & Hmerge).
    rewrite Hmerge. cbn [bind].
    apply merge_all_trace_events in Hmerge.
    destruct Hmerge as (mid & Hl2 & _ & Hc2).
    destruct (run_close_inert _ Hinert 0%nat st2) as (st3 & Hclose).
    rewrite Hclose. cbn [bind].
    apply run_close_events in Hclose.
    eexists. eexists. split; [reflexivity|]. split.
    + unfold metrics_timer, emit. cbn [log].
      rewrite Hclose, Hl2, Hl1, <- !app_assoc. reflexivity.
    + rewrite !existsb_app, dirty_preprocess_events, dirty_close_events.
      simpl in Hc1, Hc2. rewrite <- Hc1, <- Hc2. reflexivity.
Qed.

End RunMore.

(** X7, at a sample: one dirty processor and an event without stack
    trace. *)
Lemma hooks_run_in_order_witness :
  exists bs mid instance,
    List.length bs = List.length [dirty_processor] /\
    forallb trace_event mid = true /\
    py_getitem bare_event "project" = Ok instance /\
    [EPreprocess 0 true; EClose 0; ETimer "mixed.process" (PyInt 1)]
    = log start ++ preprocess_events 0 bs ++ mid
        ++ close_events 0 (List.length [dirty_processor])
        ++ [ETimer (get_metrics_key []) instance] /\
    (is_none bare_event = false <->
     existsb (fun b => b) bs || existsb dirty_event mid = true).
Proof.
  apply (hooks_run_in_order (fun _ _ => [dirty_processor]) bare_event []
           start
           (mkState 0%nat [EPreprocess 0 true; EClose 0;
                           ETimer "mixed.process" (PyInt 1)])
           bare_event);
    [reflexivity | discriminate | reflexivity].
Defined.

(** X8, at a sample: the base class and an idle processor on the sample
    event. *)
Lemma inert_run_is_noop_witness :
  exists st' evs,
    process_stacktraces (fun _ _ => [base_processor; idle_processor])
                        sample_event start
    = Ok (st', PyNone) /\
    log st' = log start ++ evs /\
    existsb dirty_event evs = false.
Proof.
  apply (inert_run_is_noop (fun _ _ => [base_processor; idle_processor])
           sample_event [sample_info] (PyInt 1) start).
  - reflexivity.
  - constructor; [|constructor].
    exists [("frames", PyList [frame_a; frame_b; frame_c])],
           (PyList [frame_a; frame_b; frame_c]), [frame_a; frame_b; frame_c].
    repeat split.
  - reflexivity.
  - constructor; [|constructor; [|constructor]];
      (split; [intros; reflexivity|]);
      (split; intros w; eexists; [split|]; reflexivity).
Defined.

(** ** The writes of the merger *)

Section Merger.

Lemma loc_eq_dec (a b : loc) : {a = b} + {a <> b}.
Proof. decide equality; apply Nat.eq_dec. Qed.

Lemma py_get_dict_update_other k k' f o :
  k' <> k -> py_get (dict_update k f o) k' = py_get o k'.
Proof.
  intros Hk. destruct o as [| | | | | |d]; simpl; try reflexivity.
  destruct (dict_get d k); [|reflexivity].
  simpl. rewrite dict_get_set_other; [reflexivity|].
  apply String.eqb_neq. exact Hk.
Qed.

Lemma py_getitem_dict_update_other k k' f o :
  k' <> k -> py_getitem (dict_update k f o) k' = py_getitem o k'.
Proof.
  intros Hk. destruct o as [| | | | | |d]; simpl; try reflexivity.
  destruct (dict_get d k); [|reflexivity].
  simpl. rewrite dict_get_set_other; [reflexivity|].
  apply String.eqb_neq. exact Hk.
Qed.

Lemma section_items_other_key k key f data :
  key <> k ->
  section_items (dict_update k f data) key = section_items data key.
Proof.
  intros Hk. unfold section_items.
  rewrite py_get_dict_update_other by exact Hk. reflexivity.
Qed.

Lemma nth_error_update_nth_other {A} (f : A -> A) l :
  forall n m, m <> n -> nth_error (update_nth n f l) m = nth_error l m.
Proof.
  induction l as [|x l IH]; intros [|n] [|m] H; simpl; try reflexivity.
  - contradiction.
  - apply IH. congruence.
Qed.

Lemma dict_get_truthy d k v : dict_get d k = Some v -> truthy (PyDict d) = true.
Proof. destruct d; [discriminate | reflexivity]. Qed.

(** A write to an item of a section leaves the other items of the section
    as they are. *)
Lemma item_at_other data key n m f :
  m <> n ->
  item_at (dict_update key (dict_update "values" (item_update n f)) data) key m
  = item_at data key m.
Proof.
  intros Hm. unfold item_at, section_items.
  destruct data as [| | | | | |d]; try reflexivity.
  simpl. destruct (dict_get d key) as [section|] eqn:Hsec; simpl;
    [|rewrite Hsec; reflexivity].
  rewrite dict_get_set_same.
  destruct section as [| | | | | |sd]; simpl; try reflexivity.
  destruct (dict_get sd "values") as [values|] eqn:Hval; simpl;
    [|rewrite Hval; reflexivity].
  pose proof (dict_set_truthy sd "values" (item_update n f values)) as H1.
  pose proof (dict_get_truthy sd "values" values Hval) as H2.
  simpl in H1, H2. rewrite H1, H2, dict_get_set_same. simpl.
  destruct values as [| | |s|l|l|vd]; simpl; try reflexivity;
    apply nth_error_update_nth_other, Hm.
Qed.

(** What is written at one place is not seen at another. *)
Lemma located_container_other r r' f data :
  r' <> r ->
  located_container (at_container r f data) r' = located_container data r'.
Proof.
  intros Hr. destruct r as [n| |n]; [| reflexivity |];
    destruct r' as [m| |m]; simpl; try reflexivity.
  - apply (item_at_other data "sentry.interfaces.Exception" n m f). congruence.
  - rewrite section_items_other_key by discriminate. reflexivity.
  - rewrite section_items_other_key by discriminate. reflexivity.
  - apply (item_at_other data "threads" n m f). congruence.
Qed.

Lemma located_stacktrace_other_container r r' f data :
  r' <> r ->
  located_stacktrace (at_container r f data) r' = located_stacktrace data r'.
Proof.
  intros Hr. destruct r' as [m| |m]; cbn [located_stacktrace].
  - rewrite (located_container_other r (LExc m) f data Hr). reflexivity.
  - destruct r as [n| |n]; cbn [at_container]; try reflexivity;
      rewrite py_get_dict_update_other by discriminate; reflexivity.
  - rewrite (located_container_other r (LThread m) f data Hr). reflexivity.
Qed.

Lemma located_other r r' f data :
  r' <> r ->
  located_stacktrace (at_stacktrace r f data) r' = located_stacktrace data r' /\
  located_container (at_stacktrace r f data) r' = located_container data r'.
Proof.
  intros Hr. destruct r as [n| |n]; unfold at_stacktrace.
  - split; [apply located_stacktrace_other_container
           | apply located_container_other]; exact Hr.
  - destruct r' as [m| |m]; try contradiction;
      cbn [located_stacktrace located_container];
      rewrite section_items_other_key by discriminate; auto.
  - split; [apply located_stacktrace_other_container
           | apply located_container_other]; exact Hr.
Qed.

Lemma located_stacktrace_dict data r s :
  r <> LTop ->
  located_stacktrace data r = Some s ->
  exists c, located_container data r = Some c /\ is_dict c = true /\
            py_get c "stacktrace" = Ok s.
Proof.
  intros Hr. destruct r as [n| |n]; [|contradiction|];
    cbn [located_stacktrace];
    destruct (located_container data _) as [c|]; try discriminate;
    destruct c as [| | | | | |cd]; try discriminate;
    intros H; exists (PyDict cd); repeat split;
    destruct (py_get (PyDict cd) "stacktrace"); simpl in H; congruence.
Qed.

(** A write to the container at a place is read back at that place. *)
Lemma located_container_same r f data c :
  r <> LTop ->
  located_container data r = Some c ->
  is_dict c = true ->
  located_container (at_container r f data) r = Some (f c).
Proof.
  intros Hr. destruct r as [n| |n]; [|contradiction|]; simpl; intros Hc Hd.
  - destruct (section_items data "sentry.interfaces.Exception")
      as [items|] eqn:Hitems; [|discriminate].
    destruct (section_items_update data _ n f items c Hitems Hc Hd)
      as (items' & -> & ->). reflexivity.
  - destruct (section_items data "threads") as [items|] eqn:Hitems;
      [|discriminate].
    destruct (section_items_update data _ n f items c Hitems Hc Hd)
      as (items' & -> & ->). reflexivity.
Qed.

Lemma py_get_py_setitem_other k k' v o :
  k' <> k -> py_get (py_setitem k v o) k' = py_get o k'.
Proof.
  intros Hk. destruct o as [| | | | | |d]; simpl; try reflexivity.
  rewrite dict_get_set_other; [reflexivity|].
  apply String.eqb_neq. exact Hk.
Qed.

Lemma py_get_py_setitem_same k v o :
  is_dict o = true -> py_get (py_setitem k v o) k = Ok v.
Proof.
  destruct o as [| | | | | |d]; simpl; try discriminate.
  intros _. rewrite dict_get_set_same. reflexivity.
Qed.

(** Attaching a raw stack trace to the container of a place keeps the
    stack trace found at the place. *)
Lemma located_stacktrace_attach r k v data s :
  k <> "stacktrace" ->
  located_stacktrace data r = Some s ->
  located_stacktrace (at_container r (py_setitem k v) data) r = Some s.
Proof.
  intros Hk Hs. destruct r as [n| |n]; [|exact Hs|].
  - destruct (located_stacktrace_dict data (LExc n) s) as (c & Hc & Hd & Hg);
      [discriminate | exact Hs |].
    cbn [located_stacktrace].
    rewrite (located_container_same (LExc n) _ data c); auto; [|discriminate].
    rewrite py_get_py_setitem_other by congruence. rewrite Hg. reflexivity.
  - destruct (located_stacktrace_dict data (LThread n) s) as (c & Hc & Hd & Hg);
      [discriminate | exact Hs |].
    cbn [located_stacktrace].
    rewrite (located_container_same (LThread n) _ data c); auto; [|discriminate].
    rewrite py_get_py_setitem_other by congruence. rewrite Hg. reflexivity.
Qed.

(** Appending errors changes the entry ['errors'] of the payload and no
    other. *)
Lemma extend_errors_spec data errs data' :
  extend_errors data errs = Ok data' ->
  (exists old,
      (py_getitem data "errors" = Ok (PyList old) \/
       py_getitem data "errors" = Raise (KeyError "errors") /\ old = []) /\
      py_getitem data' "errors" = Ok (PyList (old ++ errs))) /\
  (forall k, k <> "errors" ->
             py_get data' k = py_get data k /\
             py_getitem data' k = py_getitem data k).
Proof.
  destruct data as [| | | | | |d]; simpl; try discriminate.
  destruct (dict_get d "errors") as [[| | | |l| |]|] eqn:Hold; try discriminate;
    intros [= <-]; simpl; rewrite dict_get_set_same.
  - split; [exists l; auto|].
    intros k Hk. rewrite dict_get_set_other by (apply String.eqb_neq; exact Hk).
    auto.
  - split; [exists []; auto|].
    intros k Hk. rewrite dict_get_set_other by (apply String.eqb_neq; exact Hk).
    auto.
Qed.

Lemma located_after_errors data errs data' r :
  extend_errors data errs = Ok data' ->
  located_stacktrace data' r = located_stacktrace data r /\
  located_container data' r = located_container data r.
Proof.
  intros H. apply extend_errors_spec in H. destruct H as [_ Hother].
  assert (Hsec : forall key, key <> "errors" ->
                             section_items data' key = section_items data key).
  { intros key Hk. unfold section_items.
    destruct (Hother key Hk) as [-> _]. reflexivity. }
  destruct r as [n| |n]; cbn [located_stacktrace located_container].
  - rewrite Hsec by discriminate. auto.
  - destruct (Hother "sentry.interfaces.Stacktrace") as [-> _];
      [discriminate | auto].
  - rewrite Hsec by discriminate. auto.
Qed.

(** The payload after [merge_one], write by write. *)
Lemma merge_one_writes {W} info (ps : list (StacktraceProcessor W)) st data
    changed st' data' changed' st1 new raw errs :
  process_single_stacktrace info ps st = Ok (st1, (new, raw, errs)) ->
  merge_one ps info st data changed = Ok (st', (data', changed')) ->
  exists d1 d2,
    d1 = (if is_none new then data
          else at_stacktrace (ref info) (fun _ => new) data) /\
    d2 = (if negb (is_none raw) && negb (is_none (container info))
          then at_container (ref info) (py_setitem "raw_stacktrace" raw) d1
          else d1) /\
    (if truthy errs
     then exists l, py_iter errs = Ok l /\ extend_errors d2 l = Ok data'
     else data' = d2).
Proof.
  intros Hrun. unfold merge_one. rewrite Hrun. simpl.
  destruct (is_none new);
    destruct (negb (is_none raw) && negb (is_none (container info)));
    destruct (truthy errs); simpl;
    try (destruct (py_iter errs) as [l|e]; simpl; [|discriminate];
         destruct (extend_errors _ l) as [d3|e] eqn:Hext; simpl; [|discriminate]);
    intros [= <- <- <-]; do 2 eexists;
    (split; [reflexivity|]); (split; [reflexivity|]); eauto.
Qed.

Lemma process_single_stacktrace_errors_list {W} info
    (ps : list (StacktraceProcessor W)) st st' new raw errs :
  process_single_stacktrace info ps st = Ok (st', (new, raw, errs)) ->
  exists l, errs = PyList l.
Proof.
  unfold process_single_stacktrace.
  destruct (py_getitem (stacktrace info) "frames") as [fr|e]; simpl;
    [|discriminate].
  destruct (py_len fr) as [n|e]; simpl; [|discriminate].
  destruct (py_iter fr) as [frames|e]; simpl; [|discriminate].
  destruct (each_frame ps info n 0 frames st initial_locals)
    as [[st1 vars]|e]; simpl; [|discriminate].
  destruct (if changed_processed vars then _ else _); simpl; [|discriminate].
  destruct (if changed_raw vars then _ else _); simpl; [|discriminate].
  intros [= <- <- <- <-]. eexists. reflexivity.
Qed.

Lemma merge_one_at_record {W} info (ps : list (StacktraceProcessor W))
    st data changed st' data' changed' st1 new raw errs :
  record_of data info ->
  process_single_stacktrace info ps st = Ok (st1, (new, raw, errs)) ->
  merge_one ps info st data changed = Ok (st', (data', changed')) ->
  located_stacktrace data' (ref info)
  = Some (if is_none new then stacktrace info else new) /\
  (is_none raw = false -> is_none (container info) = false ->
   exists c', located_container data' (ref info) = Some c' /\
              py_get c' "raw_stacktrace" = Ok raw).
Proof.
  intros (Hs & Ht & Hc) Hrun Hmerge.
  destruct (merge_one_writes info ps st data changed st' data' changed'
              st1 new raw errs Hrun Hmerge) as (d1 & d2 & Hd1 & Hd2 & Herr).
  set (s1 := if is_none new then stacktrace info else new).
  assert (H1 : located_stacktrace d1 (ref info) = Some s1).
  { subst d1 s1. destruct (is_none new); [exact Hs|].
    apply (replaced_stacktrace_located data (ref info) (stacktrace info) new Hs Ht). }
  assert (H1c : ref info <> LTop ->
                exists c1, located_container d1 (ref info) = Some c1 /\
                           is_dict c1 = true).
  { intros Hr.
    destruct (located_stacktrace_dict d1 (ref info) s1 Hr H1) as (c1 & ? & ? & _).
    exists c1. auto. }
  assert (H2 : located_stacktrace d2 (ref info) = Some s1 /\
               (is_none raw = false -> is_none (container info) = false ->
                exists c', located_container d2 (ref info) = Some c' /\
                           py_get c' "raw_stacktrace" = Ok raw)).
  { subst d2.
    destruct (negb (is_none raw) && negb (is_none (container info))) eqn:Hcond.
    - split; [apply located_stacktrace_attach; [discriminate | exact H1]|].
      intros _ Hcont.
      assert (Hr : ref info <> LTop).
      { intros Htop. rewrite Htop in Hc. simpl in Hc. injection Hc as Hc.
        rewrite <- Hc in Hcont. discriminate. }
      destruct (H1c Hr) as (c1 & Hc1 & Hdict).
      exists (py_setitem "raw_stacktrace" raw c1). split.
      + apply located_container_same; assumption.
      + apply py_get_py_setitem_same, Hdict.
    - split; [exact H1|]. intros Hraw Hcont. rewrite Hraw, Hcont in Hcond.
      discriminate. }
  destruct H2 as [H2 H2c].
  destruct (truthy errs).
  - destruct Herr as (l & _ & Hext).
    destruct (located_after_errors d2 l data' (ref info) Hext) as [-> ->].
    split; assumption.
  - subst data'. split; assumption.
Qed.

(** X9: the merger writes at the place of the record.  After [merge_one]
    the stack trace found at the place of the record is the processed
    variant if there is one, and the stack trace of the record otherwise;
    if there is a raw variant and a container, the container found at the
    place holds it under ['raw_stacktrace']. *)
Theorem merge_writes_at_the_record {W} info (ps : list (StacktraceProcessor W))
    st data changed st' data' changed' st1 new raw errs :
  record_of data info ->
  process_single_stacktrace info ps st = Ok (st1, (new, raw, errs)) ->
  merge_one ps info st data changed = Ok (st', (data', changed')) ->
  located_stacktrace data' (ref info)
  = Some (if is_none new then stacktrace info else new) /\
  (is_none raw = false -> is_none (container info) = false ->
   exists c', located_container data' (ref info) = Some c' /\
              py_get c' "raw_stacktrace" = Ok raw).
Proof.
  intros. eapply merge_one_at_record; eassumption.
Qed.

Lemma merge_one_other_places {W} info (ps : list (StacktraceProcessor W))
    st data changed st' data' changed' r :
  merge_one ps info st data changed = Ok (st', (data', changed')) ->
  r <> ref info ->
  located_stacktrace data' r = located_stacktrace data r /\
  located_container data' r = located_container data r.
Proof.
  intros Hmerge Hr.
  destruct (process_single_stacktrace info ps st)
    as [[st1 [[new raw] errs]]|e] eqn:Hrun;
    [|unfold merge_one in Hmerge; rewrite Hrun in Hmerge; discriminate].
  destruct (merge_one_writes info ps st data changed st' data' changed'
              st1 new raw errs Hrun Hmerge) as (d1 & d2 & Hd1 & Hd2 & Herr).
  assert (H1 : located_stacktrace d1 r = located_stacktrace data r /\
               located_container d1 r = located_container data r).
  { subst d1. destruct (is_none new); [auto|]. apply located_other, Hr. }
  assert (H2 : located_stacktrace d2 r = located_stacktrace data r /\
               located_container d2 r = located_container data r).
  { subst d2. destruct (negb (is_none raw) && negb (is_none (container info)));
      [|exact H1].
    rewrite located_stacktrace_other_container, located_container_other
      by exact Hr. exact H1. }
  destruct (truthy errs).
  - destruct Herr as (l & _ & Hext).
    destruct (located_after_errors d2 l data' r Hext) as [-> ->]. exact H2.
  - subst data'. exact H2.
Qed.

(** X10: the merger writes nowhere else.  After [merge_one] the stack
    trace and the container found at any other place of the payload are
    the ones found there before. *)
Theorem merge_leaves_other_places {W} info (ps : list (StacktraceProcessor W))
    st data changed st' data' changed' r :
  merge_one ps info st data changed = Ok (st', (data', changed')) ->
  r <> ref info ->
  located_stacktrace data' r = located_stacktrace data r /\
  located_container data' r = located_container data r.
Proof.
  intros. eapply merge_one_other_places; eassumption.
Qed.

Lemma py_get_at_container_other r f data k :
  k <> "sentry.interfaces.Exception" -> k <> "threads" ->
  py_get (at_container r f data) k = py_get data k /\
  py_getitem (at_container r f data) k = py_getitem data k.
Proof.
  intros H1 H2. destruct r; simpl; auto;
    rewrite py_get_dict_update_other, py_getitem_dict_update_other by auto;
    auto.
Qed.

Lemma py_get_at_stacktrace_other r f data k :
  k <> "sentry.interfaces.Exception" -> k <> "threads" ->
  k <> "sentry.interfaces.Stacktrace" ->
  py_get (at_stacktrace r f data) k = py_get data k /\
  py_getitem (at_stacktrace r f data) k = py_getitem data k.
Proof.
  intros H1 H2 H3. destruct r; unfold at_stacktrace;
    try (apply py_get_at_container_other; assumption).
  rewrite py_get_dict_update_other, py_getitem_dict_update_other by auto.
  auto.
Qed.

Lemma merge_one_errors {W} info (ps : list (StacktraceProcessor W))
    st data changed st' data' changed' st1 new raw errs :
  process_single_stacktrace info ps st = Ok (st1, (new, raw, errs)) ->
  merge_one ps info st data changed = Ok (st', (data', changed')) ->
  (exists l, errs = PyList l /\
     match l with
     | [] => py_get data' "errors" = py_get data "errors"
     | _ :: _ =>
         exists old,
           (py_getitem data "errors" = Ok (PyList old) \/
            py_getitem data "errors" = Raise (KeyError "errors") /\ old = []) /\
           py_getitem data' "errors" = Ok (PyList (old ++ l))
     end) /\
  (forall k, ~ In k merged_keys -> py_get data' k = py_get data k).
Proof.
  intros Hrun Hmerge.
  destruct (merge_one_writes info ps st data changed st' data' changed'
              st1 new raw errs Hrun Hmerge) as (d1 & d2 & Hd1 & Hd2 & Herr).
  assert (H2 : forall k, k <> "sentry.interfaces.Exception" ->
                         k <> "threads" ->
                         k <> "sentry.interfaces.Stacktrace" ->
                         py_get d2 k = py_get data k /\
                         py_getitem d2 k = py_getitem data k).
  { intros k Ha Hb Hc. subst d2 d1.
    destruct (negb (is_none raw) && negb (is_none (container info)));
      destruct (is_none new);
      rewrite ?(proj1 (py_get_at_container_other _ _ _ k Ha Hb)),
              ?(proj2 (py_get_at_container_other _ _ _ k Ha Hb)),
              ?(proj1 (py_get_at_stacktrace_other _ _ _ k Ha Hb Hc)),
              ?(proj2 (py_get_at_stacktrace_other _ _ _ k Ha Hb Hc));
      auto. }
  destruct (process_single_stacktrace_errors_list info ps st st1 new raw errs
              Hrun) as (l & ->).
  split.
  - exists l. split; [reflexivity|]. destruct l as [|x l].
    + simpl in Herr. subst data'. apply H2; discriminate.
    + simpl in Herr. destruct Herr as (l' & [= <-] & Hext).
      apply extend_errors_spec in Hext. destruct Hext as ((old & Hold & Hnew) & _).
      exists old. split; [|exact Hnew].
      destruct (H2 "errors") as [_ <-]; try discriminate. exact Hold.
  - intros k Hk. unfold merged_keys in Hk. simpl in Hk.
    assert (Hd2k : py_get d2 k = py_get data k).
    { apply H2; intros ->; apply Hk; auto. }
    destruct (truthy (PyList l)).
    + destruct Herr as (l' & _ & Hext).
      apply extend_errors_spec in Hext. destruct Hext as (_ & Hother).
      destruct (Hother k) as [-> _]; [intros ->; apply Hk; auto|].
      exact Hd2k.
    + subst data'. exact Hd2k.
Qed.

(** X11: the errors are appended.  After [merge_one] the error list of
    the payload is the list it had, or the empty list if it had none,
    followed by the errors of the stack trace, when there are any, and is
    left as it was when there are none; every entry of the payload but the
    error list and the three sections is what it was. *)
Theorem merge_appends_errors {W} info (ps : list (StacktraceProcessor W))
    st data changed st' data' changed' st1 new raw errs :
  process_single_stacktrace info ps st = Ok (st1, (new, raw, errs)) ->
  merge_one ps info st data changed = Ok (st', (data', changed')) ->
  (exists l, errs = PyList l /\
     match l with
     | [] => py_get data' "errors" = py_get data "errors"
     | _ :: _ =>
         exists old,
           (py_getitem data "errors" = Ok (PyList old) \/
            py_getitem data "errors" = Raise (KeyError "errors") /\ old = []) /\
           py_getitem data' "errors" = Ok (PyList (old ++ l))
     end) /\
  (forall k, ~ In k merged_keys -> py_get data' k = py_get data k).
Proof.
  intros. eapply merge_one_errors; eassumption.
Qed.

Lemma same_but_refl keys o : same_but keys o o.
Proof. intros k _. reflexivity. Qed.

Lemma same_but_trans keys o1 o2 o3 :
  same_but keys o1 o2 -> same_but keys o2 o3 -> same_but keys o1 o3.
Proof. intros H12 H23 k Hk. rewrite (H23 k Hk). apply H12, Hk. Qed.

(** The container at the place of the record after [merge_one]: only its
    stack trace and its raw stack trace can differ. *)
Lemma merge_one_container {W} info (ps : list (StacktraceProcessor W))
    st data changed st' data' changed' st1 new raw errs :
  record_of data info ->
  process_single_stacktrace info ps st = Ok (st1, (new, raw, errs)) ->
  merge_one ps info st data changed = Ok (st', (data', changed')) ->
  exists c',
    located_container data' (ref info) = Some c' /\
    same_but ["stacktrace"; "raw_stacktrace"] (container info) c'.
Proof.
  intros (Hs & Ht & Hc) Hrun Hmerge.
  destruct (merge_one_writes info ps st data changed st' data' changed'
              st1 new raw errs Hrun Hmerge) as (d1 & d2 & Hd1 & Hd2 & Herr).
  assert (H2 : exists c',
             located_container d2 (ref info) = Some c' /\
             same_but ["stacktrace"; "raw_stacktrace"] (container info) c').
  { destruct (ref info) as [n| |n] eqn:Hr.
    2:{ exists PyNone. simpl in Hc. injection Hc as <-.
        split; [reflexivity | apply same_but_refl]. }
    all: rewrite <- Hr in *;
      assert (Hne : ref info <> LTop) by (rewrite Hr; discriminate);
      destruct (located_stacktrace_dict data (ref info) _ Hne Hs)
        as (c & Hc' & Hdict & _);
      rewrite Hc in Hc'; injection Hc' as <-;
      assert (H1 : exists c1, located_container d1 (ref info) = Some c1 /\
                              is_dict c1 = true /\
                              same_but ["stacktrace"; "raw_stacktrace"]
                                       (container info) c1);
      [ subst d1; destruct (is_none new);
        [ exists (container info); repeat split; auto; apply same_but_refl
        | exists (dict_update "stacktrace" (fun _ => new) (container info));
          split; [|split];
          [ replace (at_stacktrace (ref info) (fun _ => new) data)
              with (at_container (ref info)
                      (dict_update "stacktrace" (fun _ => new)) data)
              by (rewrite Hr; reflexivity);
            apply located_container_same; assumption
          | rewrite is_dict_dict_update; exact Hdict
          | intros k Hk; apply py_get_dict_update_other;
            intros ->; apply Hk; left; reflexivity ] ]
      | destruct H1 as (c1 & Hc1 & Hd1' & Hsame1); subst d2;
        destruct (negb (is_none raw) && negb (is_none (container info)));
        [ exists (py_setitem "raw_stacktrace" raw c1); split;
          [ apply located_container_same; assumption
          | intros k Hk; rewrite py_get_py_setitem_other;
            [ apply Hsame1, Hk
            | intros ->; apply Hk; right; left; reflexivity ] ]
        | exists c1; split; assumption ] ]. }
  destruct H2 as (c' & Hc2 & Hsame).
  exists c'. split; [|exact Hsame].
  destruct (truthy errs).
  - destruct Herr as (l & _ & Hext).
    destruct (located_after_errors d2 l data' (ref info) Hext) as [_ ->].
    exact Hc2.
  - subst data'. exact Hc2.
Qed.

(** What the loop over the records keeps. *)
Lemma merge_all_keeps {W} (ps : list (StacktraceProcessor W)) infos :
  forall st data changed st' data' changed',
    NoDup (map ref infos) ->
    (forall info, In info infos -> record_of data info) ->
    merge_all ps infos st data changed = Ok (st', (data', changed')) ->
    (forall r s, located_stacktrace data r = Some s ->
       exists s', located_stacktrace data' r = Some s' /\
                  same_but ["frames"] s s') /\
    (forall r c, located_container data r = Some c ->
       exists c', located_container data' r = Some c' /\
                  same_but ["stacktrace"; "raw_stacktrace"] c c') /\
    (forall k, ~ In k merged_keys -> py_get data' k = py_get data k).
Proof.
  induction infos as [|info rest IH];
    intros st data changed st' data' changed' Hnodup Hrec.
  - simpl. intros [= <- <- <-]. repeat split.
    + intros r s Hs. exists s. split; [exact Hs | apply same_but_refl].
    + intros r c Hc. exists c. split; [exact Hc | apply same_but_refl].
  - cbn [merge_all].
    destruct (merge_one ps info st data changed) as [[st1 [d1 c1]]|e] eqn:Hone;
      simpl; [|discriminate].
    intros Hrest.
    destruct (process_single_stacktrace info ps st)
      as [[st0 [[new raw] errs]]|e] eqn:Hrun;
      [|unfold merge_one in Hone; rewrite Hrun in Hone; discriminate].
    pose proof (Hrec info (or_introl eq_refl)) as Hinfo.
    destruct (merge_one_at_record info ps st data changed st1 d1 c1
                st0 new raw errs Hinfo Hrun Hone) as [Hat _].
    destruct (merge_one_container info ps st data changed st1 d1 c1
                st0 new raw errs Hinfo Hrun Hone) as (cc & Hcc & Hcsame).
    destruct (merge_one_errors info ps st data changed st1 d1 c1
                st0 new raw errs Hrun Hone) as [_ Hkeys1].
    assert (Hother : forall r, r <> ref info ->
               located_stacktrace d1 r = located_stacktrace data r /\
               located_container d1 r = located_container data r).
    { intros r Hr.
      apply (merge_one_other_places info ps st data changed st1 d1 c1 r Hone Hr). }
    inversion Hnodup as [|? ? Hnotin Hnodup']; subst.
    destruct (IH st1 d1 c1 st' data' changed' Hnodup') as (IHs & IHc & IHk);
      [|exact Hrest|].
    { intros info' Hin'. destruct (Hrec info' (or_intror Hin')) as (H1 & H2 & H3).
      assert (Hr : ref info' <> ref info).
      { intros Heq. apply Hnotin. rewrite <- Heq. apply in_map, Hin'. }
      destruct (Hother (ref info') Hr) as [Hs' Hc'].
      unfold record_of. rewrite Hs', Hc'. auto. }
    split; [|split].
    + intros r s Hs.
      assert (H1 : exists s1, located_stacktrace d1 r = Some s1 /\
                              same_but ["frames"] s s1).
      { destruct (loc_eq_dec r (ref info)) as [->|Hr].
        - destruct Hinfo as (Hs0 & _). rewrite Hs0 in Hs. injection Hs as <-.
          rewrite Hat. eexists. split; [reflexivity|].
          destruct (process_single_stacktrace_fields ps info st st0 new raw
                      errs Hrun) as ([-> | [_ Hnew]] & _).
          + apply same_but_refl.
          + destruct (is_none new); [apply same_but_refl|].
            intros k Hk. apply Hnew. intros ->. apply Hk. left. reflexivity.
        - destruct (Hother r Hr) as [-> _]. exists s.
          split; [exact Hs | apply same_but_refl]. }
      destruct H1 as (s1 & Hs1 & Hsame1).
      destruct (IHs r s1 Hs1) as (s' & Hs' & Hsame').
      exists s'. split; [exact Hs'|]. eapply same_but_trans; eassumption.
    + intros r c Hc.
      assert (H1 : exists c1', located_container d1 r = Some c1' /\
                     same_but ["stacktrace"; "raw_stacktrace"] c c1').
      { destruct (loc_eq_dec r (ref info)) as [->|Hr].
        - destruct Hinfo as (_ & _ & Hc0). rewrite Hc0 in Hc. injection Hc as <-.
          exists cc. split; assumption.
        - destruct (Hother r Hr) as [_ ->]. exists c.
          split; [exact Hc | apply same_but_refl]. }
      destruct H1 as (c1' & Hc1 & Hsame1).
      destruct (IHc r c1' Hc1) as (c' & Hc' & Hsame').
      exists c'. split; [exact Hc'|]. eapply same_but_trans; eassumption.
    + intros k Hk. rewrite (IHk k Hk). apply Hkeys1, Hk.
Qed.

Lemma loc_lt_irrefl r : ~ loc_lt r r.
Proof. destruct r; simpl; lia. Qed.

Lemma sorted_places_distinct l : StronglySorted loc_lt l -> NoDup l.
Proof.
  induction 1 as [|r l _ IH Hall]; constructor; [|exact IH].
  intros Hin. rewrite Forall_forall in Hall.
  apply (loc_lt_irrefl r), Hall, Hin.
Qed.

(** X12: what the merge loop keeps.  The writes of the merge loop, taken
    over the records the locator found in the payload, leave every stack
    trace that was in the payload at its place, with all its fields but
    the frame list as they were; every exception and thread at its place,
    with all its fields but the stack trace and the raw stack trace as
    they were; and every entry of the payload but the error list and the
    three sections as it was. *)
Theorem merge_loop_keeps_all_but_frames {W}
    (ps : list (StacktraceProcessor W)) data infos st changed
    st' data' changed' :
  find_stacktraces_in_data data = Ok infos ->
  merge_all ps infos st data changed = Ok (st', (data', changed')) ->
  (forall r s, located_stacktrace data r = Some s ->
     exists s', located_stacktrace data' r = Some s' /\
                same_but ["frames"] s s') /\
  (forall r c, located_container data r = Some c ->
     exists c', located_container data' r = Some c' /\
                same_but ["stacktrace"; "raw_stacktrace"] c c') /\
  (forall k, ~ In k merged_keys -> py_get data' k = py_get data k).
Proof.
  intros Hloc Hmerge.
  destruct (find_stacktraces_in_data_spec data infos Hloc)
    as (Hsorted & Hdesc & _).
  apply (merge_all_keeps ps infos st data changed st' data' changed');
    [apply sorted_places_distinct, Hsorted | | exact Hmerge].
  intros info Hin. destruct (Hdesc info Hin) as (H1 & H2 & H3 & _).
  split; [exact H1|]. split; [exact H2 | exact H3].
Qed.

(** X13: no raw variant without a container.  Among the records of the
    locator the one of the top-level stack trace, and it alone, has no
    container; a raw variant returned for it is dropped: when the chain
    returns only a raw variant for that record, [merge_one] writes nothing
    and leaves the [changed] flag as it is. *)
Theorem raw_variant_needs_container {W} (ps : list (StacktraceProcessor W))
    data infos info st st1 raw payload changed :
  find_stacktraces_in_data data = Ok infos ->
  In info infos ->
  (is_none (container info) = true <-> ref info = LTop) /\
  (ref info = LTop ->
   process_single_stacktrace info ps st = Ok (st1, (PyNone, raw, PyList [])) ->
   merge_one ps info st payload changed = Ok (st1, (payload, changed))).
Proof.
  intros Hloc Hin.
  destruct (find_stacktraces_in_data_spec data infos Hloc) as (_ & Hdesc & _).
  destruct (Hdesc info Hin) as (Hs & _ & Hc & _).
  assert (Hiff : is_none (container info) = true <-> ref info = LTop).
  { split.
    - intros Hnone. destruct (ref info) as [n| |n] eqn:Hr; [|reflexivity|];
        rewrite <- Hr in *;
        (assert (Hne : ref info <> LTop) by (rewrite Hr; discriminate));
        destruct (located_stacktrace_dict data (ref info) _ Hne Hs)
          as (c & Hc' & Hdict & _);
        rewrite Hc in Hc'; injection Hc' as <-;
        destruct (container info); discriminate.
    - intros Hr. rewrite Hr in Hc. simpl in Hc. injection Hc as <-.
      reflexivity. }
  split; [exact Hiff|].
  intros Hr Hrun. unfold merge_one. rewrite Hrun. simpl.
  rewrite (proj2 Hiff Hr), andb_false_r. reflexivity.
Qed.

End Merger.

(** X9, at a sample: the raw variant of the sample is attached to its
    exception. *)
Lemma merge_writes_at_the_record_witness :
  located_stacktrace
    (at_container (LExc 0)
       (py_setitem "raw_stacktrace"
          (PyDict [("frames", PyList [frame_a; frame_b; frame_c; frame_a])]))
       sample_event)
    (ref sample_info)
  = Some (if is_none PyNone then stacktrace sample_info else PyNone) /\
  (is_none (PyDict [("frames", PyList [frame_a; frame_b; frame_c; frame_a])])
   = false ->
   is_none (container sample_info) = false ->
   exists c',
     located_container
       (at_container (LExc 0)
          (py_setitem "raw_stacktrace"
             (PyDict [("frames", PyList [frame_a; frame_b; frame_c; frame_a])]))
          sample_event)
       (ref sample_info) = Some c' /\
     py_get c' "raw_stacktrace"
     = Ok (PyDict [("frames", PyList [frame_a; frame_b; frame_c; frame_a])])).
Proof.
  apply (merge_writes_at_the_record sample_info
           [idle_processor; raw_only_processor] start sample_event false
           (mkState 6%nat
                    [EProcessFrame 0 frame_a 2; EProcessFrame 1 frame_a 2;
                     EProcessFrame 0 frame_b 1; EProcessFrame 1 frame_b 1;
                     EProcessFrame 0 frame_c 0; EProcessFrame 1 frame_c 0;
                     EAttachRaw (LExc 0)])
           (at_container (LExc 0)
              (py_setitem "raw_stacktrace"
                 (PyDict [("frames",
                           PyList [frame_a; frame_b; frame_c; frame_a])]))
              sample_event)
           true
           (mkState 6%nat
                    [EProcessFrame 0 frame_a 2; EProcessFrame 1 frame_a 2;
                     EProcessFrame 0 frame_b 1; EProcessFrame 1 frame_b 1;
                     EProcessFrame 0 frame_c 0; EProcessFrame 1 frame_c 0])
           PyNone
           (PyDict [("frames", PyList [frame_a; frame_b; frame_c; frame_a])])
           (PyList []));
    [repeat split | reflexivity | reflexivity].
Defined.

(** ** The plugins *)

Section PluginsMore.

Context {W : Type}.
Variables (plugins : list (plugin W)) (data : pyval)
          (infos : list StacktraceInfo).

Lemma collect_classes_flat_map (ps : list (plugin W)) platforms :
  forall acc,
    collect_classes ps data infos platforms acc
    = acc ++ flat_map (fun p => or_empty (safe_execute (p data infos platforms)))
                      ps.
Proof.
  induction ps as [|p ps IH]; intros acc; simpl.
  - rewrite app_nil_r. reflexivity.
  - rewrite IH, <- app_assoc. reflexivity.
Qed.

Lemma any_plugin_supplies_spec (ps : list (plugin W)) platforms :
  any_plugin_supplies ps data infos platforms = false
  <-> flat_map (fun p => or_empty (safe_execute (p data infos platforms))) ps
      = [].
Proof.
  induction ps as [|p ps IH]; simpl; [split; reflexivity|].
  destruct (safe_execute (p data infos platforms)) as [[|c cs]|]; simpl.
  - exact IH.
  - split; discriminate.
  - exact IH.
Qed.

Lemma collect_classes_supplied :
  collect_classes plugins data infos (all_platforms infos) []
  = supplied_classes plugins data infos.
Proof. apply collect_classes_flat_map. Qed.

Lemma any_plugin_supplies_supplied :
  any_plugin_supplies plugins data infos (all_platforms infos) = false
  <-> supplied_classes plugins data infos = [].
Proof. apply any_plugin_supplies_spec. Qed.

(** X14: the check and the supply agree.  [should_process_for_stacktraces]
    answers [False] exactly when [get_processors_for_stacktraces] returns
    no processor, whatever the project lookup does. *)
Theorem should_process_iff_processors
    (get_from_cache : pyval -> result pyval) :
  find_stacktraces_in_data data = Ok infos ->
  (should_process_for_stacktraces plugins data = Ok false
   <-> get_processors_for_stacktraces plugins get_from_cache data infos
       = Ok []).
Proof.
  intros Hloc. unfold should_process_for_stacktraces. rewrite Hloc.
  cbn [bind]. unfold get_processors_for_stacktraces.
  rewrite collect_classes_supplied.
  pose proof any_plugin_supplies_supplied as Hany.
  destruct (supplied_classes plugins data infos) as [|c cs].
  - rewrite (proj2 Hany eq_refl). split; reflexivity.
  - destruct (any_plugin_supplies plugins data infos (all_platforms infos)).
    + split; [discriminate|].
      destruct (py_getitem data "project") as [id|e]; cbn [bind];
        [|discriminate].
      destruct (get_from_cache id); cbn [bind]; discriminate.
    + discriminate (proj1 Hany eq_refl).
Qed.

(** X15: the processors of a run.  With a project that can be looked up,
    [get_processors_for_stacktraces] returns one instance per supplied
    class, made with the payload, the records and the project, in the
    order of the plugins and, within a plugin, of its classes; a plugin
    whose supply call fails changes nothing for the others. *)
Theorem processors_in_plugin_order
    (get_from_cache : pyval -> result pyval) id project :
  py_getitem data "project" = Ok id ->
  get_from_cache id = Ok project ->
  get_processors_for_stacktraces plugins get_from_cache data infos
  = Ok (map (fun x => x data infos project)
            (supplied_classes plugins data infos)) /\
  forall pre p post e,
    plugins = pre ++ p :: post ->
    p data infos (all_platforms infos) = SupplyFailed e ->
    get_processors_for_stacktraces plugins get_from_cache data infos
    = get_processors_for_stacktraces (pre ++ post) get_from_cache data infos.
Proof.
  intros Hid Hproject.
  assert (Hall : forall ps : list (plugin W),
    get_processors_for_stacktraces ps get_from_cache data infos
    = Ok (map (fun x => x data infos project) (supplied_classes ps data infos))).
  { intros ps. unfold get_processors_for_stacktraces.
    rewrite collect_classes_flat_map. cbn [app].
    fold (supplied_classes ps data infos).
    destruct (supplied_classes ps data infos) as [|c cs]; [reflexivity|].
    rewrite Hid. cbn [bind]. rewrite Hproject. reflexivity. }
  split; [apply Hall|].
  intros pre p post e -> Hfail. rewrite !Hall. unfold supplied_classes.
  rewrite !flat_map_app. simpl. rewrite Hfail. reflexivity.
Qed.

(** X16: the project is looked up only for processors.  When no plugin
    supplies a class the result is the empty list, whether the payload has
    a project or not and whatever the lookup does; when a class is supplied,
    a payload without project ends the call with [KeyError], and so does
    a lookup that fails, with its own exception. *)
Theorem project_only_for_processors
    (get_from_cache : pyval -> result pyval) :
  (supplied_classes plugins data infos = [] ->
   get_processors_for_stacktraces plugins get_from_cache data infos = Ok []) /\
  (supplied_classes plugins data infos <> [] ->
   forall e,
     py_getitem data "project" = Raise e \/
     (exists id, py_getitem data "project" = Ok id /\
                 get_from_cache id = Raise e) ->
     get_processors_for_stacktraces plugins get_from_cache data infos
     = Raise e).
Proof.
  unfold get_processors_for_stacktraces.
  rewrite collect_classes_supplied.
  destruct (supplied_classes plugins data infos) as [|c cs].
  - split; [reflexivity|]. intros H. contradiction.
  - split; [discriminate|]. intros _ e [Hp | (id & Hp & Hl)]; rewrite Hp;
      cbn [bind]; [reflexivity|]. rewrite Hl. reflexivity.
Qed.

End PluginsMore.

(** X17: no processing when the check says no.  If
    [should_process_for_stacktraces] answers [False], then
    [process_stacktraces] with the processors of the plugins returns [None]
    without any event, and without looking the project up. *)
Theorem no_processing_when_check_says_no {W} (plugins : list (plugin W))
    (get_from_cache : pyval -> result pyval) (data : pyval) (st : state W) :
  should_process_for_stacktraces plugins data = Ok false ->
  process_stacktraces_by_plugins plugins get_from_cache data st
  = Ok (st, PyNone).
Proof.
  intros Hcheck. unfold process_stacktraces_by_plugins.
  assert (Hloc : exists infos', find_stacktraces_in_data data = Ok infos').
  { unfold should_process_for_stacktraces in Hcheck.
    destruct (find_stacktraces_in_data data) as [infos'|e];
      [eexists; reflexivity | discriminate]. }
  destruct Hloc as (infos' & Hloc). rewrite Hloc. cbn [bind].
  unfold should_process_for_stacktraces in Hcheck. rewrite Hloc in Hcheck.
  cbn [bind] in Hcheck. injection Hcheck as Hcheck.
  unfold get_processors_for_stacktraces.
  rewrite collect_classes_supplied.
  apply any_plugin_supplies_supplied in Hcheck. rewrite Hcheck. cbn [bind].
  unfold process_stacktraces. rewrite Hloc. reflexivity.
Qed.

(** ** More on the locator *)

Section LocatorMore.

Lemma key_eqb_trans :
  forall a b c, key_eqb a b = true -> key_eqb b c = true -> key_eqb a c = true.
Proof.
  fix IH 1. intros a b c.
  destruct a as [|x|x|x|x|l|x], b as [|y|y|y|y|m|y], c as [|z|z|z|z|n|z];
    simpl; try discriminate; try reflexivity;
    try (intros H1 H2; apply Z.eqb_eq in H1; apply Z.eqb_eq in H2;
         apply Z.eqb_eq; congruence);
    try (intros H1 H2; apply String.eqb_eq in H1; apply String.eqb_eq in H2;
         apply String.eqb_eq; congruence).
  revert m n. induction l as [|u l IHl]; intros [|v m] [|w n]; simpl;
    try discriminate; try reflexivity.
  intros H1 H2. apply andb_prop in H1. apply andb_prop in H2.
  destruct H1 as [H1 H1'], H2 as [H2 H2'].
  rewrite (IH u v w H1 H2). simpl. exact (IHl m n H1' H2').
Qed.

Lemma set_mem_trans p y s :
  key_eqb p y = true -> set_mem y s = true -> set_mem p s = true.
Proof.
  unfold set_mem. intros Hpy Hy. apply existsb_exists in Hy.
  destruct Hy as (z & Hz & Hyz). apply existsb_exists. exists z.
  split; [exact Hz | exact (key_eqb_trans p y z Hpy Hyz)].
Qed.

(** X18: the platform of a frame is a platform of the event.  For a
    record of the locator and a frame of its stack trace,
    [get_effective_platform] of the base class returns a platform that is
    in the platform set of the record and in the set of all platforms that
    is handed to the plugins. *)
Theorem effective_platform_is_listed data infos info frames f :
  find_stacktraces_in_data data = Ok infos ->
  In info infos ->
  frames_of (stacktrace info) = Ok frames ->
  In f frames ->
  exists p,
    get_effective_platform data f = Ok p /\
    set_mem p (platforms info) = true /\
    set_mem p (all_platforms infos) = true.
Proof.
  intros Hloc Hin Hfr Hf.
  destruct (find_stacktraces_in_data_spec data infos Hloc) as (_ & Hdesc & _).
  destruct (Hdesc info Hin) as (_ & _ & _ & frames' & Hfr' & Hall & _).
  rewrite Hfr in Hfr'. injection Hfr' as <-.
  destruct (Hall f Hf) as (p & Hp & Hm).
  exists p. split; [exact Hp|]. split; [exact Hm|].
  unfold set_mem in Hm. apply existsb_exists in Hm.
  destruct Hm as (y & Hy & Hpy).
  destruct (all_platforms_from infos []) as (_ & Hunion).
  destruct (Hunion info y Hin Hy) as [Hmem|Hmem].
  - apply (set_mem_trans p y _ Hpy Hmem).
  - unfold all_platforms, set_mem. apply existsb_exists. exists y.
    split; [exact Hmem | exact Hpy].
Qed.

Lemma frame_platforms_reads_platform data data' frames :
  py_getitem data' "platform" = py_getitem data "platform" ->
  forall acc, frame_platforms data' frames acc = frame_platforms data frames acc.
Proof.
  intros Hp. induction frames as [|f rest IH]; intros acc; simpl;
    [reflexivity|].
  rewrite Hp.
  destruct (py_get f "platform") as [own|e]; cbn [bind]; [|reflexivity].
  destruct (py_or own (py_getitem data "platform")) as [p|e]; cbn [bind];
    [|reflexivity].
  destruct (set_add acc p) as [acc'|e]; cbn [bind]; [|reflexivity].
  apply IH.
Qed.

Lemma scan_values_reads_platform data data' mk items :
  py_getitem data' "platform" = py_getitem data "platform" ->
  forall n rv, scan_values data' mk n items rv = scan_values data mk n items rv.
Proof.
  intros Hp. induction items as [|item rest IH]; intros n rv; simpl;
    [reflexivity|].
  destruct (py_get item "stacktrace") as [s|e]; cbn [bind]; [|reflexivity].
  unfold _report_stack.
  destruct (truthy s).
  - destruct (py_get s "frames") as [fr|e]; cbn [bind]; [|reflexivity].
    destruct (py_or fr (Ok (PyTuple []))) as [fr'|e]; cbn [bind];
      [|reflexivity].
    destruct (py_iter fr') as [frames|e]; cbn [bind]; [|reflexivity].
    rewrite (frame_platforms_reads_platform data data' frames Hp).
    destruct (frame_platforms data frames []) as [pl|e]; cbn [bind];
      [|reflexivity].
    apply IH.
  - cbn [bind]. apply IH.
Qed.

(** X19: what the locator reads.  The locator reads four entries of the
    payload: the exception section, the top-level stack trace, the thread
    section and the platform.  Two dictionaries that agree on these give
    the same records, or the same exception; so the error list that a run
    appends does not change what the locator finds. *)
Theorem locator_reads_four_entries data data' :
  is_dict data = true ->
  is_dict data' = true ->
  (forall k, In k ["sentry.interfaces.Exception";
                   "sentry.interfaces.Stacktrace"; "threads"; "platform"] ->
             py_getitem data' k = py_getitem data k) ->
  find_stacktraces_in_data data' = find_stacktraces_in_data data.
Proof.
  intros Hd Hd' Hsame.
  assert (Hget : forall k, In k ["sentry.interfaces.Exception";
                                 "sentry.interfaces.Stacktrace"; "threads"] ->
                           py_get data' k = py_get data k).
  { intros k Hk. specialize (Hsame k).
    destruct data as [| | | | | |d]; try discriminate.
    destruct data' as [| | | | | |d']; try discriminate.
    simpl in *. 
    assert (Hk' : py_getitem (PyDict d') k = py_getitem (PyDict d) k)
      by (apply Hsame; simpl in Hk; simpl; tauto).
    simpl in Hk'.
    destruct (dict_get d' k), (dict_get d k); congruence. }
  assert (Hp : py_getitem data' "platform" = py_getitem data "platform")
    by (apply Hsame; simpl; tauto).
  assert (Hsec : forall key mk rv,
             In key ["sentry.interfaces.Exception";
                     "sentry.interfaces.Stacktrace"; "threads"] ->
             scan_section data' key mk rv = scan_section data key mk rv).
  { intros key mk rv Hk. unfold scan_section. rewrite (Hget key Hk).
    destruct (py_get data key) as [section|e]; cbn [bind]; [|reflexivity].
    destruct (truthy section); [|reflexivity].
    destruct (py_getitem section "values") as [values|e]; cbn [bind];
      [|reflexivity].
    destruct (py_iter values) as [items|e]; cbn [bind]; [|reflexivity].
    apply scan_values_reads_platform, Hp. }
  unfold find_stacktraces_in_data.
  rewrite Hsec by (simpl; tauto).
  destruct (scan_section data "sentry.interfaces.Exception" LExc [])
    as [rv1|e]; cbn [bind]; [|reflexivity].
  rewrite Hget by (simpl; tauto).
  destruct (py_get data "sentry.interfaces.Stacktrace") as [top|e];
    cbn [bind]; [|reflexivity].
  assert (Hrep : _report_stack data' rv1 top PyNone LTop
                 = _report_stack data rv1 top PyNone LTop).
  { unfold _report_stack.
    destruct (py_get top "frames") as [fr|e]; cbn [bind]; [|reflexivity].
    destruct (py_or fr (Ok (PyTuple []))) as [fr'|e]; cbn [bind];
      [|reflexivity].
    destruct (py_iter fr') as [frames|e]; cbn [bind]; [|reflexivity].
    rewrite (frame_platforms_reads_platform data data' frames Hp).
    reflexivity. }
  rewrite Hrep.
  destruct (if truthy top then _ else _) as [rv2|e]; cbn [bind];
    [|reflexivity].
  rewrite Hsec by (simpl; tauto). reflexivity.
Qed.

End LocatorMore.

(** ** The properties above at samples *)

(** X10, at a sample: merging the exception's record leaves the top-level
    stack trace of the event alone. *)
Lemma merge_leaves_other_places_witness :
  located_stacktrace
    (merged (merge_one [idle_processor; raw_only_processor] sample_info
                       start layered_event false)) LTop
  = located_stacktrace layered_event LTop /\
  located_container
    (merged (merge_one [idle_processor; raw_only_processor] sample_info
                       start layered_event false)) LTop
  = located_container layered_event LTop.
Proof.
  eapply (merge_leaves_other_places sample_info
            [idle_processor; raw_only_processor] start layered_event false
            _ _ _ LTop);
    [reflexivity | discriminate].
Defined.

(** X5, at a sample: the sample record speaks of two platforms, so the key
    is the mixed one. *)
Lemma metrics_key_by_platform_witness :
  get_metrics_key [sample_info] = "mixed.process".
Proof.
  apply (proj2 (proj2 (metrics_key_by_platform [sample_info])));
    intros [_ H];
    specialize (H sample_info (PyStr "python") (or_introl eq_refl)
                  (or_introl eq_refl));
    discriminate.
Defined.

(** X11, at a sample: the error of the innermost frame starts the error
    list of an event that had none. *)
Lemma merge_appends_errors_witness :
  (exists l, PyList [PyStr "bad"] = PyList l /\
     match l with
     | [] =>
         py_get (merged (merge_one [innermost_processor (PyStr "bad")]
                                   sample_info start sample_event false))
                "errors"
         = py_get sample_event "errors"
     | _ :: _ =>
         exists old,
           (py_getitem sample_event "errors" = Ok (PyList old) \/
            py_getitem sample_event "errors" = Raise (KeyError "errors") /\
            old = []) /\
           py_getitem (merged (merge_one [innermost_processor (PyStr "bad")]
                                         sample_info start sample_event false))
                      "errors"
           = Ok (PyList (old ++ l))
     end) /\
  (forall k, ~ In k merged_keys ->
     py_get (merged (merge_one [innermost_processor (PyStr "bad")]
                               sample_info start sample_event false)) k
     = py_get sample_event k).
Proof.
  eapply (merge_appends_errors sample_info
            [innermost_processor (PyStr "bad")] start sample_event false);
    reflexivity.
Defined.

(** X12, at a sample: the merge loop over the two records of an event
    with an exception and a top-level stack trace, with a processor that
    gives a raw variant for each. *)
Lemma merge_loop_keeps_all_but_frames_witness :
  (forall r s, located_stacktrace layered_event r = Some s ->
     exists s',
       located_stacktrace
         (merged (merge_all [idle_processor; raw_only_processor]
                            [sample_info; top_info] start layered_event
                            false)) r = Some s' /\
       same_but ["frames"] s s') /\
  (forall r c, located_container layered_event r = Some c ->
     exists c',
       located_container
         (merged (merge_all [idle_processor; raw_only_processor]
                            [sample_info; top_info] start layered_event
                            false)) r = Some c' /\
       same_but ["stacktrace"; "raw_stacktrace"] c c') /\
  (forall k, ~ In k merged_keys ->
     py_get (merged (merge_all [idle_processor; raw_only_processor]
                               [sample_info; top_info] start layered_event
                               false)) k
     = py_get layered_event k).
Proof.
  eapply (merge_loop_keeps_all_but_frames
            [idle_processor; raw_only_processor] layered_event
            [sample_info; top_info] start false);
    reflexivity.
Defined.

(** X13, at a sample: the raw variant of the top-level stack trace of an
    event is dropped. *)
Lemma raw_variant_needs_container_witness :
  (is_none (container top_info) = true <-> ref top_info = LTop) /\
  (ref top_info = LTop ->
   process_single_stacktrace top_info [idle_processor; raw_only_processor]
                             start
   = Ok (state_after start
           (process_single_stacktrace top_info
              [idle_processor; raw_only_processor] start),
         (PyNone,
          PyDict [("frames", PyList [frame_a; frame_b; frame_c; frame_a])],
          PyList [])) ->
   merge_one [idle_processor; raw_only_processor] top_info start
             layered_event false
   = Ok (state_after start
           (process_single_stacktrace top_info
              [idle_processor; raw_only_processor] start),
         (layered_event, false))).
Proof.
  apply (raw_variant_needs_container [idle_processor; raw_only_processor]
           layered_event [sample_info; top_info] top_info);
    [reflexivity | right; left; reflexivity].
Defined.

(** X14, at a sample: a plugin that fails and one that supplies nothing. *)
Lemma should_process_iff_processors_witness :
  should_process_for_stacktraces [broken_plugin; silent_plugin] sample_event
  = Ok false
  <-> get_processors_for_stacktraces [broken_plugin; silent_plugin]
        sample_cache sample_event [sample_info]
      = Ok [].
Proof.
  apply (should_process_iff_processors [broken_plugin; silent_plugin]
           sample_event [sample_info] sample_cache).
  reflexivity.
Defined.

(** X15, at a sample: the two classes of the python plugin, after a plugin
    that fails. *)
Lemma processors_in_plugin_order_witness :
  get_processors_for_stacktraces [broken_plugin; python_plugin] sample_cache
                                 sample_event [sample_info]
  = Ok (map (fun x => x sample_event [sample_info] (PyStr "project-1"))
            (supplied_classes [broken_plugin; python_plugin] sample_event
                              [sample_info])) /\
  forall pre p post e,
    [broken_plugin; python_plugin] = pre ++ p :: post ->
    p sample_event [sample_info] (all_platforms [sample_info])
    = SupplyFailed e ->
    get_processors_for_stacktraces [broken_plugin; python_plugin]
                                   sample_cache sample_event [sample_info]
    = get_processors_for_stacktraces (pre ++ post) sample_cache sample_event
                                     [sample_info].
Proof.
  apply (processors_in_plugin_order [broken_plugin; python_plugin]
           sample_event [sample_info] sample_cache (PyInt 1)
           (PyStr "project-1"));
    reflexivity.
Defined.

(** X16, at a sample: an event without project, and a plugin that supplies
    classes for it. *)
Lemma project_only_for_processors_witness :
  get_processors_for_stacktraces [python_plugin] sample_cache
    (PyDict [("platform", PyStr "python")]) [sample_info]
  = Raise (KeyError "project").
Proof.
  apply (proj2 (project_only_for_processors [python_plugin]
                  (PyDict [("platform", PyStr "python")]) [sample_info]
                  sample_cache));
    [discriminate | left; reflexivity].
Defined.

(** X17, at a sample: no plugin supplies a class for the sample event. *)
Lemma no_processing_when_check_says_no_witness :
  process_stacktraces_by_plugins [broken_plugin; silent_plugin] sample_cache
                                 sample_event start
  = Ok (start, PyNone).
Proof.
  apply (no_processing_when_check_says_no [broken_plugin; silent_plugin]
           sample_cache sample_event start).
  reflexivity.
Defined.

(** X18, at a sample: the frame of the sample that names its own
    platform. *)
Lemma effective_platform_is_listed_witness :
  exists p,
    get_effective_platform sample_event frame_b = Ok p /\
    set_mem p (platforms sample_info) = true /\
    set_mem p (all_platforms [sample_info]) = true.
Proof.
  apply (effective_platform_is_listed sample_event [sample_info] sample_info
           [frame_a; frame_b; frame_c] frame_b);
    [reflexivity | left; reflexivity | reflexivity
     | right; left; reflexivity].
Defined.

(** X19, at a sample: the sample event and the same event with a release
    and an error list. *)
Lemma locator_reads_four_entries_witness :
  find_stacktraces_in_data
    (PyDict [("errors", PyList [PyStr "bad"]);
             ("platform", PyStr "python");
             ("release", PyStr "1.0");
             ("sentry.interfaces.Exception",
              PyDict [("values", PyList [sample_exception])])])
  = find_stacktraces_in_data sample_event.
Proof.
  apply (locator_reads_four_entries sample_event);
    [reflexivity | reflexivity |].
  intros k [<-|[<-|[<-|[<-|[]]]]]; reflexivity.
Defined.

(** ** Fault isolation *)

Section Isolation.

Context {W : Type}.

Lemma all_decline_app frame info idx (pre post : list (StacktraceProcessor W))
    (w w1 w2 : W) :
  all_decline frame info idx pre w w1 ->
  all_decline frame info idx post w1 w2 ->
  all_decline frame info idx (pre ++ post) w w2.
Proof.
  induction 1 as [w|p ps w wa wb o Hcall Hno Hrest IH]; intros Hpost.
  - exact Hpost.
  - simpl. eapply decline_cons; [exact Hcall | exact Hno | apply IH, Hpost].
Qed.









Lemma invocations_close_events j n : invocations (close_events j n) = [].
Proof.
  unfold close_events. revert j. induction n as [|n IH]; intros j; simpl; auto.
Qed.




End Isolation.



(** ** Sections without their lists *)

Section Absent.

Lemma section_absent_items data key :
  section_absent data key -> section_items data key = Ok [].
Proof.
  intros (v & Hget & Hv). unfold section_items. rewrite Hget. simpl.
  rewrite Hv. reflexivity.
Qed.

Lemma section_fine_items data key :
  section_fine data key ->
  exists items, section_items data key = Ok items /\ scannable data items.
Proof.
  intros [Habs | H]; [|exact H].
  exists []. split; [apply section_absent_items, Habs | intros c []].
Qed.

Lemma top_level_fine_top data :
  top_level_fine data ->
  exists top, py_get data "sentry.interfaces.Stacktrace" = Ok top /\
              (truthy top = true -> reportable data top).
Proof.
  intros [(v & Hget & Hv) | (top & Hget & Hrep)].
  - exists v. split; [exact Hget|]. rewrite Hv. discriminate.
  - exists top. split; [exact Hget|]. intros _. exact Hrep.
Qed.

Lemma frames_of_absent s :
  section_absent s "frames" -> frames_of s = Ok [].
Proof.
  intros (v & Hget & Hv). unfold frames_of, py_or. rewrite Hget. simpl.
  rewrite Hv. reflexivity.
Qed.

(** No record without a stack trace at its place. *)
Lemma record_has_stacktrace data infos info :
  find_stacktraces_in_data data = Ok infos ->
  In info infos ->
  located_stacktrace data (ref info) = Some (stacktrace info) /\
  truthy (stacktrace info) = true /\
  located_container data (ref info) = Some (container info).
Proof.
  intros Hloc Hin.
  destruct (find_stacktraces_in_data_spec data infos Hloc) as (_ & Hdesc & _).
  destruct (Hdesc info Hin) as (H1 & H2 & H3 & _). auto.
Qed.

Lemma missing_values_raise data key mk rv d :
  py_get data key = Ok (PyDict d) ->
  d <> [] ->
  dict_get d "values" = None ->
  scan_section data key mk rv = Raise (KeyError "values").
Proof.
  intros Hget Hd Hvalues. unfold scan_section. rewrite Hget. simpl.
  rewrite Hvalues. destruct d; [contradiction | reflexivity].
Qed.

(** C6, amended: what the locator tolerates.  For every payload, if each
    of the exception section, the top-level stack trace and the thread
    section is absent or empty, or else of the expected shape, and so is
    the stack trace of each exception and thread, the locator returns, and
    it returns no record for a section, or for an exception or thread,
    whose stack trace is absent or empty.  A stack trace without a frame
    list is of the expected shape: the locator returns a record for it,
    with an empty set of platforms.  An exception or thread section that
    is not empty and has no value list is not tolerated: the locator, and
    the run, end with the [KeyError] of the lookup. *)
Theorem absent_sections_are_skipped :
  (forall data,
      section_fine data "sentry.interfaces.Exception" ->
      top_level_fine data ->
      section_fine data "threads" ->
      exists infos,
        find_stacktraces_in_data data = Ok infos /\
        (section_absent data "sentry.interfaces.Exception" ->
         forall info n, In info infos -> ref info <> LExc n) /\
        (section_absent data "sentry.interfaces.Stacktrace" ->
         forall info, In info infos -> ref info <> LTop) /\
        (section_absent data "threads" ->
         forall info n, In info infos -> ref info <> LThread n)) /\
  (forall data infos r c,
      find_stacktraces_in_data data = Ok infos ->
      r <> LTop ->
      located_container data r = Some c ->
      section_absent c "stacktrace" ->
      forall info, In info infos -> ref info <> r) /\
  (forall data infos r s,
      find_stacktraces_in_data data = Ok infos ->
      located_stacktrace data r = Some s ->
      truthy s = true ->
      section_absent s "frames" ->
      reportable data s /\
      exists info,
        In info infos /\ ref info = r /\ stacktrace info = s /\
        platforms info = []) /\
  (forall W data d,
      py_get data "sentry.interfaces.Exception" = Ok (PyDict d) ->
      d <> [] ->
      dict_get d "values" = None ->
      find_stacktraces_in_data data = Raise (KeyError "values") /\
      forall (make_processors :
                pyval -> list StacktraceInfo -> list (StacktraceProcessor W))
             st,
        process_stacktraces make_processors data st
        = Raise (KeyError "values")) /\
  (forall W data d,
      section_fine data "sentry.interfaces.Exception" ->
      top_level_fine data ->
      py_get data "threads" = Ok (PyDict d) ->
      d <> [] ->
      dict_get d "values" = None ->
      find_stacktraces_in_data data = Raise (KeyError "values") /\
      forall (make_processors :
                pyval -> list StacktraceInfo -> list (StacktraceProcessor W))
             st,
        process_stacktraces make_processors data st
        = Raise (KeyError "values")).
Proof.
  split; [|split; [|split; [|split]]].
  - intros data Hexc Htop Hthr.
    destruct (find_stacktraces_in_data_total data) as (infos & Hloc).
    { split; [apply section_fine_items, Hexc|].
      split; [apply top_level_fine_top, Htop | apply section_fine_items, Hthr]. }
    exists infos. split; [exact Hloc|]. split; [|split].
    + intros Habs info n Hin Hr.
      destruct (record_has_stacktrace data infos info Hloc Hin) as (_ & _ & Hc).
      rewrite Hr in Hc. simpl in Hc.
      rewrite (section_absent_items data _ Habs) in Hc.
      destruct n; discriminate.
    + intros (v & Hget & Hv) info Hin Hr.
      destruct (record_has_stacktrace data infos info Hloc Hin) as (Hs & Ht & _).
      rewrite Hr in Hs. simpl in Hs. rewrite Hget in Hs. simpl in Hs.
      injection Hs as Heq. rewrite <- Heq in Ht. congruence.
    + intros Habs info n Hin Hr.
      destruct (record_has_stacktrace data infos info Hloc Hin) as (_ & _ & Hc).
      rewrite Hr in Hc. simpl in Hc.
      rewrite (section_absent_items data _ Habs) in Hc.
      destruct n; discriminate.
  - intros data infos r c Hloc Hr Hc (v & Hget & Hv) info Hin Href.
    destruct (record_has_stacktrace data infos info Hloc Hin) as (Hs & Ht & _).
    rewrite Href in Hs.
    assert (Hsv : located_stacktrace data r = Some v).
    { destruct r as [n| |n]; [|contradiction|];
        cbn [located_stacktrace]; rewrite Hc, Hget; reflexivity. }
    rewrite Hsv in Hs. injection Hs as Heq. rewrite <- Heq in Ht.
    congruence.
  - intros data infos r s Hloc Hs Ht Habs.
    pose proof (frames_of_absent s Habs) as Hfr.
    split.
    + exists []. split; [exact Hfr | intros f []].
    + destruct (find_stacktraces_in_data_spec data infos Hloc)
        as (_ & Hdesc & Hall).
      destruct (Hall r s Hs Ht) as (info & Hin & Hr).
      exists info. split; [exact Hin|]. split; [exact Hr|].
      destruct (Hdesc info Hin) as (Hs' & _ & _ & frames & Hfr' & _ & _ & Hnil).
      rewrite Hr, Hs in Hs'. injection Hs' as Heq.
      split; [symmetry; exact Heq|].
      rewrite <- Heq, Hfr in Hfr'. injection Hfr' as <-.
      apply Hnil. reflexivity.
  - intros W data d Hget Hd Hvalues.
    assert (Hloc : find_stacktraces_in_data data = Raise (KeyError "values")).
    { unfold find_stacktraces_in_data.
      rewrite (missing_values_raise data _ LExc [] d Hget Hd Hvalues).
      reflexivity. }
    split; [exact Hloc|]. intros mk st.
    unfold process_stacktraces. rewrite Hloc. reflexivity.
  - intros W data d Hexc Htop Hget Hd Hvalues.
    assert (Hloc : find_stacktraces_in_data data = Raise (KeyError "values")).
    { destruct (section_fine_items data _ Hexc) as (items & Hitems & Hscan).
      destruct (top_level_fine_top data Htop) as (top & Hgettop & Hrep).
      unfold find_stacktraces_in_data.
      destruct (scan_section_total data "sentry.interfaces.Exception" LExc []
                  items Hitems Hscan) as (rv1 & ->).
      cbn [bind]. rewrite Hgettop. cbn [bind].
      destruct (truthy top).
      - destruct (report_stack_total data rv1 top PyNone LTop (Hrep eq_refl))
          as (rv2 & ->).
        cbn [bind].
        rewrite (missing_values_raise data _ LThread rv2 d Hget Hd Hvalues).
        reflexivity.
      - cbn [bind].
        rewrite (missing_values_raise data _ LThread rv1 d Hget Hd Hvalues).
        reflexivity. }
    split; [exact Hloc|]. intros mk st.
    unfold process_stacktraces. rewrite Hloc. reflexivity.
Qed.

End Absent.

(** C6, at a sample: an event whose second exception has no stack trace,
    with no top-level stack trace and an empty thread section; the stack
    trace without a frame list of [headless_event]; and the exception
    section without a value list of [valueless_event]. *)
Lemma absent_sections_are_skipped_witness :
  (exists infos,
      find_stacktraces_in_data partial_event = Ok infos /\
      (section_absent partial_event "sentry.interfaces.Exception" ->
       forall info n, In info infos -> ref info <> LExc n) /\
      (section_absent partial_event "sentry.interfaces.Stacktrace" ->
       forall info, In info infos -> ref info <> LTop) /\
      (section_absent partial_event "threads" ->
       forall info n, In info infos -> ref info <> LThread n)) /\
  (forall info,
      In info [sample_info] -> ref info <> LExc 1) /\
  (reportable headless_event
              (PyDict [("frames_omitted", PyList [PyInt 1; PyInt 2])]) /\
   exists info,
     In info [mkInfo (PyDict [("frames_omitted", PyList [PyInt 1; PyInt 2])])
                     PyNone [] LTop] /\
     ref info = LTop /\
     stacktrace info
     = PyDict [("frames_omitted", PyList [PyInt 1; PyInt 2])] /\
     platforms info = []) /\
  find_stacktraces_in_data valueless_event = Raise (KeyError "values").
Proof.
  destruct absent_sections_are_skipped
    as (Hfine & Hitem & Hframes & Hvalues & _).
  split; [|split; [|split]].
  - apply (Hfine partial_event).
    + right. exists [sample_exception; PyDict [("type", PyStr "KeyError")]].
      split; [reflexivity|].
      intros c [<-|[<-|[]]].
      * exists sample_stacktrace. split; [reflexivity|]. intros _.
        exists [frame_a; frame_b; frame_c]. split; [reflexivity|].
        intros f [<-|[<-|[<-|[]]]]; eexists; split; reflexivity.
      * exists PyNone. split; [reflexivity | discriminate].
    + left. exists PyNone. split; reflexivity.
    + left. exists (PyDict []). split; reflexivity.
  - apply (Hitem partial_event [sample_info] (LExc 1)
                 (PyDict [("type", PyStr "KeyError")])).
    + reflexivity.
    + discriminate.
    + reflexivity.
    + exists PyNone. split; reflexivity.
  - apply (Hframes headless_event
                   [mkInfo (PyDict [("frames_omitted",
                                     PyList [PyInt 1; PyInt 2])])
                           PyNone [] LTop]
                   LTop).
    + reflexivity.
    + reflexivity.
    + reflexivity.
    + exists PyNone. split; reflexivity.
  - apply (Hvalues nat valueless_event
                   [("exc_omitted", PyList [PyInt 0; PyInt 1])]);
      [reflexivity | discriminate | reflexivity].
Defined.

(** C6, as stated, fails: the exception container of [valueless_event] has
    no value list, and the locator, and with it the run, ends with
    [KeyError]. *)
Lemma container_without_values_counterexample :
  find_stacktraces_in_data valueless_event = Raise (KeyError "values") /\
  process_stacktraces (fun _ _ => [idle_processor]) valueless_event start
  = Raise (KeyError "values").
Proof. split; reflexivity. Qed.

(** The frame chain looks the frame list up with [stacktrace['frames']]:
    on the record the locator hands out for a stack trace without a frame
    list it raises [KeyError]. *)
Lemma frame_chain_needs_frame_list :
  find_stacktraces_in_data headless_event
  = Ok [mkInfo (PyDict [("frames_omitted", PyList [PyInt 1; PyInt 2])])
               PyNone [] LTop] /\
  process_stacktraces (fun _ _ => [idle_processor]) headless_event start
  = Raise (KeyError "frames").
Proof. split; reflexivity. Qed.
